(** * The prompt interpreter, the test runners and the job store

    A shallow embedding of the test-orchestration core of the repository:

    - [MCPServer] (services/mcp_server.py): the prompt interpreter;
    - [TestExecutor] (services/test_executor.py): the first executor;
    - [EnhancedTestExecutor] (services/enhanced_test_executor.py): the
      executor wired into the HTTP routes, with script generation;
    - [Chat] (routes/chat.py): the chat route and the thread-per-job
      scheduling, as a step relation on the shared executor object.

    Prompts are strings of 8-bit characters; [lower] and the character
    classes of the regular expressions follow Python on ASCII text.  The
    browser, the HTTP client and the clock are an interface ([Env]) whose
    operations may raise and may change the outside world. *)

From Stdlib Require Import ZArith Lia List Ascii String DecimalString.
From stdpp Require Import base option list strings gmap.

Open Scope string_scope.
Open Scope list_scope.

(** ** Python strings *)

Module Py.

Definition dq : string := String (ascii_of_nat 34) EmptyString.
Definition nl : string := String (ascii_of_nat 10) EmptyString.

(** [str.lower()] on ASCII text. *)
Definition lower_char (c : ascii) : ascii :=
  let n := nat_of_ascii c in
  if (65 <=? n)%nat && (n <=? 90)%nat then ascii_of_nat (n + 32) else c.

Fixpoint lower (s : string) : string :=
  match s with
  | EmptyString => EmptyString
  | String c s' => String (lower_char c) (lower s')
  end.

(** [needle in hay]. *)
Fixpoint contains (needle hay : string) : bool :=
  String.prefix needle hay ||
  match hay with
  | EmptyString => false
  | String _ hay' => contains needle hay'
  end.

(** [any(w in s for w in words)]. *)
Definition any_in (words : list string) (s : string) : bool :=
  existsb (fun w => contains w s) words.

Fixpoint drop (n : nat) (s : string) : string :=
  match n, s with
  | O, _ => s
  | S n', String _ s' => drop n' s'
  | S _, EmptyString => EmptyString
  end.

(** [s[:n]]. *)
Definition take (n : nat) (s : string) : string := String.substring 0 n s.

(** [sep.join(parts)]. *)
Fixpoint join (sep : string) (parts : list string) : string :=
  match parts with
  | [] => ""
  | [p] => p
  | p :: rest => p +:+ sep +:+ join sep rest
  end.

(** [s.replace(old, new)] for a non-empty [old]. *)
Fixpoint replace_fuel (fuel : nat) (old new s : string) : string :=
  match fuel with
  | O => s
  | S fuel' =>
      if String.prefix old s then
        new +:+ replace_fuel fuel' old new (drop (String.length old) s)
      else
        match s with
        | EmptyString => EmptyString
        | String c s' => String c (replace_fuel fuel' old new s')
        end
  end.

Definition replace (old new s : string) : string :=
  replace_fuel (S (String.length s)) old new s.

(** [str(n)] for an integer. *)
Definition str_of_Z (z : Z) : string := NilZero.string_of_int (Z.to_int z).

(** [base64.b64encode(data).decode()]. *)
Definition b64_alphabet : string :=
  "ABCDEFGHIJKLMNOPQRSTUVWXYZabcdefghijklmnopqrstuvwxyz0123456789+/".

Definition b64_digit (n : nat) : ascii :=
  match String.get n b64_alphabet with
  | Some c => c
  | None => "="%char
  end.

Fixpoint b64encode (data : string) : string :=
  match data with
  | EmptyString => EmptyString
  | String a EmptyString =>
      let x := nat_of_ascii a in
      String (b64_digit (x / 4))
        (String (b64_digit (x mod 4 * 16)) "==")
  | String a (String b EmptyString) =>
      let x := nat_of_ascii a in
      let y := nat_of_ascii b in
      String (b64_digit (x / 4))
        (String (b64_digit (x mod 4 * 16 + y / 16))
           (String (b64_digit (y mod 16 * 4)) "="))
  | String a (String b (String c rest)) =>
      let x := nat_of_ascii a in
      let y := nat_of_ascii b in
      let z := nat_of_ascii c in
      String (b64_digit (x / 4))
        (String (b64_digit (x mod 4 * 16 + y / 16))
           (String (b64_digit (y mod 16 * 4 + z / 64))
              (String (b64_digit (z mod 64)) (b64encode rest))))
  end.

(** Truth value of a string: the empty string is false. *)
Definition truthy (s : string) : bool :=
  match s with EmptyString => false | _ => true end.

End Py.

(** ** Regular expressions: the fragment of [re] the sources use

    Leftmost match, greedy repetition, backtracking in the order Python
    tries the alternatives. *)

Module Re.

Inductive regex : Type :=
| Lit (s : string)                      (* literal text *)
| Cls (p : ascii -> bool)               (* one character of a class *)
| Rep (p : ascii -> bool) (n : nat)     (* class repeated n or more times *)
| Opt (r : regex)                       (* r? *)
| Alt (r1 r2 : regex)                   (* r1|r2 *)
| Seq (r1 r2 : regex)
| Grp (r : regex).                      (* capturing group *)

Definition between (lo hi : nat) (c : ascii) : bool :=
  let n := nat_of_ascii c in (lo <=? n)%nat && (n <=? hi)%nat.

Definition is_char (x : ascii) (c : ascii) : bool := Ascii.eqb x c.

(** [\s]: tab to carriage return, the four separators, space. *)
Definition space (c : ascii) : bool :=
  between 9 13 c || between 28 32 c.
Definition non_space (c : ascii) : bool := negb (space c).
(** [.] : anything but a newline. *)
Definition dot (c : ascii) : bool := negb (is_char (ascii_of_nat 10) c).
Definition alpha (c : ascii) : bool := between 97 122 c || between 65 90 c.
Definition digit (c : ascii) : bool := between 48 57 c.

Fixpoint rep {A} (p : ascii -> bool) (n : nat) (s : string)
    (k : string -> option A) : option A :=
  match s with
  | String c s' =>
      if p c then
        match rep p (Nat.pred n) s' k with
        | Some x => Some x
        | None => if (n =? 0)%nat then k s else None
        end
      else if (n =? 0)%nat then k s else None
  | EmptyString => if (n =? 0)%nat then k s else None
  end.

(** [try_match r s cap k]: match [r] at the start of [s], then continue
    with [k] on the rest and the text of the group. *)
Fixpoint try_match {A} (r : regex) (s : string) (cap : option string)
    (k : string -> option string -> option A) : option A :=
  match r with
  | Lit l =>
      if String.prefix l s then k (Py.drop (String.length l) s) cap else None
  | Cls p =>
      match s with
      | String c s' => if p c then k s' cap else None
      | EmptyString => None
      end
  | Rep p n => rep p n s (fun s' => k s' cap)
  | Opt r1 =>
      match try_match r1 s cap k with
      | Some x => Some x
      | None => k s cap
      end
  | Alt r1 r2 =>
      match try_match r1 s cap k with
      | Some x => Some x
      | None => try_match r2 s cap k
      end
  | Seq r1 r2 => try_match r1 s cap (fun s' cap' => try_match r2 s' cap' k)
  | Grp r1 =>
      try_match r1 s cap
        (fun s' _ => k s' (Some (Py.take (String.length s - String.length s') s)))
  end.

(** What [findall] reports for a match: the group when the pattern has
    one, the whole match otherwise; and the text after the match. *)
Definition match_at (r : regex) (s : string) : option (string * string) :=
  try_match r s None
    (fun s' cap =>
       Some (match cap with
             | Some g => g
             | None => Py.take (String.length s - String.length s') s
             end, s')).

Fixpoint search_from (r : regex) (s : string) : option (string * string) :=
  match match_at r s with
  | Some x => Some x
  | None =>
      match s with
      | EmptyString => None
      | String _ s' => search_from r s'
      end
  end.

(** [re.search(r, s)] as a truth value. *)
Definition search (r : regex) (s : string) : bool :=
  match search_from r s with Some _ => true | None => false end.

(** [re.findall(r, s)], for patterns that match no empty text. *)
Fixpoint findall_fuel (fuel : nat) (r : regex) (s : string) : list string :=
  match fuel with
  | O => []
  | S fuel' =>
      match search_from r s with
      | None => []
      | Some (x, rest) => x :: findall_fuel fuel' r rest
      end
  end.

Definition findall (r : regex) (s : string) : list string :=
  findall_fuel (S (String.length s)) r s.

Fixpoint seq (rs : list regex) : regex :=
  match rs with
  | [] => Lit ""
  | [r] => r
  | r :: rs' => Seq r (seq rs')
  end.

(** [a.*b.*c]: the words in order on one line. *)
Fixpoint words (ws : list string) : regex :=
  match ws with
  | [] => Lit ""
  | [w] => Lit w
  | w :: ws' => Seq (Lit w) (Seq (Rep dot 0) (words ws'))
  end.

End Re.

(** ** Data model *)

(** An action is a dictionary with a ['type'] and, by kind, ['url'],
    ['target'], ['text'] or ['condition']; a missing key is [None]. *)
Record Action := mkAction {
  a_type : string;
  a_url : option string;
  a_target : option string;
  a_text : option string;
  a_condition : option string
}.

Definition navigate_action (url : string) : Action :=
  mkAction "navigate" (Some url) None None None.
Definition click_action (target : string) : Action :=
  mkAction "click" None (Some target) None None.
Definition type_action (text : string) : Action :=
  mkAction "type" None None (Some text) None.
Definition verify_action (condition : string) : Action :=
  mkAction "verify" None None None (Some condition).
Definition screenshot_action : Action :=
  mkAction "screenshot" None None None None.

Record Options := mkOptions {
  o_browser : option string;
  o_headless : option bool;
  o_timeout : option Z
}.

(** ** services/mcp_server.py *)

Module MCPServer.

Import Re.

Definition test_patterns : list (string * list regex) :=
  [ ("ui_test",
      [ words ["test"; "login"]; words ["check"; "form"];
        words ["verify"; "button"]; words ["click"; "element"];
        words ["navigate"; "to"]; Lit "screenshot";
        words ["test"; "ui"]; words ["check"; "page"];
        words ["verify"; "element"] ]);
    ("api_test",
      [ words ["test"; "api"]; words ["check"; "endpoint"];
        words ["verify"; "response"]; words ["test"; "request"];
        words ["api"; "call"]; words ["http"; "request"];
        words ["rest"; "api"]; words ["json"; "response"] ]);
    ("mixed_test",
      [ words ["test"; "workflow"]; words ["end"; "to"; "end"];
        words ["integration"; "test"]; words ["full"; "test"] ]) ].

Definition action_patterns (kind : string) : list string :=
  if String.eqb kind "navigate" then ["go to"; "navigate to"; "visit"; "open"]
  else if String.eqb kind "click" then ["click"; "press"; "tap"]
  else if String.eqb kind "type" then ["type"; "enter"; "input"; "fill"]
  else if String.eqb kind "verify" then ["verify"; "check"; "validate"; "ensure"]
  else if String.eqb kind "screenshot" then ["screenshot"; "capture"; "image"]
  else if String.eqb kind "wait" then ["wait"; "pause"; "delay"]
  else [].

Inductive Interpretation : Type :=
| Conversational (content : string)
| TestRequest (test_type : string) (target_url : option string)
    (actions : list Action) (options : Options).

Definition is_test_request (i : Interpretation) : bool :=
  match i with Conversational _ => false | TestRequest _ _ _ _ => true end.

Definition _is_test_request (message : string) : bool :=
  let test_keywords :=
    [ "test"; "check"; "verify"; "validate"; "ensure";
      "screenshot"; "click"; "navigate"; "api"; "endpoint" ] in
  Py.any_in test_keywords message.

Fixpoint first_group (message : string) (groups : list (string * list regex))
    : option string :=
  match groups with
  | [] => None
  | (test_type, patterns) :: rest =>
      if existsb (fun pattern => search pattern message) patterns
      then Some (Py.replace "_test" "" test_type)
      else first_group message rest
  end.

Definition _determine_test_type (message : string) : string :=
  match first_group message test_patterns with
  | Some t => t
  | None => "ui"
  end.

(** [https?://[^\s]+] *)
Definition url_pattern : regex :=
  seq [Lit "http"; Opt (Lit "s"); Lit "://"; Rep non_space 1].

Definition domain_char (c : ascii) : bool :=
  alpha c || digit c || is_char "."%char c || is_char "-"%char c.

(** [(?:on|at|from)\s+([a-zA-Z0-9.-]+\.[a-zA-Z]{2,})] *)
Definition domain_pattern : regex :=
  seq [ Alt (Lit "on") (Alt (Lit "at") (Lit "from")); Rep space 1;
        Grp (seq [Rep domain_char 1; Lit "."; Rep alpha 2]) ].

Definition _extract_url (message : string) : option string :=
  match findall url_pattern message with
  | u :: _ => Some u
  | [] =>
      match findall domain_pattern message with
      | d :: _ => Some ("https://" +:+ d)
      | [] => None
      end
  end.

Definition _extract_click_targets (message : string) : list string :=
  let ui_elements :=
    [ "button"; "link"; "menu"; "tab"; "checkbox"; "radio";
      "submit"; "login"; "signup"; "search"; "close"; "cancel" ] in
  let targets := filter (fun element => Py.contains element message = true) ui_elements in
  match targets with
  | [] => ["button"]
  | _ => targets
  end.

Definition not_dq (c : ascii) : bool := negb (is_char (ascii_of_nat 34) c).

Definition _extract_text_to_type (message : string) : string :=
  match findall (seq [Lit Py.dq; Grp (Rep not_dq 0); Lit Py.dq]) message with
  | q :: _ => q
  | [] =>
      if Py.contains "username" message || Py.contains "email" message
      then "test@example.com"
      else if Py.contains "password" message then "testpassword123"
      else "test input"
  end.

Definition _extract_verification_condition (message : string) : string :=
  if Py.contains "success" message then "success_message"
  else if Py.contains "error" message then "error_message"
  else if Py.contains "redirect" message then "page_redirect"
  else if Py.contains "element" message then "element_present"
  else "page_loaded".

(** The five blocks of [_parse_actions], in the order of the source. *)
Definition navigate_part (message : string) : list Action :=
  if Py.any_in (action_patterns "navigate") message then
    match _extract_url message with
    | Some url => [navigate_action url]
    | None => []
    end
  else [].

Definition click_part (message : string) : list Action :=
  if Py.any_in (action_patterns "click") message
  then map click_action (_extract_click_targets message)
  else [].

Definition type_part (message : string) : list Action :=
  if Py.any_in (action_patterns "type") message
  then [type_action (_extract_text_to_type message)]
  else [].

Definition verify_part (message : string) : list Action :=
  if Py.any_in (action_patterns "verify") message
  then [verify_action (_extract_verification_condition message)]
  else [].

Definition screenshot_part (message : string) : list Action :=
  if Py.any_in (action_patterns "screenshot") message
  then [screenshot_action]
  else [].

Definition _parse_actions (message : string) : list Action :=
  let actions := [] in
  let actions := actions ++ navigate_part message in
  let actions := actions ++ click_part message in
  let actions := actions ++ type_part message in
  let actions := actions ++ verify_part message in
  let actions := actions ++ screenshot_part message in
  actions.

Definition greeting_reply : string :=
  "Hello! I'm here to help you with UI and API testing. You can ask me to test websites, check forms, verify APIs, or take screenshots. What would you like to test?".

Definition help_reply : string :=
  Py.join Py.nl
    [ "I can help you with various types of testing:";
      "";
      "ğŸ” **UI Testing**: Test login forms, buttons, navigation, take screenshots";
      "ğŸŒ **API Testing**: Check endpoints, verify responses, validate JSON";
      "ğŸ”„ **Mixed Testing**: End-to-end workflows combining UI and API tests";
      "";
      "Just describe what you want to test in natural language! For example:";
      "- " +:+ Py.dq +:+ "Test the login form on example.com" +:+ Py.dq;
      "- " +:+ Py.dq +:+ "Check if the API endpoint /users returns valid JSON" +:+ Py.dq;
      "- " +:+ Py.dq +:+ "Take a screenshot of the homepage" +:+ Py.dq;
      "" ].

Definition generic_reply : string :=
  "I understand. I'm here to help you with testing. What would you like me to test for you?".

Definition _generate_conversational_response (message : string) : string :=
  let greetings := ["hello"; "hi"; "hey"] in
  if Py.any_in greetings (Py.lower message) then greeting_reply
  else
    let help_keywords := ["help"; "what can you do"; "how"] in
    if Py.any_in help_keywords (Py.lower message) then help_reply
    else generic_reply.

Definition default_options : Options :=
  mkOptions (Some "chromium") (Some true) (Some 30000%Z).

Definition process_message (message : string) : Interpretation :=
  let message_lower := Py.lower message in
  let is_test_request := _is_test_request message_lower in
  if negb is_test_request then
    Conversational (_generate_conversational_response message)
  else
    let test_type := _determine_test_type message_lower in
    let target_url := _extract_url message in
    let actions := _parse_actions message_lower in
    TestRequest test_type target_url actions default_options.

End MCPServer.

(** ** Results *)

(** A step's ['screenshot'] is [None] when the key is absent or holds
    Python's [None]. *)
Record StepResult := mkStep {
  s_action : string;
  s_status : string;
  s_screenshot : option string;
  s_logs : list string
}.

Record Results := mkResults {
  res_success : bool;
  res_steps : list StepResult
}.

(** The dictionaries the runners return and the store keeps; a missing
    key is [None]. *)
Record TestResult := mkTestResult {
  r_test_id : option string;
  r_status : string;
  r_error : option string;
  r_execution_time : option Z;
  r_results : option Results;
  r_generated_script : option string
}.

Record Request := mkRequest {
  test_id : string;
  prompt : string;
  test_type : string;
  target_url : option string;
  options : Options
}.

(** [all(step['status'] == 'success' for step in steps)] *)
Definition all_success (steps : list StepResult) : bool :=
  forallb (fun step => String.eqb (s_status step) "success") steps.

(** ** The outside world

    A computation reads and changes the world and either returns or
    raises an [Exception] with a message ([str(e)]). *)

Inductive outcome (A : Type) : Type :=
| Ok (a : A)
| Raise (msg : string).
Arguments Ok {A} a.
Arguments Raise {A} msg.

Definition M (W A : Type) : Type := W -> outcome A * W.

Definition ret {W A} (a : A) : M W A := fun w => (Ok a, w).

Definition raise {W A} (msg : string) : M W A := fun w => (Raise msg, w).

Definition bind {W A B} (c : M W A) (k : A -> M W B) : M W B :=
  fun w =>
    match c w with
    | (Ok a, w') => k a w'
    | (Raise msg, w') => (Raise msg, w')
    end.

(** [try: c  except Exception as e: handler(str(e))] *)
Definition catch {W A} (c : M W A) (handler : string -> M W A) : M W A :=
  fun w =>
    match c w with
    | (Ok a, w') => (Ok a, w')
    | (Raise msg, w') => handler msg w'
    end.

(** [try: c  finally: cleanup] *)
Definition finally {W A} (c : M W A) (cleanup : M W unit) : M W A :=
  fun w =>
    match c w with
    | (r, w') =>
        match cleanup w' with
        | (Ok _, w'') => (r, w'')
        | (Raise msg, w'') => (Raise msg, w'')
        end
    end.

Notation "x <- c ;; k" := (bind c (fun x => k))
  (at level 100, c at next level, right associativity).
Notation "c ;;; k" := (bind c (fun _ => k))
  (at level 100, k at level 200, right associativity).

(** What [requests.request] returns, as far as the runners read it:
    [resp_elapsed] is the elapsed time already formatted to two decimals,
    [resp_json] the indented dump of the body when it parses as JSON. *)
Record Response := mkResponse {
  status_code : Z;
  resp_elapsed : string;
  resp_content_type : option string;
  resp_json : option string;
  resp_text : string
}.

Class Env (W : Type) := {
  playwright_start : M W unit;
  playwright_stop : M W unit;
  browser_launch : string -> bool -> M W unit;
  browser_new_context : M W unit;
  new_page : M W unit;
  context_close : M W unit;
  browser_close : M W unit;
  page_goto : string -> option Z -> M W unit;
  page_wait_for_timeout : Z -> M W unit;
  page_screenshot : bool -> M W string;
  page_title : M W string;
  page_click : string -> Z -> M W unit;
  page_fill : string -> string -> M W unit;
  page_wait_for_selector : string -> Z -> M W unit;
  requests_request : string -> string -> M W Response;
  time_time : W -> Z * W
}.

(** [async with async_playwright() as p: body] *)
Definition with_playwright {W} `{Env W} {A} (body : M W A) : M W A :=
  playwright_start ;;; finally body playwright_stop.

(** The three-way choice of engine. *)
Definition launch {W} `{Env W} (req : Request) : M W unit :=
  let browser_type := default "chromium" (o_browser (options req)) in
  let headless := default true (o_headless (options req)) in
  if String.eqb browser_type "firefox" then browser_launch "firefox" headless
  else if String.eqb browser_type "webkit" then browser_launch "webkit" headless
  else browser_launch "chromium" headless.

Definition error_step (action_type msg : string) : StepResult :=
  mkStep action_type "failed" None
    ["Error executing " +:+ action_type +:+ ": " +:+ msg].

(** [/[a-zA-Z0-9/_-]+] *)
Definition endpoint_char (c : ascii) : bool :=
  Re.alpha c || Re.digit c || Re.is_char "/"%char c || Re.is_char "_"%char c
  || Re.is_char "-"%char c.
Definition endpoint_pattern : Re.regex :=
  Re.Seq (Re.Lit "/") (Re.Rep endpoint_char 1).

Record ApiDetails := mkApi {
  api_method : string;
  api_url : string;
  api_headers : list (string * string);
  api_data : option string
}.

(** [_parse_api_from_prompt], the same text in both executors. *)
Definition _parse_api_from_prompt (prompt : string) : ApiDetails :=
  let urls := Re.findall MCPServer.url_pattern prompt in
  let urls :=
    match urls with
    | [] =>
        match Re.findall endpoint_pattern prompt with
        | e :: _ => ["https://api.example.com" +:+ e]
        | [] => urls
        end
    | _ => urls
    end in
  let method :=
    if Py.contains "post" (Py.lower prompt) then "POST"
    else if Py.contains "put" (Py.lower prompt) then "PUT"
    else if Py.contains "delete" (Py.lower prompt) then "DELETE"
    else "GET" in
  mkApi method
    (match urls with u :: _ => u | [] => "https://api.example.com/test" end)
    [("Content-Type", "application/json")] None.

(** The step of a request that returned, before the body preview. *)
Definition api_step (api_details : ApiDetails) (response : Response) : StepResult :=
  mkStep (api_method api_details +:+ " " +:+ api_url api_details)
    (if (status_code response <? 400)%Z then "success" else "failed")
    None
    [ "Status Code: " +:+ Py.str_of_Z (status_code response);
      "Response Time: " +:+ resp_elapsed response +:+ "s";
      "Content Type: " +:+ default "unknown" (resp_content_type response) ].

Definition add_log (step : StepResult) (line : string) : StepResult :=
  mkStep (s_action step) (s_status step) (s_screenshot step) (s_logs step ++ [line]).

(** ** services/test_executor.py *)

Module TestExecutor.

Section Executor.
Context {W : Type} `{Env W}.

Definition _get_selectors_for_target (target : string) : list string :=
  if String.eqb target "login" then
    [ "button[type=" +:+ Py.dq +:+ "submit" +:+ Py.dq +:+ "]";
      "input[type=" +:+ Py.dq +:+ "submit" +:+ Py.dq +:+ "]";
      "button:has-text(" +:+ Py.dq +:+ "Login" +:+ Py.dq +:+ ")";
      "button:has-text(" +:+ Py.dq +:+ "Sign In" +:+ Py.dq +:+ ")";
      ".login-button";
      "#login-button" ]
  else if String.eqb target "submit" then
    [ "button[type=" +:+ Py.dq +:+ "submit" +:+ Py.dq +:+ "]";
      "input[type=" +:+ Py.dq +:+ "submit" +:+ Py.dq +:+ "]";
      "button:has-text(" +:+ Py.dq +:+ "Submit" +:+ Py.dq +:+ ")";
      ".submit-button" ]
  else if String.eqb target "button" then
    [ "button";
      "input[type=" +:+ Py.dq +:+ "button" +:+ Py.dq +:+ "]";
      "input[type=" +:+ Py.dq +:+ "submit" +:+ Py.dq +:+ "]";
      ".btn" ]
  else
    [ "button:has-text(" +:+ Py.dq +:+ target +:+ Py.dq +:+ ")";
      "." +:+ target;
      "#" +:+ target ].

(** [for selector in selectors: try: op(selector); break  except: continue]:
    the first selector the operation accepts, if any. *)
Fixpoint first_accepted (op : string -> M W unit) (selectors : list string)
    : M W (option string) :=
  match selectors with
  | [] => ret None
  | selector :: rest =>
      catch (op selector ;;; ret (Some selector))
            (fun _ => first_accepted op rest)
  end.

Definition input_selectors : list string :=
  [ "input[type=" +:+ Py.dq +:+ "text" +:+ Py.dq +:+ "]";
    "input[type=" +:+ Py.dq +:+ "email" +:+ Py.dq +:+ "]";
    "input[type=" +:+ Py.dq +:+ "password" +:+ Py.dq +:+ "]";
    "textarea" ].

Definition success_selectors : list string :=
  [ ".success"; ".alert-success";
    "[data-testid=" +:+ Py.dq +:+ "success" +:+ Py.dq +:+ "]" ].

Definition _execute_action (action : Action) : M W StepResult :=
  let action_type := a_type action in
  catch
    (if String.eqb action_type "navigate" then
       match a_url action with
       | None => raise "'url'"
       | Some url =>
           page_goto url None ;;;
           let logs := ["Navigated to " +:+ url] in
           screenshot <- page_screenshot false ;;
           let screenshot_b64 := Py.b64encode screenshot in
           ret (mkStep ("navigate to " +:+ url) "success" (Some screenshot_b64) logs)
       end
     else if String.eqb action_type "click" then
       let target := default "button" (a_target action) in
       let selectors := _get_selectors_for_target target in
       clicked <- first_accepted (fun selector => page_click selector 5000) selectors ;;
       match clicked with
       | None =>
           ret (mkStep ("click " +:+ target) "failed" None
                  ["Could not find " +:+ target +:+ " to click"])
       | Some selector =>
           let logs := ["Clicked " +:+ target +:+ " using selector: " +:+ selector] in
           page_wait_for_timeout 1000 ;;;
           screenshot <- page_screenshot false ;;
           let screenshot_b64 := Py.b64encode screenshot in
           ret (mkStep ("click " +:+ target) "success" (Some screenshot_b64) logs)
       end
     else if String.eqb action_type "type" then
       let text := default "test input" (a_text action) in
       typed <- first_accepted (fun selector => page_fill selector text) input_selectors ;;
       match typed with
       | None =>
           ret (mkStep ("type '" +:+ text +:+ "'") "failed" None
                  ["Could not find input field to type into"])
       | Some selector =>
           ret (mkStep ("type '" +:+ text +:+ "'") "success" None
                  ["Typed '" +:+ text +:+ "' into " +:+ selector])
       end
     else if String.eqb action_type "verify" then
       let condition := default "page_loaded" (a_condition action) in
       logs <-
         (if String.eqb condition "page_loaded" then
            title <- page_title ;;
            ret ["Page loaded with title: " +:+ title]
          else if String.eqb condition "element_present" then
            found <- first_accepted
                       (fun selector => page_wait_for_selector selector 2000)
                       success_selectors ;;
            match found with
            | Some selector => ret ["Found success element: " +:+ selector]
            | None => ret ["No success elements found"]
            end
          else ret []) ;;
       ret (mkStep ("verify " +:+ condition) "success" None logs)
     else if String.eqb action_type "screenshot" then
       screenshot <- page_screenshot false ;;
       let screenshot_b64 := Py.b64encode screenshot in
       ret (mkStep "screenshot" "success" (Some screenshot_b64) ["Screenshot captured"])
     else
       ret (mkStep ("unknown action: " +:+ action_type) "failed" None
              ["Unknown action type: " +:+ action_type]))
    (fun e => ret (error_step action_type e)).

(** [(?:on|at|from)\s+([a-zA-Z0-9.-]+\.[a-zA-Z]{2,})], as in the
    interpreter. *)
Definition _parse_actions_from_prompt (prompt : string) : list Action :=
  let actions := [] in
  let prompt_lower := Py.lower prompt in
  let urls := Re.findall MCPServer.url_pattern prompt in
  let urls :=
    match urls with
    | [] =>
        match Re.findall MCPServer.domain_pattern prompt with
        | d :: _ => ["https://" +:+ d]
        | [] => urls
        end
    | _ => urls
    end in
  let actions :=
    match urls with
    | u :: _ => actions ++ [navigate_action u]
    | [] => actions
    end in
  let actions :=
    if Py.any_in ["click"; "press"; "tap"] prompt_lower then
      if Py.contains "login" prompt_lower then actions ++ [click_action "login"]
      else if Py.contains "submit" prompt_lower then actions ++ [click_action "submit"]
      else if Py.contains "button" prompt_lower then actions ++ [click_action "button"]
      else actions
    else actions in
  let actions :=
    if Py.any_in ["type"; "enter"; "fill"] prompt_lower
    then actions ++ [type_action "test@example.com"]
    else actions in
  let actions :=
    if Py.contains "screenshot" prompt_lower
    then actions ++ [screenshot_action]
    else actions in
  let actions :=
    match actions, urls with
    | [], _ :: _ => actions ++ [screenshot_action]
    | _, _ => actions
    end in
  actions.

(** [for action in actions: ...append...; if not success: break]: the
    steps recorded for the actions. *)
Fixpoint run_actions (actions : list Action) (steps : list StepResult)
    : M W (list StepResult) :=
  match actions with
  | [] => ret steps
  | action :: rest =>
      step_result <- _execute_action action ;;
      let steps := steps ++ [step_result] in
      if negb (String.eqb (s_status step_result) "success")
      then ret steps
      else run_actions rest steps
  end.

Definition final_screenshot_step (screenshot_b64 : string) : StepResult :=
  mkStep "final_screenshot" "success" (Some screenshot_b64)
    ["Final screenshot captured"].

Definition _execute_ui_test (test_request : Request) : M W TestResult :=
  steps <-
    with_playwright
      (launch test_request ;;;
       new_page ;;;
       finally
         (let actions := _parse_actions_from_prompt (prompt test_request) in
          steps <- run_actions actions [] ;;
          screenshot <- page_screenshot false ;;
          let screenshot_b64 := Py.b64encode screenshot in
          ret (steps ++ [final_screenshot_step screenshot_b64]))
         browser_close) ;;
  let success := all_success steps in
  ret (mkTestResult None (if success then "completed" else "failed") None None
         (Some (mkResults success steps)) None).

(** The body of the [try] of [_execute_api_test]. *)
Definition api_attempt (test_request : Request) : M W (list StepResult) :=
  let api_details := _parse_api_from_prompt (prompt test_request) in
  catch
    (response <- requests_request (api_method api_details) (api_url api_details) ;;
     let step_result := api_step api_details response in
     match resp_json response with
     | Some dump =>
         ret [add_log step_result ("JSON Response: " +:+ Py.take 500 dump +:+ "...")]
     | None =>
         ret [add_log step_result
                ("Text Response: " +:+ Py.take 500 (resp_text response) +:+ "...")]
     end)
    (fun e => ret [mkStep "api_request" "failed" None ["Error: " +:+ e]]).

Definition _execute_api_test (test_request : Request) : M W TestResult :=
  steps <- api_attempt test_request ;;
  let success := all_success steps in
  ret (mkTestResult None (if success then "completed" else "failed") None None
         (Some (mkResults success steps)) None).

Definition _execute_mixed_test (test_request : Request) : M W TestResult :=
  _execute_ui_test test_request.

Definition dispatch (test_request : Request) : M W TestResult :=
  let test_type := test_type test_request in
  if String.eqb test_type "api" then _execute_api_test test_request
  else if String.eqb test_type "ui" then _execute_ui_test test_request
  else if String.eqb test_type "mixed" then _execute_mixed_test test_request
  else _execute_ui_test test_request.

Definition _execute_test_async (test_request : Request) : M W TestResult :=
  let test_id := test_id test_request in
  fun w =>
    let (start_time, w) := time_time w in
    catch
      (result <- dispatch test_request ;;
       fun w =>
         let (now, w) := time_time w in
         let execution_time := (now - start_time)%Z in
         (Ok (mkTestResult (Some test_id) (r_status result) (r_error result)
                (Some execution_time) (r_results result)
                (r_generated_script result)), w))
      (fun e w =>
         let (now, w) := time_time w in
         (Ok (mkTestResult (Some test_id) "failed" (Some e)
                (Some (now - start_time)%Z)
                (Some (mkResults false [])) None), w))
      w.

End Executor.

End TestExecutor.
(** ** services/enhanced_test_executor.py *)

Module EnhancedTestExecutor.

(** Where a thread started on [_run_async_test] stands: before its first
    write, between the write of the result and the write of the status,
    or returned. *)
Inductive Position : Type :=
| AtRun
| AtStatusWrite (result : TestResult)
| Finished.

Record Thread := mkThread {
  th_args : Request;
  th_at : Position
}.

(** The object's three dictionaries.  [running_tests] holds the thread
    objects; where a thread stands is part of the thread object. *)
Record Executor := mkExecutor {
  test_results : gmap string TestResult;
  test_status : gmap string string;
  running_tests : gmap string Thread
}.

Definition new_executor : Executor := mkExecutor ∅ ∅ ∅.

(** [(?:on|at|from|of)\s+([a-zA-Z0-9.-]+\.[a-zA-Z]{2,})] *)
Definition domain_pattern : Re.regex :=
  Re.seq
    [ Re.Alt (Re.Lit "on") (Re.Alt (Re.Lit "at") (Re.Alt (Re.Lit "from") (Re.Lit "of")));
      Re.Rep Re.space 1;
      Re.Grp (Re.seq [Re.Rep MCPServer.domain_char 1; Re.Lit "."; Re.Rep Re.alpha 2]) ].

Definition _parse_actions_from_prompt (prompt : string) : list Action :=
  let actions := [] in
  let prompt_lower := Py.lower prompt in
  let urls := Re.findall MCPServer.url_pattern prompt in
  let urls :=
    match urls with
    | [] =>
        match Re.findall domain_pattern prompt with
        | d :: _ => ["https://" +:+ d]
        | [] => urls
        end
    | _ => urls
    end in
  let actions :=
    match urls with
    | u :: _ => actions ++ [navigate_action u]
    | [] => actions
    end in
  let actions :=
    if Py.contains "screenshot" prompt_lower
    then actions ++ [screenshot_action]
    else actions in
  let actions :=
    match actions, urls with
    | [], _ :: _ => actions ++ [screenshot_action]
    | _, _ => actions
    end in
  actions.

Definition _generate_error_script (test_request : Request) (error : string) : string :=
  let test_type := test_type test_request in
  if String.eqb test_type "api" then
    Py.join Py.nl
      [ "import { test, expect } from '@playwright/test';";
        "";
        "test('Failed API Test', async ({ request }) => {";
        "  // This test failed with error: " +:+ error;
        "  // Original prompt: " +:+ prompt test_request;
        "  ";
        "  // TODO: Fix the error and retry";
        "});" ]
  else
    Py.join Py.nl
      [ "import { test, expect } from '@playwright/test';";
        "";
        "test('Failed UI Test', async ({ page }) => {";
        "  // This test failed with error: " +:+ error;
        "  // Original prompt: " +:+ prompt test_request;
        "  ";
        "  // TODO: Fix the error and retry";
        "});" ].

Definition status_assertion : string :=
  "  expect(response.status()).toBeLessThan(400);".

Section Runner.
Context {W : Type} `{Env W}.

(** [try: shot = page.screenshot(full_page=True); b64 = ...; logs.append(ok)
     except Exception as e: b64 = None; logs.append(f"Screenshot failed: ...")] *)
Definition capture (ok_line : string) : M W (option string * string) :=
  catch
    (screenshot <- page_screenshot true ;;
     ret (Some (Py.b64encode screenshot), ok_line))
    (fun e => ret (None, "Screenshot failed: " +:+ e)).

(** The result is [None] where the Python function falls off its end;
    the second component is [script_lines] after the call. *)
Definition _execute_action (action : Action) (script_lines : list string)
    : M W (option StepResult * list string) :=
  let action_type := a_type action in
  if String.eqb action_type "navigate" then
    match a_url action with
    | None => ret (Some (error_step action_type "'url'"), script_lines)
    | Some url =>
        let script_lines :=
          script_lines ++
            [ "  // Navigate to " +:+ url;
              "  await page.goto('" +:+ url +:+ "');";
              "  await page.waitForLoadState('networkidle');" ] in
        catch
          (page_goto url (Some 30000%Z) ;;;
           let logs := ["Navigated to " +:+ url] in
           page_wait_for_timeout 2000 ;;;
           shot <- capture "Screenshot captured successfully" ;;
           ret (Some (mkStep ("navigate to " +:+ url) "success" (fst shot)
                        (logs ++ [snd shot])),
                script_lines))
          (fun e => ret (Some (error_step action_type e), script_lines))
    end
  else if String.eqb action_type "screenshot" then
    let script_lines :=
      script_lines ++
        [ "  // Take screenshot";
          "  await page.screenshot({ path: 'screenshot.png', fullPage: true });" ] in
    catch
      (shot <- capture "Screenshot captured" ;;
       ret (Some (mkStep "screenshot"
                    (match fst shot with
                     | Some screenshot_b64 =>
                         if Py.truthy screenshot_b64 then "success" else "failed"
                     | None => "failed"
                     end)
                    (fst shot) [snd shot]),
            script_lines))
      (fun e => ret (Some (error_step action_type e), script_lines))
  else ret (None, script_lines).

(** The loop of [_execute_ui_test]; [step_result['status']] raises when
    [_execute_action] returned [None]. *)
Fixpoint run_actions (actions : list Action) (steps : list StepResult)
    (script_lines : list string) : M W (list StepResult * list string) :=
  match actions with
  | [] => ret (steps, script_lines)
  | action :: rest =>
      r <- _execute_action action script_lines ;;
      match r with
      | (None, _) => raise "'NoneType' object is not subscriptable"
      | (Some step_result, script_lines) =>
          let steps := steps ++ [step_result] in
          if negb (String.eqb (s_status step_result) "success")
          then ret (steps, script_lines)
          else run_actions rest steps script_lines
      end
  end.

(** The trailing [try]/[except] around the final screenshot. *)
Definition final_screenshot (steps : list StepResult) (script_lines : list string)
    : M W (list StepResult * list string) :=
  catch
    (screenshot <- page_screenshot true ;;
     let screenshot_b64 := Py.b64encode screenshot in
     ret (steps ++ [mkStep "final_screenshot" "success" (Some screenshot_b64)
                      ["Final screenshot captured"]],
          script_lines ++
            [ "  // Take final screenshot";
              "  await page.screenshot({ path: 'final-screenshot.png', fullPage: true });" ]))
    (fun e =>
       ret (steps ++ [mkStep "final_screenshot" "failed" None
                        ["Failed to capture final screenshot: " +:+ e]],
            script_lines)).

Definition ui_script_header : list string :=
  [ "import { test, expect } from '@playwright/test';";
    "";
    "test('Generated UI Test', async ({ page }) => {" ].

(** The body of the inner [try] of [_execute_ui_test]. *)
Definition ui_body (test_request : Request) (steps : list StepResult)
    (script_lines : list string) : M W (list StepResult * list string) :=
  let actions := _parse_actions_from_prompt (prompt test_request) in
  r <- run_actions actions steps script_lines ;;
  final_screenshot (fst r) (snd r).

Definition _execute_ui_test (test_request : Request) : M W TestResult :=
  let steps := [] in
  let script_lines := [] ++ ui_script_header in
  r <-
    with_playwright
      (launch test_request ;;;
       browser_new_context ;;;
       new_page ;;;
       finally
         (ui_body test_request steps script_lines)
         (context_close ;;; browser_close)) ;;
  let steps := fst r in
  let script_lines := snd r ++ ["});"] in
  let success := all_success steps in
  ret (mkTestResult None (if success then "completed" else "failed") None None
         (Some (mkResults success steps))
         (Some (Py.join Py.nl script_lines))).

Definition api_script_header : list string :=
  [ "import { test, expect } from '@playwright/test';";
    "";
    "test('Generated API Test', async ({ request }) => {" ].

(** The body of the [try] of [_execute_api_test], with the script lines it
    has appended when it returns or raises. *)
Definition api_attempt (test_request : Request) (script_lines : list string)
    : M W (list StepResult * list string) :=
  let api_details := _parse_api_from_prompt (prompt test_request) in
  let script_lines :=
    script_lines ++
      [ "  // Make " +:+ api_method api_details +:+ " request to " +:+ api_url api_details;
        "  const response = await request." +:+ Py.lower (api_method api_details)
          +:+ "('" +:+ api_url api_details +:+ "');";
        status_assertion ] in
  catch
    (response <- requests_request (api_method api_details) (api_url api_details) ;;
     let step_result := api_step api_details response in
     match resp_json response with
     | Some dump =>
         ret ([add_log step_result ("JSON Response: " +:+ Py.take 500 dump +:+ "...")],
              script_lines ++
                [ "  const jsonData = await response.json();";
                  "  expect(jsonData).toBeDefined();" ])
     | None =>
         ret ([add_log step_result
                 ("Text Response: " +:+ Py.take 500 (resp_text response) +:+ "...")],
              script_lines ++
                [ "  const textData = await response.text();";
                  "  expect(textData).toBeDefined();" ])
     end)
    (fun e =>
       ret ([mkStep "api_request" "failed" None ["Error: " +:+ e]],
            script_lines ++ ["  // Error occurred: " +:+ e])).

Definition _execute_api_test (test_request : Request) : M W TestResult :=
  let script_lines := [] ++ api_script_header in
  r <- api_attempt test_request script_lines ;;
  let steps := fst r in
  let script_lines := snd r ++ ["});"] in
  let success := all_success steps in
  ret (mkTestResult None (if success then "completed" else "failed") None None
         (Some (mkResults success steps))
         (Some (Py.join Py.nl script_lines))).

Definition _execute_mixed_test (test_request : Request) : M W TestResult :=
  _execute_ui_test test_request.

(** The [if]/[elif] chain inside the [try] of [_execute_test_async]. *)
Definition dispatch (test_request : Request) : M W TestResult :=
  let test_type := test_type test_request in
  if String.eqb test_type "api" then _execute_api_test test_request
  else if String.eqb test_type "ui" then _execute_ui_test test_request
  else if String.eqb test_type "mixed" then _execute_mixed_test test_request
  else _execute_ui_test test_request.

Definition set_time_and_id (result : TestResult) (execution_time : Z) (id : string)
    : TestResult :=
  mkTestResult (Some id) (r_status result) (r_error result) (Some execution_time)
    (r_results result) (r_generated_script result).

Definition _execute_test_async (test_request : Request) : M W TestResult :=
  let test_id := test_id test_request in
  fun w =>
    let (start_time, w) := time_time w in
    catch
      (result <- dispatch test_request ;;
       fun w =>
         let (now, w) := time_time w in
         let execution_time := (now - start_time)%Z in
         (Ok (set_time_and_id result execution_time test_id), w))
      (fun e w =>
         let (now, w) := time_time w in
         (Ok (mkTestResult (Some test_id) "failed" (Some e)
                (Some (now - start_time)%Z)
                (Some (mkResults false []))
                (Some (_generate_error_script test_request e))), w))
      w.

(** [execute_test]: the synchronous entry. *)
Definition execute_test (test_request : Request) : M W TestResult :=
  _execute_test_async test_request.

End Runner.

(** *** The store *)

(** [execute_test_async]: the status write, then the thread is started
    and remembered. *)
Definition execute_test_async (test_request : Request) (self : Executor) : Executor :=
  let test_id := test_id test_request in
  mkExecutor (test_results self)
    (<[test_id := "running"]> (test_status self))
    (<[test_id := mkThread test_request AtRun]> (running_tests self)).

(** The dictionary [_run_async_test] stores when [asyncio.run] raised. *)
Definition scheduler_failure (test_request : Request) (e : string) : TestResult :=
  mkTestResult (Some (test_id test_request)) "failed" (Some e) (Some 0%Z) None
    (Some (_generate_error_script test_request e)).

(** What the thread stores, from what [asyncio.run(...)] did. *)
Definition stored_result (test_request : Request) (ran : outcome TestResult) : TestResult :=
  match ran with
  | Ok result => result
  | Raise e => scheduler_failure test_request e
  end.

(** The first write of [_run_async_test] (lines 41 and 45). *)
Definition write_result (test_request : Request) (result : TestResult) (self : Executor)
    : Executor :=
  mkExecutor (<[test_id test_request := result]> (test_results self))
    (test_status self) (running_tests self).

(** The second write (lines 42 and 52). *)
Definition write_status (test_request : Request) (result : TestResult) (self : Executor)
    : Executor :=
  mkExecutor (test_results self)
    (<[test_id test_request := r_status result]> (test_status self))
    (running_tests self).

(** [_run_async_test], given what [asyncio.run(...)] did. *)
Definition _run_async_test_with (test_request : Request) (ran : outcome TestResult)
    (self : Executor) : Executor :=
  let result := stored_result test_request ran in
  write_status test_request result (write_result test_request result self).

Definition _run_async_test {W} `{Env W} (test_request : Request) (w : W)
    (self : Executor) : Executor * W :=
  let (ran, w') := _execute_test_async test_request w in
  (_run_async_test_with test_request ran self, w').

Record StatusReply := mkStatusReply {
  sr_test_id : string;
  sr_status : string
}.

(** The lookups return their answer and the object as they leave it. *)
Definition get_test_status (test_id : string) (self : Executor)
    : outcome StatusReply * Executor :=
  (Ok (mkStatusReply test_id (default "not_found" (test_status self !! test_id))), self).

Definition not_found_result (test_id : string) : TestResult :=
  mkTestResult (Some test_id) "not_found" (Some "Test results not found")
    None None None.

Definition get_test_results (test_id : string) (self : Executor)
    : outcome TestResult * Executor :=
  (Ok (default (not_found_result test_id) (test_results self !! test_id)), self).

End EnhancedTestExecutor.

(** ** routes/chat.py *)

Module Chat.

Import EnhancedTestExecutor.

Record Metadata := mkMetadata {
  m_test_id : string;
  m_status : string
}.

Record ChatReply := mkReply {
  c_id : string;
  c_type : string;
  c_content : string;
  c_timestamp : string;
  c_metadata : option Metadata
}.

(** [handle_chat_message] on a text [content]; the two identifiers are
    what [uuid.uuid4()] returns and [timestamp] what the clock reads. *)
Definition handle_chat_message (message_id test_id timestamp : string)
    (user_message : string) (test_executor : Executor) : ChatReply * Executor :=
  let response := MCPServer.process_message user_message in
  match response with
  | MCPServer.TestRequest test_type target_url _ options =>
      let test_request := mkRequest test_id user_message test_type target_url options in
      let test_executor := execute_test_async test_request test_executor in
      (mkReply message_id "assistant"
         "I'll help you test that. Starting test execution..."
         timestamp (Some (mkMetadata test_id "pending")),
       test_executor)
  | MCPServer.Conversational content =>
      (mkReply message_id "assistant" content timestamp None, test_executor)
  end.

(** The thread started on [test_request] has advanced to [position]. *)
Definition advance (test_request : Request) (position : Position) (self : Executor)
    : Executor :=
  mkExecutor (test_results self) (test_status self)
    (<[test_id test_request := mkThread test_request position]> (running_tests self)).

(** What [asyncio.run(self._execute_test_async(test_request))] can do in
    a thread: raise by itself, or end as the runner ends in some world. *)
Definition runner_outcome (test_request : Request) (ran : outcome TestResult) : Prop :=
  (exists e, ran = Raise e) \/
  (exists (W : Type) (E : Env W) (w : W), ran = fst (_execute_test_async test_request w)).

(** The steps of the shared executor object: a chat message arrives (with
    a fresh job identifier), a thread makes its first write, a thread
    makes its second write. *)
Inductive step : Executor -> Executor -> Prop :=
| step_message message_id test_id timestamp user_message self :
    test_status self !! test_id = None ->
    step self (snd (handle_chat_message message_id test_id timestamp user_message self))
| step_result test_id test_request ran self :
    running_tests self !! test_id = Some (mkThread test_request AtRun) ->
    runner_outcome test_request ran ->
    step self
      (advance test_request (AtStatusWrite (stored_result test_request ran))
         (write_result test_request (stored_result test_request ran) self))
| step_status test_id test_request result self :
    running_tests self !! test_id = Some (mkThread test_request (AtStatusWrite result)) ->
    step self (advance test_request Finished (write_status test_request result self)).

Inductive reachable : Executor -> Prop :=
| reach_new : reachable new_executor
| reach_step self self' : reachable self -> step self self' -> reachable self'.

(** What a route sends back: [jsonify] of a result, or the error body
    with code 500. *)
Inductive RouteReply : Type :=
| Json (result : TestResult)
| Error500 (error : string) (test_id : option string) (status : option string).

(** The fields the route reads from a JSON object with [data.get]: a
    text under ['prompt'], and under the other keys nothing, or a text,
    a text and an object of options. *)
Record ExecuteBody := mkExecuteBody {
  b_prompt : string;
  b_test_type : option string;
  b_target_url : option string;
  b_options : option Options
}.

(** What [request.get_json()] does in [/test/execute]: it raises (the
    body is no JSON), or it returns a value with no [get] (null, a list,
    a text, a number, a boolean), for which [data.get] raises with the
    message [no_get]; or it returns an object.  For an object whose
    values are of other types than [ExecuteBody] has, [ran] is what
    [test_executor.execute_test] does on the request built from it. *)
Inductive ParsedBody (W : Type) : Type :=
| GetJsonRaises (e : string)
| NotAnObject (no_get : string)
| OtherObject (ran : W -> outcome TestResult * W)
| JsonObject (data : ExecuteBody).

Arguments GetJsonRaises {W} e.
Arguments NotAnObject {W} no_get.
Arguments OtherObject {W} ran.
Arguments JsonObject {W} data.

(** The end of the [try] block of [/test/execute]: the route hands
    [asyncio.run] what [test_executor.execute_test] has already
    returned; [asyncio.run] refuses what is not awaitable and raises,
    with the message [not_awaitable result].  The handler answers any
    exception with the error body, the job id and code 500. *)
Definition answer_run {W} (not_awaitable : TestResult -> string) (test_id : string)
    (ran : outcome TestResult * W) : outcome RouteReply * W :=
  match ran with
  | (Ok result, w') =>
      (Ok (Error500 (not_awaitable result) (Some test_id) (Some "failed")), w')
  | (Raise e, w') => (Ok (Error500 e (Some test_id) (Some "failed")), w')
  end.

(** [/test/execute].  [test_id] is what [uuid.uuid4()] returns; it is
    bound after [request.get_json()] has returned.  When that call
    raises, the handler's error body reads a [test_id] that is not
    bound, and the handler raises in its turn, with the message
    [unbound], having answered nothing. *)
Definition execute_test {W} `{Env W} (not_awaitable : TestResult -> string)
    (unbound : string) (test_id : string) (body : ParsedBody W) (w : W)
    : outcome RouteReply * W :=
  match body with
  | GetJsonRaises e => (Raise unbound, w)
  | NotAnObject no_get => (Ok (Error500 no_get (Some test_id) (Some "failed")), w)
  | OtherObject ran => answer_run not_awaitable test_id (ran w)
  | JsonObject data =>
      let test_request :=
        mkRequest test_id (b_prompt data) (default "ui" (b_test_type data))
          (b_target_url data) (default (mkOptions None None None) (b_options data)) in
      answer_run not_awaitable test_id
        (EnhancedTestExecutor.execute_test test_request w)
  end.

End Chat.

(** ** A scripted world

    An instance of [Env] to run the model on examples: the browser starts
    or not, a given number of screenshots succeed before the page is
    gone, no selector is ever found, the HTTP endpoint answers with a
    fixed status or refuses the connection, and the clock ticks at each
    reading. *)

Module Rig.

Record World := mkWorld {
  launches : bool;
  shots_left : nat;
  http_status : option Z;
  clock : Z
}.

Definition ok_unit : M World unit := ret tt.

Definition rig_launch (browser_type : string) (headless : bool) : M World unit :=
  fun w =>
    if launches w then (Ok tt, w)
    else (Raise ("Executable doesn't exist for " +:+ browser_type), w).

Definition rig_screenshot (full_page : bool) : M World string :=
  fun w =>
    match shots_left w with
    | O => (Raise "Target page, context or browser has been closed", w)
    | S n => (Ok "PNG", mkWorld (launches w) n (http_status w) (clock w))
    end.

Definition rig_timeout (selector : string) : M World unit :=
  raise ("Timeout exceeded waiting for " +:+ selector).

Definition rig_request (method url : string) : M World Response :=
  fun w =>
    match http_status w with
    | Some code =>
        (Ok (mkResponse code "0.12" (Some "application/json")
               (Some "{ ok: true }") "{ ok: true }"), w)
    | None => (Raise "Connection refused", w)
    end.

Definition rig_time (w : World) : Z * World :=
  (clock w, mkWorld (launches w) (shots_left w) (http_status w) (clock w + 1)%Z).

#[global] Instance rig_env : Env World := {|
  playwright_start := ok_unit;
  playwright_stop := ok_unit;
  browser_launch := rig_launch;
  browser_new_context := ok_unit;
  new_page := ok_unit;
  context_close := ok_unit;
  browser_close := ok_unit;
  page_goto := fun _ _ => ok_unit;
  page_wait_for_timeout := fun _ => ok_unit;
  page_screenshot := rig_screenshot;
  page_title := ret "Example Domain";
  page_click := fun selector _ => rig_timeout selector;
  page_fill := fun selector _ => rig_timeout selector;
  page_wait_for_selector := fun selector _ => rig_timeout selector;
  requests_request := rig_request;
  time_time := rig_time
|}.

(** A request as the chat route builds it. *)
Definition request (test_id prompt test_type : string) : Request :=
  mkRequest test_id prompt test_type None MCPServer.default_options.

End Rig.

(** ** Vocabulary of the properties *)

(** The actions of an interpretation; a conversational reply has none. *)
Definition intent_actions (i : MCPServer.Interpretation) : list Action :=
  match i with
  | MCPServer.Conversational _ => []
  | MCPServer.TestRequest _ _ actions _ => actions
  end.

(** The kinds come in blocks: navigate, click, type, verify, screenshot. *)
Definition kinds_in_order (actions : list Action) : Prop :=
  exists n c t v s : nat,
    map a_type actions =
      replicate n "navigate" ++ replicate c "click" ++ replicate t "type" ++
      replicate v "verify" ++ replicate s "screenshot".

(** The steps through the first one that is not a success. *)
Fixpoint upto_first_failure (steps : list StepResult) : list StepResult :=
  match steps with
  | [] => []
  | step :: rest =>
      if String.eqb (s_status step) "success"
      then step :: upto_first_failure rest
      else [step]
  end.

(** What each action yields when all of them are executed in turn, with
    no early stop: entry [i] is the step of action [i]. *)
Fixpoint steps_of_all {W} `{Env W} (actions : list Action) (w : W) : list StepResult :=
  match actions with
  | [] => []
  | action :: rest =>
      match TestExecutor._execute_action action w with
      | (Ok step, w') => step :: steps_of_all rest w'
      | (Raise _, _) => []
      end
  end.

(** The same for the executor with script generation. *)
Fixpoint enhanced_steps_of_all {W} `{Env W} (actions : list Action)
    (script_lines : list string) (w : W) : list StepResult :=
  match actions with
  | [] => []
  | action :: rest =>
      match EnhancedTestExecutor._execute_action action script_lines w with
      | (Ok (Some step, script_lines'), w') =>
          step :: enhanced_steps_of_all rest script_lines' w'
      | _ => []
      end
  end.

(** The two kinds the executor with script generation handles. *)
Definition two_kinds (action : Action) : Prop :=
  a_type action = "navigate" \/ a_type action = "screenshot".

(** The two statuses a runner's result can carry. *)
Definition finished_status (status : string) : Prop :=
  status = "completed" \/ status = "failed".

(** What the three dictionaries say about one id, by where its thread
    stands. *)
Definition consistent (self : EnhancedTestExecutor.Executor) (id : string) : Prop :=
  match EnhancedTestExecutor.running_tests self !! id with
  | None =>
      EnhancedTestExecutor.test_status self !! id = None /\
      EnhancedTestExecutor.test_results self !! id = None
  | Some thread =>
      test_id (EnhancedTestExecutor.th_args thread) = id /\
      match EnhancedTestExecutor.th_at thread with
      | EnhancedTestExecutor.AtRun =>
          EnhancedTestExecutor.test_status self !! id = Some "running" /\
          EnhancedTestExecutor.test_results self !! id = None
      | EnhancedTestExecutor.AtStatusWrite result =>
          EnhancedTestExecutor.test_status self !! id = Some "running" /\
          EnhancedTestExecutor.test_results self !! id = Some result /\
          finished_status (r_status result)
      | EnhancedTestExecutor.Finished =>
          exists result,
            EnhancedTestExecutor.test_results self !! id = Some result /\
            EnhancedTestExecutor.test_status self !! id = Some (r_status result) /\
            finished_status (r_status result)
      end
  end.

(** The thread of [id] stands between its two writes. *)
Definition between_writes (self : EnhancedTestExecutor.Executor) (id : string) : Prop :=
  exists test_request result,
    EnhancedTestExecutor.running_tests self !! id =
      Some (EnhancedTestExecutor.mkThread test_request
              (EnhancedTestExecutor.AtStatusWrite result)).

(** ** Running a computation by cases on what the world answers *)

Ltac world_cases :=
  repeat (match goal with
          | |- context [let (_, _) := ?c in _] =>
              lazymatch type of c with
              | (outcome _ * _)%type =>
                  lazymatch c with
                  | (let (_, _) := _ in _) => fail
                  | (match _ with _ => _ end) => fail
                  | _ => destruct c as [[?|?] ?] eqn:?
                  end
              end
          end; simpl).

Ltac world_cases_in H :=
  repeat (match type of H with
          | context [let (_, _) := ?c in _] =>
              lazymatch type of c with
              | (outcome _ * _)%type =>
                  lazymatch c with
                  | (let (_, _) := _ in _) => fail
                  | (match _ with _ => _ end) => fail
                  | _ => destruct c as [[?|?] ?] eqn:?
                  end
              end
          end; simpl in H).

(** ** Vocabulary of the regular expressions *)

(** Every character of the string satisfies [P]. *)
Fixpoint every (P : ascii -> Prop) (s : string) : Prop :=
  match s with
  | EmptyString => True
  | String c s' => P c /\ every P s'
  end.

(** The texts a pattern without groups can match. *)
Fixpoint lang (r : Re.regex) (t : string) : Prop :=
  match r with
  | Re.Lit l => t = l
  | Re.Cls p => exists c, t = String c EmptyString /\ p c = true
  | Re.Rep p n => every (fun c => p c = true) t /\ n <= String.length t
  | Re.Opt r1 => t = EmptyString \/ lang r1 t
  | Re.Alt r1 r2 => lang r1 t \/ lang r2 t
  | Re.Seq r1 r2 => exists t1 t2, t = t1 +:+ t2 /\ lang r1 t1 /\ lang r2 t2
  | Re.Grp r1 => lang r1 t
  end.

Fixpoint group_free (r : Re.regex) : bool :=
  match r with
  | Re.Lit _ | Re.Cls _ | Re.Rep _ _ => true
  | Re.Opt r1 => group_free r1
  | Re.Alt r1 r2 | Re.Seq r1 r2 => group_free r1 && group_free r2
  | Re.Grp _ => false
  end.

(** A text that starts with one of the two schemes. *)
Definition has_scheme (url : string) : Prop :=
  String.prefix "http://" url = true \/ String.prefix "https://" url = true.

Definition no_space (c : ascii) : Prop := Re.space c = false.

Definition is_lower (c : ascii) : Prop := Py.lower_char c = c.

(** [[a-zA-Z0-9.-]+\.[a-zA-Z]{2,}], the group of the domain patterns. *)
Definition domain_body : Re.regex :=
  Re.seq [Re.Rep MCPServer.domain_char 1; Re.Lit "."; Re.Rep Re.alpha 2].

(** [u] is read off the message: a piece of it, either an absolute URL as
    it stands or a domain name put behind [https://]. *)
Definition url_read_from (message u : string) : Prop :=
  exists before t after,
    message = before +:+ t +:+ after /\
    ((u = t /\ lang MCPServer.url_pattern t) \/
     (u = "https://" +:+ t /\ lang domain_body t)).

(** The nouns [_extract_click_targets] looks for. *)
Definition ui_elements : list string :=
  [ "button"; "link"; "menu"; "tab"; "checkbox"; "radio";
    "submit"; "login"; "signup"; "search"; "close"; "cancel" ].

Definition not_dq_char (c : ascii) : Prop := c <> ascii_of_nat 34.

(** The script lines [EnhancedTestExecutor._execute_action] appends for
    an action, before it touches the page. *)
Definition action_script (action : Action) : list string :=
  if String.eqb (a_type action) "navigate" then
    match a_url action with
    | Some url =>
        [ "  // Navigate to " +:+ url;
          "  await page.goto('" +:+ url +:+ "');";
          "  await page.waitForLoadState('networkidle');" ]
    | None => []
    end
  else if String.eqb (a_type action) "screenshot" then
    [ "  // Take screenshot";
      "  await page.screenshot({ path: 'screenshot.png', fullPage: true });" ]
  else [].

(** The two lines a successful final screenshot adds to the script. *)
Definition final_script : list string :=
  [ "  // Take final screenshot";
    "  await page.screenshot({ path: 'final-screenshot.png', fullPage: true });" ].

(** The request with another test type. *)
Definition with_test_type (kind : string) (test_request : Request) : Request :=
  mkRequest (test_id test_request) (prompt test_request) kind
    (target_url test_request) (options test_request).

(** A result without its generated script. *)
Definition without_script (result : TestResult) : TestResult :=
  mkTestResult (r_test_id result) (r_status result) (r_error result)
    (r_execution_time result) (r_results result) None.

(** * Properties *)

(** ** The string model on literals *)

Example lower_mixed_case : Py.lower "Go To HTTPS://x.Y" = "go to https://x.y".
Proof. reflexivity. Qed.

Example replace_suffix : Py.replace "_test" "" "mixed_test" = "mixed".
Proof. reflexivity. Qed.

Example str_of_status : Py.str_of_Z 404 = "404".
Proof. reflexivity. Qed.

Example b64encode_padding :
  Py.b64encode "Man" = "TWFu" /\ Py.b64encode "Ma" = "TWE=" /\
  Py.b64encode "M" = "TQ==".
Proof. repeat split; reflexivity. Qed.

Example findall_two_urls :
  Re.findall MCPServer.url_pattern "see http://a.b/c and https://d.e" =
    ["http://a.b/c"; "https://d.e"].
Proof. vm_compute. reflexivity. Qed.

Example extract_url_backtracks :
  MCPServer._extract_url "test the form on my-site.example.org." =
    Some "https://my-site.example.org".
Proof. vm_compute. reflexivity. Qed.

Example determine_api :
  MCPServer._determine_test_type "check the users endpoint" = "api".
Proof. vm_compute. reflexivity. Qed.

(** ** The status store's lookups *)

Section Lookups.
Import EnhancedTestExecutor.

(** C9. For an id present in neither dictionary, [get_test_status] returns
    its not_found sentinel and [get_test_results] its not_found sentinel
    result; both return (they do not raise) and leave the object as
    it was. *)
Theorem unknown_id_lookups (id : string) (self : Executor) :
  test_status self !! id = None ->
  test_results self !! id = None ->
  get_test_status id self = (Ok (mkStatusReply id "not_found"), self) /\
  get_test_results id self =
    (Ok (mkTestResult (Some id) "not_found" (Some "Test results not found")
           None None None), self).
Proof.
  intros Hstatus Hresults.
  unfold get_test_status, get_test_results, not_found_result.
  rewrite Hstatus, Hresults. split; reflexivity.
Qed.

Lemma unknown_id_lookups_nonexistent :
  let self := execute_test_async (Rig.request "job-1" "take a screenshot" "ui") new_executor in
  get_test_status "nonexistent" self = (Ok (mkStatusReply "nonexistent" "not_found"), self) /\
  get_test_results "nonexistent" self =
    (Ok (mkTestResult (Some "nonexistent") "not_found" (Some "Test results not found")
           None None None), self).
Proof.
  apply (unknown_id_lookups "nonexistent"); reflexivity.
Defined.

End Lookups.

(** ** The prompt interpreter *)

Section Interpreter.
Import MCPServer.

Lemma no_keyword_not_a_request (message : string) :
  Forall (fun keyword => Py.contains keyword message = false)
    [ "test"; "check"; "verify"; "validate"; "ensure";
      "screenshot"; "click"; "navigate"; "api"; "endpoint" ] ->
  _is_test_request message = false.
Proof.
  intros Hnone. unfold _is_test_request, Py.any_in.
  induction Hnone as [|keyword keywords Hhere _ IH]; simpl.
  - reflexivity.
  - rewrite Hhere. exact IH.
Qed.

(** C6. A prompt whose lower-cased text contains none of the ten trigger
    keywords is answered with a conversational reply: the interpreter
    produces no test request, and the chat route answers without
    metadata and leaves the executor (statuses, results, threads) as it
    was, so no job is created. *)
Theorem no_keyword_conversational (prompt : string) :
  Forall (fun keyword => Py.contains keyword (Py.lower prompt) = false)
    [ "test"; "check"; "verify"; "validate"; "ensure";
      "screenshot"; "click"; "navigate"; "api"; "endpoint" ] ->
  process_message prompt = Conversational (_generate_conversational_response prompt) /\
  is_test_request (process_message prompt) = false /\
  forall message_id test_id timestamp self,
    Chat.handle_chat_message message_id test_id timestamp prompt self =
      (Chat.mkReply message_id "assistant" (_generate_conversational_response prompt)
         timestamp None, self).
Proof.
  intros Hnone. apply no_keyword_not_a_request in Hnone.
  assert (Hreply : process_message prompt =
                   Conversational (_generate_conversational_response prompt)).
  { unfold process_message. rewrite Hnone. reflexivity. }
  split; [exact Hreply|]. split.
  - rewrite Hreply. reflexivity.
  - intros. unfold Chat.handle_chat_message. rewrite Hreply. reflexivity.
Qed.

Lemma no_keyword_conversational_hello :
  process_message "Hello there" = Conversational greeting_reply /\
  is_test_request (process_message "Hello there") = false /\
  forall message_id test_id timestamp self,
    Chat.handle_chat_message message_id test_id timestamp "Hello there" self =
      (Chat.mkReply message_id "assistant" greeting_reply timestamp None, self).
Proof.
  apply (no_keyword_conversational "Hello there").
  repeat constructor.
Defined.

Lemma kinds_of_parse_actions (message : string) :
  kinds_in_order (_parse_actions message).
Proof.
  unfold kinds_in_order, _parse_actions. simpl.
  exists (length (navigate_part message)), (length (click_part message)),
         (length (type_part message)), (length (verify_part message)),
         (length (screenshot_part message)).
  rewrite !map_app, <- !app_assoc. repeat f_equal.
  - unfold navigate_part.
    destruct (Py.any_in _ _); [destruct (_extract_url message)|]; reflexivity.
  - unfold click_part. destruct (Py.any_in _ _); [|reflexivity].
    induction (_extract_click_targets message) as [|target targets IH];
      simpl; [reflexivity | f_equal; exact IH].
  - unfold type_part. destruct (Py.any_in _ _); reflexivity.
  - unfold verify_part. destruct (Py.any_in _ _); reflexivity.
  - unfold screenshot_part. destruct (Py.any_in _ _); reflexivity.
Qed.

(** C7. Whatever the prompt, the kinds of the extracted actions come in
    blocks in the fixed order navigate, click, type, verify, screenshot
    (for the parser on any message, hence for the actions of every
    interpretation); and "go to https://example.com and take a
    screenshot" yields exactly Navigate{https://example.com} followed by
    Screenshot{}, as does the prompt with the two requests swapped. *)
Theorem actions_in_kind_priority_order :
  (forall message, kinds_in_order (_parse_actions message)) /\
  (forall prompt, kinds_in_order (intent_actions (process_message prompt))) /\
  intent_actions (process_message "go to https://example.com and take a screenshot") =
    [navigate_action "https://example.com"; screenshot_action] /\
  intent_actions (process_message "take a screenshot and go to https://example.com") =
    [navigate_action "https://example.com"; screenshot_action].
Proof.
  split; [exact kinds_of_parse_actions|]. split.
  - intros prompt. unfold process_message.
    destruct (negb _); simpl.
    + exists 0, 0, 0, 0, 0. reflexivity.
    + apply kinds_of_parse_actions.
  - split; vm_compute; reflexivity.
Qed.

End Interpreter.

(** ** The executor behind the routes handles two kinds of action *)

Section TwoKinds.
Import EnhancedTestExecutor.

Lemma parsed_kinds (prompt : string) :
  Forall (fun action => a_type action = "navigate" \/ a_type action = "screenshot")
    (_parse_actions_from_prompt prompt).
Proof.
  unfold _parse_actions_from_prompt.
  destruct (Re.findall MCPServer.url_pattern prompt) as [|u urls];
    [destruct (Re.findall domain_pattern prompt) as [|d domains]|];
    destruct (Py.contains "screenshot" (Py.lower prompt)); simpl;
    repeat (apply List.Forall_cons; [first [left; reflexivity | right; reflexivity]|]);
    apply List.Forall_nil.
Qed.

Lemma execute_action_kinds {W} `{Env W} (action : Action)
    (script_lines : list string) (w : W) :
  match _execute_action action script_lines w with
  | (Ok (Some step, _), _) =>
      a_type action = "navigate" \/ a_type action = "screenshot"
  | (Ok (None, lines), w') =>
      a_type action <> "navigate" /\ a_type action <> "screenshot" /\
      lines = script_lines /\ w' = w
  | (Raise _, _) => False
  end.
Proof.
  unfold _execute_action.
  destruct (String.eqb (a_type action) "navigate") eqn:Hnavigate.
  - apply String.eqb_eq in Hnavigate.
    destruct (a_url action) as [url|]; simpl; [|left; exact Hnavigate].
    unfold capture, catch, bind, ret. world_cases; left; exact Hnavigate.
  - destruct (String.eqb (a_type action) "screenshot") eqn:Hscreenshot.
    + apply String.eqb_eq in Hscreenshot.
      unfold capture, catch, bind, ret. world_cases; right; exact Hscreenshot.
    + apply String.eqb_neq in Hnavigate, Hscreenshot. simpl. auto.
Qed.

(** C10. The parser of the executor wired into the routes yields only
    navigate and screenshot actions, whatever the prompt: click, type and
    verify trigger words yield nothing.  Its action executor never
    raises; it returns a step exactly for those two kinds, and for any
    other kind it returns nothing (Python's None), with the script and
    the world untouched, not a failed step. *)
Theorem enhanced_executor_two_kinds :
  (forall prompt,
     Forall (fun action => a_type action = "navigate" \/ a_type action = "screenshot")
       (_parse_actions_from_prompt prompt)) /\
  _parse_actions_from_prompt
    "click the login button, type the password and verify the element" = [] /\
  (forall W (E : Env W) action script_lines (w : W),
     match _execute_action action script_lines w with
     | (Ok (Some step, _), _) =>
         a_type action = "navigate" \/ a_type action = "screenshot"
     | (Ok (None, lines), w') =>
         a_type action <> "navigate" /\ a_type action <> "screenshot" /\
         lines = script_lines /\ w' = w
     | (Raise _, _) => False
     end).
Proof.
  split; [exact parsed_kinds|]. split; [vm_compute; reflexivity|].
  intros W E action script_lines w. apply execute_action_kinds.
Qed.

End TwoKinds.

(** ** The first executor's verify action *)

Section Verify.
Import TestExecutor.

Lemma first_accepted_returns {W} `{Env W} (op : string -> M W unit)
    (selectors : list string) (w : W) :
  exists found w', first_accepted op selectors w = (Ok found, w').
Proof.
  revert w. induction selectors as [|selector rest IH]; intros w; simpl.
  - eexists _, _. reflexivity.
  - unfold catch, bind, ret. destruct (op selector w) as [[[]|e] w1].
    + eexists _, _. reflexivity.
    + apply IH.
Qed.

(** C2. A verify action with condition element_present gives a step with
    status success in every world: the probes of the success selectors
    either find one or find none, the log says which, and the status is
    success in both cases. *)
Theorem verify_element_present_succeeds {W} `{Env W} (action : Action) (w : W) :
  a_type action = "verify" ->
  a_condition action = Some "element_present" ->
  exists found w',
    first_accepted (fun selector => page_wait_for_selector selector 2000)
      success_selectors w = (Ok found, w') /\
    _execute_action action w =
      (Ok (mkStep "verify element_present" "success" None
             match found with
             | Some selector => ["Found success element: " +:+ selector]
             | None => ["No success elements found"]
             end), w').
Proof.
  intros Htype Hcondition.
  destruct (first_accepted_returns
              (fun selector => page_wait_for_selector selector 2000)
              success_selectors w) as (found & w' & Hprobe).
  exists found, w'. split; [exact Hprobe|].
  unfold _execute_action. rewrite Htype, Hcondition. simpl String.eqb. cbv iota.
  simpl default. simpl String.eqb. cbv iota.
  unfold catch, bind. rewrite Hprobe. destruct found; reflexivity.
Qed.

Lemma verify_element_present_none_found :
  exists found w',
    first_accepted (fun selector => page_wait_for_selector selector 2000)
      success_selectors (Rig.mkWorld true 1 None 0) = (Ok found, w') /\
    _execute_action (verify_action "element_present") (Rig.mkWorld true 1 None 0) =
      (Ok (mkStep "verify element_present" "success" None
             match found with
             | Some selector => ["Found success element: " +:+ selector]
             | None => ["No success elements found"]
             end), w').
Proof.
  apply (verify_element_present_succeeds (verify_action "element_present"));
    reflexivity.
Defined.

End Verify.

(** ** The action loop stops at the first failed step *)

Section FailFast.

Lemma upto_first_failure_prefix (steps : list StepResult) :
  upto_first_failure steps `prefix_of` steps.
Proof.
  induction steps as [|step rest IH]; simpl.
  - exists []. reflexivity.
  - destruct (String.eqb (s_status step) "success").
    + destruct IH as [tail Htail]. exists tail. simpl. f_equal. exact Htail.
    + exists rest. reflexivity.
Qed.

Lemma upto_first_failure_before_last (steps : list StepResult) :
  all_success (removelast (upto_first_failure steps)) = true.
Proof.
  induction steps as [|step rest IH]; simpl; [reflexivity|].
  destruct (String.eqb (s_status step) "success") eqn:Hstatus; [|reflexivity].
  simpl. destruct (upto_first_failure rest) eqn:Hcut; [reflexivity|].
  simpl in *. rewrite Hstatus. exact IH.
Qed.

Lemma upto_first_failure_cut (steps : list StepResult) :
  length (upto_first_failure steps) < length steps ->
  exists step, last (upto_first_failure steps) = Some step /\
               s_status step <> "success".
Proof.
  induction steps as [|step rest IH]; simpl; [lia|].
  destruct (String.eqb (s_status step) "success") eqn:Hstatus.
  - simpl. intros Hshort. destruct IH as (failed & Hlast & Hfailed); [lia|].
    exists failed. split; [|exact Hfailed].
    destruct (upto_first_failure rest); [discriminate|exact Hlast].
  - intros _. exists step. split; [reflexivity|].
    apply String.eqb_neq. exact Hstatus.
Qed.

Context {W : Type} `{Env W}.

Lemma execute_action_returns (action : Action) (w : W) :
  exists step w', TestExecutor._execute_action action w = (Ok step, w').
Proof.
  unfold TestExecutor._execute_action, catch.
  match goal with
  | |- context [let (_, _) := ?body w in _] => destruct (body w) as [[step|e] w']
  end; eexists _, _; reflexivity.
Qed.

Lemma steps_of_all_length (actions : list Action) (w : W) :
  length (steps_of_all actions w) = length actions.
Proof.
  revert w. induction actions as [|action rest IH]; intros w; simpl; [reflexivity|].
  destruct (execute_action_returns action w) as (step & w' & Hstep).
  rewrite Hstep. simpl. f_equal. apply IH.
Qed.

(** The loop of the first executor, from any list of steps so far. *)
Lemma run_actions_cut (actions : list Action) (steps : list StepResult) (w : W) :
  exists w',
    TestExecutor.run_actions actions steps w =
      (Ok (steps ++ upto_first_failure (steps_of_all actions w)), w') /\
    TestExecutor.run_actions
      (take (length (upto_first_failure (steps_of_all actions w))) actions) steps w =
      (Ok (steps ++ upto_first_failure (steps_of_all actions w)), w').
Proof.
  revert steps w. induction actions as [|action rest IH]; intros steps w; simpl.
  - exists w. rewrite app_nil_r. split; reflexivity.
  - destruct (execute_action_returns action w) as (step & w1 & Hstep).
    rewrite Hstep. simpl.
    destruct (String.eqb (s_status step) "success") eqn:Hstatus; simpl.
    + destruct (IH (steps ++ [step]) w1) as (w' & Hall & Hcut).
      exists w'. unfold bind. rewrite Hstep, Hstatus. simpl.
      rewrite <- app_assoc in Hall, Hcut. split; assumption.
    + exists w1. unfold bind, ret. rewrite Hstep, Hstatus. simpl.
      split; reflexivity.
Qed.

Import EnhancedTestExecutor.

Lemma enhanced_execute_action_returns (action : Action)
    (script_lines : list string) (w : W) :
  two_kinds action ->
  exists step script_lines' w',
    _execute_action action script_lines w = (Ok (Some step, script_lines'), w').
Proof.
  intros Hkind.
  pose proof (execute_action_kinds action script_lines w) as Hcases.
  destruct (_execute_action action script_lines w) as [[[[step|] lines']|e] w'].
  - eexists _, _, _. reflexivity.
  - destruct Hcases as (Hnavigate & Hscreenshot & _).
    destruct Hkind; contradiction.
  - contradiction.
Qed.

Lemma enhanced_steps_of_all_length (actions : list Action)
    (script_lines : list string) (w : W) :
  Forall two_kinds actions ->
  length (enhanced_steps_of_all actions script_lines w) = length actions.
Proof.
  intros Hkinds. revert script_lines w.
  induction Hkinds as [|action rest Hkind _ IH]; intros script_lines w; simpl;
    [reflexivity|].
  destruct (enhanced_execute_action_returns action script_lines w Hkind)
    as (step & lines' & w' & Hstep).
  rewrite Hstep. simpl. f_equal. apply IH.
Qed.

(** The loop of the executor with script generation. *)
Lemma enhanced_run_actions_cut (actions : list Action) (steps : list StepResult)
    (script_lines : list string) (w : W) :
  Forall two_kinds actions ->
  exists script_lines' w',
    run_actions actions steps script_lines w =
      (Ok (steps ++ upto_first_failure (enhanced_steps_of_all actions script_lines w),
           script_lines'), w') /\
    run_actions
      (take (length (upto_first_failure (enhanced_steps_of_all actions script_lines w)))
         actions) steps script_lines w =
      (Ok (steps ++ upto_first_failure (enhanced_steps_of_all actions script_lines w),
           script_lines'), w').
Proof.
  intros Hkinds. revert steps script_lines w.
  induction Hkinds as [|action rest Hkind _ IH]; intros steps script_lines w; simpl.
  - exists script_lines, w. rewrite app_nil_r. split; reflexivity.
  - destruct (enhanced_execute_action_returns action script_lines w Hkind)
      as (step & lines1 & w1 & Hstep).
    rewrite Hstep. simpl.
    destruct (String.eqb (s_status step) "success") eqn:Hstatus; simpl.
    + destruct (IH (steps ++ [step]) lines1 w1) as (lines' & w' & Hall & Hcut).
      exists lines', w'. unfold bind. rewrite Hstep, Hstatus. simpl.
      rewrite <- app_assoc in Hall, Hcut. split; assumption.
    + exists lines1, w1. unfold bind, ret. rewrite Hstep, Hstatus. simpl.
      split; reflexivity.
Qed.

End FailFast.

(** C4. In a ui run the steps recorded for the actions are a prefix of
    what the actions yield one after the other: the loop keeps the steps
    through the first one whose status is not success and stops there, so
    every step before the last is a success, a shorter list ends in a
    failed step, and running only that many actions gives the same steps
    and leaves the same world (no later action is executed).  This holds
    for the executor behind the routes on the actions it parses from the
    prompt, and for the first executor on any list of actions. *)
Theorem ui_steps_stop_at_first_failure :
  (forall steps : list StepResult,
     upto_first_failure steps `prefix_of` steps /\
     all_success (removelast (upto_first_failure steps)) = true /\
     (length (upto_first_failure steps) < length steps ->
      exists step, last (upto_first_failure steps) = Some step /\
                   s_status step <> "success")) /\
  (forall W (E : Env W) (test_request : Request) (script_lines : list string) (w : W),
     let actions :=
       EnhancedTestExecutor._parse_actions_from_prompt (prompt test_request) in
     let all := enhanced_steps_of_all actions script_lines w in
     length all = length actions /\
     exists script_lines' w',
       EnhancedTestExecutor.run_actions actions [] script_lines w =
         (Ok (upto_first_failure all, script_lines'), w') /\
       EnhancedTestExecutor.run_actions
         (take (length (upto_first_failure all)) actions) [] script_lines w =
         (Ok (upto_first_failure all, script_lines'), w')) /\
  (forall W (E : Env W) (actions : list Action) (w : W),
     let all := steps_of_all actions w in
     length all = length actions /\
     exists w',
       TestExecutor.run_actions actions [] w = (Ok (upto_first_failure all), w') /\
       TestExecutor.run_actions (take (length (upto_first_failure all)) actions) [] w =
         (Ok (upto_first_failure all), w')).
Proof.
  split; [|split].
  - intros steps. split; [apply upto_first_failure_prefix|].
    split; [apply upto_first_failure_before_last|apply upto_first_failure_cut].
  - intros W E test_request script_lines w actions all.
    pose proof (parsed_kinds (prompt test_request)) as Hkinds.
    split; [apply enhanced_steps_of_all_length; exact Hkinds|].
    apply (enhanced_run_actions_cut actions [] script_lines w Hkinds).
  - intros W E actions w all.
    split; [apply steps_of_all_length|].
    apply (run_actions_cut actions [] w).
Qed.

(** ** The trailing screenshot of a ui run *)

Section FinalScreenshot.
Import EnhancedTestExecutor.
Context {W : Type} `{Env W}.

Lemma ui_body_runs (test_request : Request) (script_lines : list string) (w : W) :
  let actions := _parse_actions_from_prompt (prompt test_request) in
  let steps := upto_first_failure (enhanced_steps_of_all actions script_lines w) in
  exists lines w1,
    run_actions actions [] script_lines w = (Ok (steps, lines), w1) /\
    ui_body test_request [] script_lines w =
      match page_screenshot true w1 with
      | (Ok screenshot, w2) =>
          (Ok (steps ++ [mkStep "final_screenshot" "success"
                           (Some (Py.b64encode screenshot))
                           ["Final screenshot captured"]],
               lines ++
                 [ "  // Take final screenshot";
                   "  await page.screenshot({ path: 'final-screenshot.png', fullPage: true });" ]),
           w2)
      | (Raise e, w2) =>
          (Ok (steps ++ [mkStep "final_screenshot" "failed" None
                           ["Failed to capture final screenshot: " +:+ e]],
               lines), w2)
      end.
Proof.
  intros actions steps.
  destruct (enhanced_run_actions_cut actions [] script_lines w
              (parsed_kinds (prompt test_request)))
    as (lines & w1 & Hloop & _).
  exists lines, w1. split; [exact Hloop|].
  unfold ui_body, bind. fold actions. rewrite Hloop. simpl.
  unfold final_screenshot, catch, bind, ret.
  destruct (page_screenshot true w1) as [[screenshot|e] w2]; reflexivity.
Qed.

Lemma ui_body_shape (test_request : Request) (script_lines : list string) (w : W) :
  let actions := _parse_actions_from_prompt (prompt test_request) in
  let steps := upto_first_failure (enhanced_steps_of_all actions script_lines w) in
  exists final lines w',
    ui_body test_request [] script_lines w = (Ok (steps ++ [final], lines), w') /\
    s_action final = "final_screenshot" /\
    (s_status final = "success" \/ s_status final = "failed").
Proof.
  intros actions steps.
  destruct (ui_body_runs test_request script_lines w) as (lines & w1 & _ & Hbody).
  destruct (page_screenshot true w1) as [[screenshot|e] w2];
    eexists _, _, w2; (split; [exact Hbody|]); simpl; auto.
Qed.

Lemma all_success_snoc (steps : list StepResult) (final : StepResult) :
  all_success (steps ++ [final]) =
    all_success steps && String.eqb (s_status final) "success".
Proof.
  unfold all_success. rewrite forallb_app. simpl. rewrite andb_true_r. reflexivity.
Qed.

Lemma ui_test_result (test_request : Request) (w : W) (result : TestResult) (w' : W) :
  _execute_ui_test test_request w = (Ok result, w') ->
  exists (w0 : W) (final : StepResult),
    let actions := _parse_actions_from_prompt (prompt test_request) in
    let steps := upto_first_failure (enhanced_steps_of_all actions ui_script_header w0) in
    r_results result =
      Some (mkResults (all_success (steps ++ [final])) (steps ++ [final])) /\
    s_action final = "final_screenshot" /\
    (s_status final = "success" \/ s_status final = "failed") /\
    r_status result =
      if all_success steps && String.eqb (s_status final) "success"
      then "completed" else "failed".
Proof.
  unfold _execute_ui_test, with_playwright, finally, bind, ret. intros Hrun.
  world_cases_in Hrun; try discriminate.
  match goal with
  | Hbody : ui_body _ _ ?lines ?w0 = _ |- _ =>
      destruct (ui_body_shape test_request lines w0)
        as (final & lines' & w0' & Hshape & Haction & Hstatus);
      rewrite Hshape in Hbody; injection Hbody as <- <-;
      exists w0, final
  end.
  injection Hrun as <- <-. simpl.
  rewrite <- all_success_snoc. auto.
Qed.

End FinalScreenshot.

Section FinalScreenshotExact.
Import EnhancedTestExecutor.

(** A ui run that returns went through the four stages before the
    inner [try], and its result is the loop's steps followed by what the
    capture at the end of the loop gave. *)
Lemma ui_test_exact {W : Type} `{Env W}
    (test_request : Request) (w : W) (result : TestResult) (w' : W) :
  _execute_ui_test test_request w = (Ok result, w') ->
  exists (wa wb wc w0 : W) (lines : list string) (w1 : W),
    playwright_start w = (Ok tt, wa) /\
    launch test_request wa = (Ok tt, wb) /\
    browser_new_context wb = (Ok tt, wc) /\
    new_page wc = (Ok tt, w0) /\
    let actions := _parse_actions_from_prompt (prompt test_request) in
    let steps := upto_first_failure (enhanced_steps_of_all actions ui_script_header w0) in
    run_actions actions [] ui_script_header w0 = (Ok (steps, lines), w1) /\
    match page_screenshot true w1 with
    | (Ok screenshot, _) =>
        result =
          mkTestResult None (if all_success steps then "completed" else "failed")
            None None
            (Some (mkResults (all_success steps)
                     (steps ++ [mkStep "final_screenshot" "success"
                                  (Some (Py.b64encode screenshot))
                                  ["Final screenshot captured"]])))
            (Some (Py.join Py.nl (lines ++ final_script ++ ["});"])))
    | (Raise e, _) =>
        result =
          mkTestResult None "failed" None None
            (Some (mkResults false
                     (steps ++ [mkStep "final_screenshot" "failed" None
                                  ["Failed to capture final screenshot: " +:+ e]])))
            (Some (Py.join Py.nl (lines ++ ["});"])))
    end.
Proof.
  unfold _execute_ui_test, with_playwright, finally, bind, ret. intros Hrun.
  world_cases_in Hrun; try discriminate.
  repeat match goal with u : unit |- _ => destruct u end.
  match goal with
  | Hbody : ui_body _ _ ?lines ?wa = _ |- _ =>
      destruct (ui_body_runs test_request lines wa)
        as (lines_loop & w_loop & Hloop & Hfinal);
      rewrite Hfinal in Hbody; rename Hbody into Hend
  end.
  injection Hrun as <- <-.
  eexists _, _, _, _, lines_loop, w_loop.
  repeat (split; [first [eassumption | reflexivity]|]). simpl.
  destruct (page_screenshot true w_loop) as [[image|e] w_shot];
    injection Hend as <- <-; simpl;
    rewrite all_success_snoc; simpl;
    rewrite ?andb_true_r, ?andb_false_r, <- ?app_assoc; reflexivity.
Qed.

End FinalScreenshotExact.

(** C1 (amended). The final screenshot is attempted after the action
    loop whether or not the loop stopped early, and never raises out of
    the run: one final_screenshot step is appended after the steps of the
    loop, with status success when the capture returned and failed when
    it raised.  A ui run that returns has status completed exactly when
    every step of the loop and the final step succeeded; a failed final
    step gives status failed. *)
Theorem final_screenshot_step_counts :
  forall W (E : Env W) (test_request : Request),
    let actions :=
      EnhancedTestExecutor._parse_actions_from_prompt (prompt test_request) in
    (forall (script_lines : list string) (w : W),
       let steps := upto_first_failure (enhanced_steps_of_all actions script_lines w) in
       exists lines w1,
         EnhancedTestExecutor.run_actions actions [] script_lines w =
           (Ok (steps, lines), w1) /\
         EnhancedTestExecutor.ui_body test_request [] script_lines w =
           match page_screenshot true w1 with
           | (Ok screenshot, w2) =>
               (Ok (steps ++ [mkStep "final_screenshot" "success"
                                (Some (Py.b64encode screenshot))
                                ["Final screenshot captured"]],
                    lines ++
                      [ "  // Take final screenshot";
                        "  await page.screenshot({ path: 'final-screenshot.png', fullPage: true });" ]),
                w2)
           | (Raise e, w2) =>
               (Ok (steps ++ [mkStep "final_screenshot" "failed" None
                                ["Failed to capture final screenshot: " +:+ e]],
                    lines), w2)
           end) /\
    (forall (w : W) (result : TestResult) (w' : W),
       EnhancedTestExecutor._execute_ui_test test_request w = (Ok result, w') ->
       exists (wa wb wc w0 : W) (lines : list string) (w1 : W),
         playwright_start w = (Ok tt, wa) /\
         launch test_request wa = (Ok tt, wb) /\
         browser_new_context wb = (Ok tt, wc) /\
         new_page wc = (Ok tt, w0) /\
         let steps :=
           upto_first_failure
             (enhanced_steps_of_all actions EnhancedTestExecutor.ui_script_header w0) in
         EnhancedTestExecutor.run_actions actions []
           EnhancedTestExecutor.ui_script_header w0 = (Ok (steps, lines), w1) /\
         match page_screenshot true w1 with
         | (Ok screenshot, _) =>
             result =
               mkTestResult None
                 (if all_success steps then "completed" else "failed")
                 None None
                 (Some (mkResults (all_success steps)
                          (steps ++ [mkStep "final_screenshot" "success"
                                       (Some (Py.b64encode screenshot))
                                       ["Final screenshot captured"]])))
                 (Some (Py.join Py.nl (lines ++ final_script ++ ["});"])))
         | (Raise e, _) =>
             result =
               mkTestResult None "failed" None None
                 (Some (mkResults false
                          (steps ++ [mkStep "final_screenshot" "failed" None
                                       ["Failed to capture final screenshot: " +:+ e]])))
                 (Some (Py.join Py.nl (lines ++ ["});"])))
         end).
Proof.
  intros W E test_request actions. split.
  - intros script_lines w. apply ui_body_runs.
  - intros w result w' Hrun. apply (ui_test_exact test_request w result w' Hrun).
Qed.

(** C1 as stated fails: the page loads and its screenshot is taken, so
    the only action step succeeds; then the page is gone, the final
    screenshot raises, and the status of the run is failed. *)
Lemma final_screenshot_failure_fails_the_run :
  exists (result : TestResult) (w' : Rig.World) (loop_steps : list StepResult)
         (final : StepResult),
    EnhancedTestExecutor._execute_ui_test
      (Rig.request "job-1" "visit https://example.com" "ui")
      (Rig.mkWorld true 1 None 0) = (Ok result, w') /\
    r_results result = Some (mkResults false (loop_steps ++ [final])) /\
    all_success loop_steps = true /\
    s_action final = "final_screenshot" /\
    s_status final = "failed" /\
    r_status result = "failed".
Proof.
  eexists _, _, [_], _. vm_compute. repeat split.
Qed.

Lemma final_screenshot_step_counts_run :
  exists (result : TestResult) (w' : Rig.World),
    EnhancedTestExecutor._execute_ui_test
      (Rig.request "job-1" "visit https://example.com" "ui")
      (Rig.mkWorld true 1 None 0) = (Ok result, w') /\
    exists (wa wb wc w0 : Rig.World) (lines : list string) (w1 : Rig.World),
      playwright_start (Rig.mkWorld true 1 None 0) = (Ok tt, wa) /\
      launch (Rig.request "job-1" "visit https://example.com" "ui") wa = (Ok tt, wb) /\
      browser_new_context wb = (Ok tt, wc) /\
      new_page wc = (Ok tt, w0) /\
      let actions :=
        EnhancedTestExecutor._parse_actions_from_prompt "visit https://example.com" in
      let steps :=
        upto_first_failure
          (enhanced_steps_of_all actions EnhancedTestExecutor.ui_script_header w0) in
      EnhancedTestExecutor.run_actions actions []
        EnhancedTestExecutor.ui_script_header w0 = (Ok (steps, lines), w1) /\
      match page_screenshot true w1 with
      | (Ok screenshot, _) =>
          result =
            mkTestResult None
              (if all_success steps then "completed" else "failed")
              None None
              (Some (mkResults (all_success steps)
                       (steps ++ [mkStep "final_screenshot" "success"
                                    (Some (Py.b64encode screenshot))
                                    ["Final screenshot captured"]])))
              (Some (Py.join Py.nl (lines ++ final_script ++ ["});"])))
      | (Raise e, _) =>
          result =
            mkTestResult None "failed" None None
              (Some (mkResults false
                       (steps ++ [mkStep "final_screenshot" "failed" None
                                    ["Failed to capture final screenshot: " +:+ e]])))
              (Some (Py.join Py.nl (lines ++ ["});"])))
      end.
Proof.
  eexists _, _. split; [vm_compute; reflexivity|].
  eapply (proj2 (final_screenshot_step_counts Rig.World _
                   (Rig.request "job-1" "visit https://example.com" "ui"))
            (Rig.mkWorld true 1 None 0)).
  vm_compute. reflexivity.
Defined.

(** ** Exceptions end in failed results *)

Section Containment.
Import EnhancedTestExecutor.
Context {W : Type} `{Env W}.

Lemma execute_test_async_cases (test_request : Request) (w : W) :
  _execute_test_async test_request w =
    let (start_time, w0) := time_time w in
    match dispatch test_request w0 with
    | (Ok result, w1) =>
        let (now, w2) := time_time w1 in
        (Ok (set_time_and_id result (now - start_time) (test_id test_request)), w2)
    | (Raise e, w1) =>
        let (now, w2) := time_time w1 in
        (Ok (mkTestResult (Some (test_id test_request)) "failed" (Some e)
               (Some (now - start_time)%Z) (Some (mkResults false []))
               (Some (_generate_error_script test_request e))), w2)
    end.
Proof.
  unfold _execute_test_async, catch, bind.
  destruct (time_time w) as [start_time w0].
  destruct (dispatch test_request w0) as [[result|e] w1];
    destruct (time_time w1) as [now w2]; reflexivity.
Qed.

Lemma execute_test_async_returns (test_request : Request) (w : W) :
  exists result w', _execute_test_async test_request w = (Ok result, w').
Proof.
  rewrite execute_test_async_cases.
  destruct (time_time w) as [start_time w0].
  destruct (dispatch test_request w0) as [[result|e] w1];
    destruct (time_time w1) as [now w2]; eexists _, _; reflexivity.
Qed.

End Containment.

(** C5. When the branch for the test type raises, the runner does not
    raise: it returns a result with status failed, the message of the
    exception as its error, and no steps.  The runner returns in every
    world, and this is also what [execute_test] returns.  When the call
    of the runner raises in the thread, the thread stores a failed result
    carrying the message and sets the status of the job to failed; the
    thread started on a request stores a result and a status in every
    world. *)
Theorem exceptions_become_failed_results {W : Type} `{Env W}
    (test_request : Request) (w w1 : W) (e : string) :
  EnhancedTestExecutor.dispatch test_request (snd (time_time w)) = (Raise e, w1) ->
  EnhancedTestExecutor._execute_test_async test_request w =
    (Ok (mkTestResult (Some (test_id test_request)) "failed" (Some e)
           (Some (fst (time_time w1) - fst (time_time w))%Z)
           (Some (mkResults false []))
           (Some (EnhancedTestExecutor._generate_error_script test_request e))),
     snd (time_time w1)) /\
  (forall w : W,
     exists result w',
       EnhancedTestExecutor._execute_test_async test_request w = (Ok result, w') /\
       EnhancedTestExecutor.execute_test test_request w = (Ok result, w')) /\
  (forall (e' : string) (self : EnhancedTestExecutor.Executor),
     let self' :=
       EnhancedTestExecutor._run_async_test_with test_request (Raise e') self in
     EnhancedTestExecutor.test_status self' !! test_id test_request = Some "failed" /\
     EnhancedTestExecutor.test_results self' !! test_id test_request =
       Some (mkTestResult (Some (test_id test_request)) "failed" (Some e')
               (Some 0%Z) None
               (Some (EnhancedTestExecutor._generate_error_script test_request e')))) /\
  (forall (w : W) (self : EnhancedTestExecutor.Executor),
     exists result,
       EnhancedTestExecutor.test_results
         (fst (EnhancedTestExecutor._run_async_test test_request w self))
         !! test_id test_request = Some result /\
       EnhancedTestExecutor.test_status
         (fst (EnhancedTestExecutor._run_async_test test_request w self))
         !! test_id test_request = Some (r_status result)).
Proof.
  intros Hraise. repeat split.
  - rewrite execute_test_async_cases.
    destruct (time_time w) as [start_time w0]. simpl in *.
    rewrite Hraise. destruct (time_time w1) as [now w2]. reflexivity.
  - intros w'. destruct (execute_test_async_returns test_request w')
      as (result & w'' & Hrun).
    exists result, w''. split; [exact Hrun|exact Hrun].
  - simpl. apply lookup_insert_eq.
  - simpl. apply lookup_insert_eq.
  - intros w' self. unfold EnhancedTestExecutor._run_async_test.
    destruct (EnhancedTestExecutor._execute_test_async test_request w') as [ran w''].
    exists (EnhancedTestExecutor.stored_result test_request ran). simpl.
    split; apply lookup_insert_eq.
Qed.

Lemma exceptions_become_failed_results_no_browser :
  let test_request := Rig.request "job-1" "visit https://example.com" "ui" in
  let w := Rig.mkWorld false 1 None 0 in
  let e := "Executable doesn't exist for chromium" in
  EnhancedTestExecutor._execute_test_async test_request w =
    (Ok (mkTestResult (Some "job-1") "failed" (Some e) (Some 1%Z)
           (Some (mkResults false []))
           (Some (EnhancedTestExecutor._generate_error_script test_request e))),
     Rig.mkWorld false 1 None 2).
Proof.
  exact (proj1 (exceptions_become_failed_results
                  (Rig.request "job-1" "visit https://example.com" "ui")
                  (Rig.mkWorld false 1 None 0) (Rig.mkWorld false 1 None 1)
                  "Executable doesn't exist for chromium" eq_refl)).
Defined.

(** ** Substrings of joined lines *)

Section Substrings.

Lemma prefix_append (x s : string) : String.prefix x (x +:+ s) = true.
Proof.
  induction x as [|c x IH]; simpl.
  - destruct s; reflexivity.
  - destruct (ascii_dec c c); [exact IH|contradiction].
Qed.

Lemma prefix_append_l (x p s : string) :
  String.prefix x p = true -> String.prefix x (p +:+ s) = true.
Proof.
  revert p. induction x as [|c x IH]; intros p; simpl.
  - intros _. destruct (p +:+ s); reflexivity.
  - destruct p as [|d p]; simpl; [discriminate|].
    destruct (ascii_dec c d); [apply IH|discriminate].
Qed.

Lemma contains_prefix (x s : string) :
  String.prefix x s = true -> Py.contains x s = true.
Proof.
  intros Hprefix. destruct s; simpl in *; rewrite Hprefix; reflexivity.
Qed.

Lemma contains_cons (x : string) (c : ascii) (s : string) :
  Py.contains x (String c s) = String.prefix x (String c s) || Py.contains x s.
Proof. reflexivity. Qed.

Lemma contains_append_r (x p s : string) :
  Py.contains x s = true -> Py.contains x (p +:+ s) = true.
Proof.
  intros Hin. induction p as [|c p IH]; [exact Hin|].
  change (String c p +:+ s) with (String c (p +:+ s)).
  rewrite contains_cons, IH. apply orb_true_r.
Qed.

Lemma contains_append_l (x p s : string) :
  Py.contains x p = true -> Py.contains x (p +:+ s) = true.
Proof.
  induction p as [|c p IH].
  - intros Hin. apply contains_prefix, (prefix_append_l x "" s).
    simpl in Hin. rewrite orb_false_r in Hin. exact Hin.
  - rewrite contains_cons. intros Hin.
    change (String c p +:+ s) with (String c (p +:+ s)). rewrite contains_cons.
    apply orb_true_iff in Hin as [Hprefix|Hin].
    + change (String c (p +:+ s)) with (String c p +:+ s).
      rewrite (prefix_append_l x (String c p) s Hprefix). reflexivity.
    + rewrite (IH Hin). apply orb_true_r.
Qed.

Lemma contains_refl (x : string) : Py.contains x x = true.
Proof.
  apply contains_prefix. induction x as [|c x IH]; simpl; [reflexivity|].
  destruct (ascii_dec c c); [exact IH|contradiction].
Qed.

Lemma contains_join (x sep : string) (parts : list string) :
  In x parts -> Py.contains x (Py.join sep parts) = true.
Proof.
  induction parts as [|p rest IH]; simpl; [contradiction|].
  intros [->|Hrest].
  - destruct rest; [apply contains_refl|].
    apply contains_append_l, contains_refl.
  - destruct rest as [|q rest]; [contradiction|].
    apply contains_append_r, contains_append_r, IH, Hrest.
Qed.

End Substrings.

(** ** The api test *)

(** C8. An api test gives a result with exactly one step.  The step has
    status success exactly when the HTTP request returned (did not raise)
    with a status code below 400, and status failed otherwise; the
    generated script contains the assertion that the response status is
    below 400. *)
Theorem api_test_single_step {W : Type} `{Env W} (test_request : Request) (w : W) :
  test_type test_request = "api" ->
  let api_details := _parse_api_from_prompt (prompt test_request) in
  let w0 := snd (time_time w) in
  exists (step : StepResult) (result : TestResult) (w' : W),
    EnhancedTestExecutor._execute_test_async test_request w = (Ok result, w') /\
    r_results result =
      Some (mkResults (String.eqb (s_status step) "success") [step]) /\
    (s_status step = "success" <->
     exists response w1,
       requests_request (api_method api_details) (api_url api_details) w0 =
         (Ok response, w1) /\
       (status_code response < 400)%Z) /\
    (s_status step = "success" \/ s_status step = "failed") /\
    exists script,
      r_generated_script result = Some script /\
      Py.contains EnhancedTestExecutor.status_assertion script = true.
Proof.
  intros Htype. cbv zeta.
  rewrite execute_test_async_cases.
  destruct (time_time w) as [start_time w0]. cbn [snd].
  unfold EnhancedTestExecutor.dispatch. rewrite Htype.
  change (String.eqb "api" "api") with true. cbv iota.
  unfold EnhancedTestExecutor._execute_api_test, EnhancedTestExecutor.api_attempt,
    bind, catch, ret.
  generalize (_parse_api_from_prompt (prompt test_request)). intros api_details.
  destruct (requests_request (api_method api_details) (api_url api_details) w0)
    as [[response|e] w1] eqn:Hrequest.
  - assert (Hstatus :
              s_status (api_step api_details response) = "success" <->
              exists response' w1',
                (Ok response, w1) = (Ok response', w1') /\
                (status_code response' < 400)%Z).
    { unfold api_step. simpl.
      destruct (status_code response <? 400)%Z eqn:Hcode.
      - apply Z.ltb_lt in Hcode. split; [|reflexivity].
        intros _. exists response, w1. split; [reflexivity|exact Hcode].
      - apply Z.ltb_ge in Hcode. split; [discriminate|].
        intros (response' & w1' & [= <- <-] & Hlow). lia. }
    assert (Heither :
              s_status (api_step api_details response) = "success" \/
              s_status (api_step api_details response) = "failed").
    { unfold api_step. simpl. destruct (status_code response <? 400)%Z; auto. }
    destruct (resp_json response) as [dump|];
      destruct (time_time w1) as [now w2];
      eexists (add_log (api_step api_details response) _), _, _;
      (split; [reflexivity|]); cbn [r_results r_generated_script fst snd];
      (split; [unfold all_success; simpl; rewrite andb_true_r; reflexivity|]);
      (split; [exact Hstatus|]); (split; [exact Heither|]);
      eexists; (split; [reflexivity|]);
      apply contains_join; simpl;
      repeat (first [left; reflexivity | right]).
  - destruct (time_time w1) as [now w2].
    eexists (mkStep "api_request" "failed" None _), _, _.
    split; [reflexivity|]. cbn [r_results r_generated_script fst snd].
    split; [reflexivity|]. split; [|split].
    + split; [discriminate|]. intros (response' & w1' & [=] & _).
    + right. reflexivity.
    + eexists. split; [reflexivity|].
      apply contains_join. simpl. repeat (first [left; reflexivity | right]).
Qed.

Lemma api_test_single_step_users_endpoint :
  exists (step : StepResult) (result : TestResult) (w' : Rig.World),
    EnhancedTestExecutor._execute_test_async
      (Rig.request "job-2" "test the GET /users endpoint returning JSON" "api")
      (Rig.mkWorld true 1 (Some 200%Z) 0) = (Ok result, w') /\
    r_results result =
      Some (mkResults (String.eqb (s_status step) "success") [step]) /\
    (s_status step = "success" <->
     exists response w1,
       requests_request "GET" "https://api.example.com/users"
         (Rig.mkWorld true 1 (Some 200%Z) 1) = (Ok response, w1) /\
       (status_code response < 400)%Z) /\
    (s_status step = "success" \/ s_status step = "failed") /\
    exists script,
      r_generated_script result = Some script /\
      Py.contains EnhancedTestExecutor.status_assertion script = true.
Proof.
  exact (api_test_single_step
           (Rig.request "job-2" "test the GET /users endpoint returning JSON" "api")
           (Rig.mkWorld true 1 (Some 200%Z) 0) eq_refl).
Defined.

(** ** The life of a job in the store *)

Section Lifecycle.
Import EnhancedTestExecutor Chat.

Lemma ui_test_status {W} `{Env W} (test_request : Request) (w : W)
    (result : TestResult) (w' : W) :
  _execute_ui_test test_request w = (Ok result, w') ->
  finished_status (r_status result).
Proof.
  intros Hrun. destruct (ui_test_result test_request w result w' Hrun)
    as (w0 & final & _ & _ & _ & ->).
  unfold finished_status. destruct (_ && _); auto.
Qed.

Lemma api_test_status {W} `{Env W} (test_request : Request) (w : W)
    (result : TestResult) (w' : W) :
  _execute_api_test test_request w = (Ok result, w') ->
  finished_status (r_status result).
Proof.
  unfold _execute_api_test, bind, ret.
  destruct (api_attempt test_request _ w) as [[r|e] w1]; [|discriminate].
  intros [= <- <-]. unfold finished_status. simpl.
  destruct (all_success r.1); auto.
Qed.

Lemma dispatch_status {W} `{Env W} (test_request : Request) (w : W)
    (result : TestResult) (w' : W) :
  dispatch test_request w = (Ok result, w') ->
  finished_status (r_status result).
Proof.
  unfold dispatch, _execute_mixed_test.
  destruct (String.eqb (test_type test_request) "api");
    [apply api_test_status|].
  destruct (String.eqb (test_type test_request) "ui");
    [apply ui_test_status|].
  destruct (String.eqb (test_type test_request) "mixed"); apply ui_test_status.
Qed.

Lemma execute_test_async_status {W} `{Env W} (test_request : Request) (w : W) :
  exists result w',
    _execute_test_async test_request w = (Ok result, w') /\
    finished_status (r_status result).
Proof.
  rewrite execute_test_async_cases.
  destruct (time_time w) as [start_time w0].
  destruct (dispatch test_request w0) as [[result|e] w1] eqn:Hdispatch;
    destruct (time_time w1) as [now w2]; eexists _, _; (split; [reflexivity|]).
  - simpl. apply (dispatch_status test_request w0 result w1 Hdispatch).
  - right. reflexivity.
Qed.

Lemma stored_result_status (test_request : Request) (ran : outcome TestResult) :
  runner_outcome test_request ran ->
  finished_status (r_status (stored_result test_request ran)).
Proof.
  intros [[e ->]|(W & E & w & ->)].
  - right. reflexivity.
  - destruct (execute_test_async_status test_request w) as (result & w' & -> & Hstatus).
    exact Hstatus.
Qed.

Lemma consistent_new (id : string) : consistent new_executor id.
Proof. unfold consistent. simpl. rewrite !lookup_empty. auto. Qed.

Lemma consistent_submit (test_request : Request) (self : Executor) (id : string) :
  test_status self !! test_id test_request = None ->
  (forall id, consistent self id) ->
  consistent (execute_test_async test_request self) id.
Proof.
  intros Hfresh Hall. unfold consistent, execute_test_async. simpl.
  destruct (decide (test_id test_request = id)) as [<-|Hother].
  - rewrite !lookup_insert_eq. simpl. split; [reflexivity|]. split; [reflexivity|].
    specialize (Hall (test_id test_request)). unfold consistent in Hall.
    destruct (running_tests self !! test_id test_request) as [[args at_]|].
    + destruct Hall as [_ Hat]. destruct at_.
      * destruct Hat as [Hstatus _]. congruence.
      * destruct Hat as [Hstatus _]. congruence.
      * destruct Hat as (result & _ & Hstatus & _). congruence.
    + apply Hall.
  - rewrite !lookup_insert_ne by exact Hother. apply Hall.
Qed.

Lemma consistent_step (self self' : Executor) :
  step self self' -> (forall id, consistent self id) -> forall id, consistent self' id.
Proof.
  intros Hstep Hall id. destruct Hstep as
    [message_id job timestamp user_message self Hfresh
    |job test_request ran self Hthread Hran
    |job test_request result self Hthread].
  - unfold handle_chat_message.
    destruct (MCPServer.process_message user_message); simpl; [apply Hall|].
    apply consistent_submit; [exact Hfresh|exact Hall].
  - pose proof (Hall job) as Hjob. unfold consistent in Hjob.
    rewrite Hthread in Hjob. simpl in Hjob. destruct Hjob as (Hid & Hstatus & Hnone).
    unfold consistent, advance, write_result. simpl. rewrite Hid.
    destruct (decide (job = id)) as [<-|Hother].
    + rewrite !lookup_insert_eq. simpl.
      split; [exact Hid|]. split; [exact Hstatus|]. split; [reflexivity|].
      apply stored_result_status, Hran.
    + rewrite !lookup_insert_ne by exact Hother. apply Hall.
  - pose proof (Hall job) as Hjob. unfold consistent in Hjob.
    rewrite Hthread in Hjob. simpl in Hjob.
    destruct Hjob as (Hid & Hstatus & Hresult & Hfinished).
    unfold consistent, advance, write_status. simpl. rewrite Hid.
    destruct (decide (job = id)) as [<-|Hother].
    + rewrite !lookup_insert_eq. simpl.
      split; [exact Hid|]. exists result. auto.
    + rewrite !lookup_insert_ne by exact Hother. apply Hall.
Qed.

Lemma reachable_consistent (self : Executor) :
  reachable self -> forall id, consistent self id.
Proof.
  induction 1 as [|self self' _ IH Hstep].
  - apply consistent_new.
  - apply (consistent_step self self' Hstep IH).
Qed.

End Lifecycle.

(** C3 (amended). The store never holds pending: a chat message that is
    a test request, with a fresh job id, records status running (pending
    is only the status of the acknowledgement), no result, and a started
    thread.  The thread does not move the status to running; it writes
    the result first and the status second, the status being the result's
    own, completed or failed.  In every reachable state a job with status
    completed or failed has its result, with that status; a job with a
    result has the result's status, completed or failed, or still reads
    running while its thread stands between the two writes; and a running
    job whose thread is not between the two writes has no result. *)
Theorem job_lifecycle (self : EnhancedTestExecutor.Executor) (id : string) :
  Chat.reachable self ->
  EnhancedTestExecutor.test_status self !! id <> Some "pending" /\
  (forall status,
     EnhancedTestExecutor.test_status self !! id = Some status ->
     finished_status status ->
     exists result,
       EnhancedTestExecutor.test_results self !! id = Some result /\
       r_status result = status) /\
  (forall result,
     EnhancedTestExecutor.test_results self !! id = Some result ->
     (EnhancedTestExecutor.test_status self !! id = Some (r_status result) /\
      finished_status (r_status result)) \/
     (EnhancedTestExecutor.test_status self !! id = Some "running" /\
      between_writes self id)) /\
  (EnhancedTestExecutor.test_status self !! id = Some "running" ->
   ~ between_writes self id ->
   EnhancedTestExecutor.test_results self !! id = None) /\
  (forall message_id timestamp user_message,
     EnhancedTestExecutor.test_status self !! id = None ->
     MCPServer.is_test_request (MCPServer.process_message user_message) = true ->
     let answer := Chat.handle_chat_message message_id id timestamp user_message self in
     Chat.c_metadata (fst answer) = Some (Chat.mkMetadata id "pending") /\
     EnhancedTestExecutor.test_status (snd answer) !! id = Some "running" /\
     EnhancedTestExecutor.test_results (snd answer) !! id = None /\
     exists test_request,
       prompt test_request = user_message /\
       EnhancedTestExecutor.running_tests (snd answer) !! id =
         Some (EnhancedTestExecutor.mkThread test_request EnhancedTestExecutor.AtRun)) /\
  (forall test_request ran,
     EnhancedTestExecutor.running_tests self !! id =
       Some (EnhancedTestExecutor.mkThread test_request EnhancedTestExecutor.AtRun) ->
     Chat.runner_outcome test_request ran ->
     let result := EnhancedTestExecutor.stored_result test_request ran in
     let first := EnhancedTestExecutor.write_result test_request result self in
     let second := EnhancedTestExecutor.write_status test_request result first in
     second = EnhancedTestExecutor._run_async_test_with test_request ran self /\
     finished_status (r_status result) /\
     EnhancedTestExecutor.test_results first !! id = Some result /\
     EnhancedTestExecutor.test_status first !! id = Some "running" /\
     EnhancedTestExecutor.test_results second !! id = Some result /\
     EnhancedTestExecutor.test_status second !! id = Some (r_status result)).
Proof.
  intros Hreach. pose proof (reachable_consistent self Hreach) as Hall.
  pose proof (Hall id) as Hid. unfold consistent in Hid.
  split; [|split; [|split; [|split; [|split]]]].
  - destruct (EnhancedTestExecutor.running_tests self !! id) as [[args at_]|].
    + destruct Hid as [_ Hat]. simpl in Hat. destruct at_.
      * destruct Hat as [-> _]. discriminate.
      * destruct Hat as [-> _]. discriminate.
      * destruct Hat as (result & _ & -> & [Hs|Hs]); rewrite Hs; discriminate.
    + destruct Hid as [-> _]. discriminate.
  - intros status Hstatus Hfinished.
    destruct (EnhancedTestExecutor.running_tests self !! id) as [[args at_]|].
    + destruct Hid as [_ Hat]. simpl in Hat. destruct at_.
      * destruct Hat as [Hrunning _]. rewrite Hrunning in Hstatus.
        injection Hstatus as <-. destruct Hfinished; discriminate.
      * destruct Hat as [Hrunning _]. rewrite Hrunning in Hstatus.
        injection Hstatus as <-. destruct Hfinished; discriminate.
      * destruct Hat as (result & Hresult & Hstored & _). exists result.
        split; [exact Hresult|]. congruence.
    + destruct Hid as [Hnone _]. congruence.
  - intros result Hresult.
    destruct (EnhancedTestExecutor.running_tests self !! id) as [[args at_]|] eqn:Hthread.
    + destruct Hid as [_ Hat]. simpl in Hat. destruct at_.
      * destruct Hat as [_ Hnone]. congruence.
      * destruct Hat as (Hrunning & Hstored & _). right.
        split; [exact Hrunning|]. eexists _, _. exact Hthread.
      * destruct Hat as (stored & Hstored & Hstatus & Hfinished). left.
        assert (stored = result) as -> by congruence. auto.
    + destruct Hid as [_ Hnone]. congruence.
  - intros Hrunning Hnot.
    destruct (EnhancedTestExecutor.running_tests self !! id) as [[args at_]|] eqn:Hthread.
    + destruct Hid as [_ Hat]. simpl in Hat. destruct at_.
      * apply Hat.
      * exfalso. apply Hnot. eexists _, _. exact Hthread.
      * destruct Hat as (stored & _ & Hstatus & [Hs|Hs]);
          rewrite Hs in Hstatus; congruence.
    + apply Hid.
  - intros message_id timestamp user_message Hfresh Hrequest answer. subst answer.
    unfold Chat.handle_chat_message.
    destruct (MCPServer.process_message user_message) as [|kind url actions opts];
      [discriminate|]. simpl.
    rewrite !lookup_insert_eq. split; [reflexivity|]. split; [reflexivity|].
    split.
    + destruct (EnhancedTestExecutor.running_tests self !! id) as [[args at_]|].
      * destruct Hid as [_ Hat]. simpl in Hat. destruct at_.
        -- apply Hat.
        -- destruct Hat as [Hrunning _]. congruence.
        -- destruct Hat as (stored & _ & Hstatus & _). congruence.
      * apply Hid.
    + eexists. split; [|reflexivity]. reflexivity.
  - intros test_request ran Hthread Hran result first second.
    rewrite Hthread in Hid. simpl in Hid. destruct Hid as (Hsame & Hrunning & _).
    subst second first. unfold EnhancedTestExecutor._run_async_test_with.
    fold result. split; [reflexivity|].
    split; [apply stored_result_status, Hran|].
    unfold EnhancedTestExecutor.write_status, EnhancedTestExecutor.write_result.
    simpl. rewrite Hsame, !lookup_insert_eq. auto.
Qed.

Lemma job_lifecycle_after_submit :
  let self :=
    snd (Chat.handle_chat_message "m1" "job-1" "now"
           "take a screenshot of https://example.com"
           EnhancedTestExecutor.new_executor) in
  EnhancedTestExecutor.test_status self !! "job-1" = Some "running" /\
  EnhancedTestExecutor.test_status self !! "job-1" <> Some "pending".
Proof.
  split; [reflexivity|].
  refine (proj1 (job_lifecycle _ "job-1" _)).
  apply Chat.reach_step with EnhancedTestExecutor.new_executor;
    [apply Chat.reach_new|].
  apply (Chat.step_message "m1" "job-1" "now"
           "take a screenshot of https://example.com"
           EnhancedTestExecutor.new_executor).
  reflexivity.
Defined.

(** C3 as stated fails twice.  After a submission the stored status is
    running, not pending; and once the thread has made the first of its
    two writes the result is present while the status still reads
    running.  Both states are reachable. *)
Lemma submit_stores_running_and_result_precedes_status :
  let prompt := "take a screenshot of https://example.com" in
  let submitted :=
    snd (Chat.handle_chat_message "m1" "job-1" "now" prompt
           EnhancedTestExecutor.new_executor) in
  let test_request :=
    mkRequest "job-1" prompt "ui" (Some "https://example.com")
      MCPServer.default_options in
  let ran :=
    fst (EnhancedTestExecutor._execute_test_async test_request
           (Rig.mkWorld true 3 None 0)) in
  let written :=
    Chat.advance test_request
      (EnhancedTestExecutor.AtStatusWrite
         (EnhancedTestExecutor.stored_result test_request ran))
      (EnhancedTestExecutor.write_result test_request
         (EnhancedTestExecutor.stored_result test_request ran) submitted) in
  Chat.reachable submitted /\
  EnhancedTestExecutor.test_status submitted !! "job-1" = Some "running" /\
  EnhancedTestExecutor.test_status submitted !! "job-1" <> Some "pending" /\
  Chat.reachable written /\
  EnhancedTestExecutor.test_status written !! "job-1" = Some "running" /\
  (exists result,
     EnhancedTestExecutor.test_results written !! "job-1" = Some result /\
     r_status result = "completed").
Proof.
  intros prompt submitted test_request ran written.
  assert (Hsubmitted : Chat.reachable submitted).
  { apply Chat.reach_step with EnhancedTestExecutor.new_executor;
      [apply Chat.reach_new|].
    apply (Chat.step_message "m1" "job-1" "now" prompt
             EnhancedTestExecutor.new_executor).
    reflexivity. }
  split; [exact Hsubmitted|]. split; [reflexivity|]. split; [discriminate|].
  split.
  - apply Chat.reach_step with submitted; [exact Hsubmitted|].
    apply (Chat.step_result "job-1" test_request ran submitted).
    + vm_compute. reflexivity.
    + right. exists Rig.World, Rig.rig_env, (Rig.mkWorld true 3 None 0). reflexivity.
  - split; [reflexivity|]. eexists. split; [vm_compute; reflexivity|reflexivity].
Qed.

(** * Further properties of the interpreter and the executors *)

(** ** The matcher against the texts of a pattern *)

Section Matcher.
Import Re.

Lemma append_cons (x : ascii) (a b : string) :
  String x a +:+ b = String x (a +:+ b).
Proof. reflexivity. Qed.

Lemma append_nil (b : string) : "" +:+ b = b.
Proof. reflexivity. Qed.

Lemma append_assoc (a b c : string) : (a +:+ b) +:+ c = a +:+ (b +:+ c).
Proof.
  induction a as [|x a IH]; [reflexivity|]. rewrite !append_cons, IH. reflexivity.
Qed.

Lemma append_empty_r (a : string) : a +:+ "" = a.
Proof.
  induction a as [|x a IH]; [reflexivity|]. rewrite append_cons, IH. reflexivity.
Qed.

Lemma length_append (a b : string) :
  String.length (a +:+ b) = String.length a + String.length b.
Proof.
  induction a as [|x a IH]; [reflexivity|]. rewrite append_cons. simpl.
  rewrite IH. reflexivity.
Qed.

Lemma prefix_split (l s : string) :
  String.prefix l s = true -> s = l +:+ Py.drop (String.length l) s.
Proof.
  revert s. induction l as [|c l IH]; intros s; simpl.
  - reflexivity.
  - destruct s as [|d s]; [discriminate|]. simpl.
    destruct (ascii_dec c d) as [->|]; [|discriminate].
    intros Hprefix. rewrite append_cons. f_equal. apply IH, Hprefix.
Qed.

Lemma take_append (t s : string) :
  Py.take (String.length (t +:+ s) - String.length s) (t +:+ s) = t.
Proof.
  rewrite length_append. replace (String.length t + String.length s - String.length s)
    with (String.length t) by lia.
  unfold Py.take. induction t as [|c t IH].
  - rewrite append_nil. destruct s; reflexivity.
  - rewrite append_cons. simpl. rewrite IH. reflexivity.
Qed.

Lemma every_append (P : ascii -> Prop) (a b : string) :
  every P (a +:+ b) <-> every P a /\ every P b.
Proof.
  induction a as [|x a IH]; [rewrite append_nil; simpl; tauto|].
  rewrite append_cons. simpl. rewrite IH. tauto.
Qed.

Lemma every_impl (P Q : ascii -> Prop) (s : string) :
  (forall c, P c -> Q c) -> every P s -> every Q s.
Proof.
  intros Himpl. induction s as [|c s IH]; simpl; [auto|].
  intros [Hc Hs]. split; [apply Himpl, Hc|apply IH, Hs].
Qed.

Lemma rep_sound {A} (p : ascii -> bool) (n : nat) (s : string)
    (k : string -> option A) (x : A) :
  rep p n s k = Some x ->
  exists t s', s = t +:+ s' /\ every (fun c => p c = true) t /\
               n <= String.length t /\ k s' = Some x.
Proof.
  revert n. induction s as [|c s IH]; intros n; simpl.
  - destruct (Nat.eqb_spec n 0) as [->|]; [|discriminate].
    intros Hk. exists "", "". simpl. auto.
  - destruct (p c) eqn:Hc.
    + destruct (rep p (Nat.pred n) s k) as [y|] eqn:Hmore.
      * intros [= ->]. destruct (IH _ Hmore) as (t & s' & -> & Ht & Hn & Hk).
        exists (String c t), s'. simpl. repeat split; auto. lia.
      * destruct (Nat.eqb_spec n 0) as [->|]; [|discriminate].
        intros Hk. exists "", (String c s). simpl. auto.
    + destruct (Nat.eqb_spec n 0) as [->|]; [|discriminate].
      intros Hk. exists "", (String c s). simpl. auto.
Qed.

(** A pattern without groups hands its continuation the rest of the
    subject, after a text of the pattern, and the group as it was. *)
Lemma try_match_sound {A} (r : regex) :
  group_free r = true ->
  forall (s : string) (cap : option string)
         (k : string -> option string -> option A) (x : A),
    try_match r s cap k = Some x ->
    exists t s', s = t +:+ s' /\ lang r t /\ k s' cap = Some x.
Proof.
  induction r as [l|p|p n|r1 IH1|r1 IH1 r2 IH2|r1 IH1 r2 IH2|r1 IH1];
    simpl; intros Hfree s cap k x.
  - destruct (String.prefix l s) eqn:Hprefix; [|discriminate].
    intros Hk. exists l, (Py.drop (String.length l) s).
    split; [apply prefix_split, Hprefix|]. auto.
  - destruct s as [|c s]; [discriminate|].
    destruct (p c) eqn:Hc; [|discriminate].
    intros Hk. exists (String c ""), s. simpl. eauto.
  - intros Hrep. apply rep_sound in Hrep as (t & s' & -> & Ht & Hn & Hk).
    exists t, s'. auto.
  - destruct (try_match r1 s cap k) as [y|] eqn:Hfirst.
    + intros [= ->]. destruct (IH1 Hfree _ _ _ _ Hfirst) as (t & s' & -> & Ht & Hk).
      exists t, s'. auto.
    + intros Hk. exists "", s. simpl. auto.
  - apply andb_true_iff in Hfree as [Hfree1 Hfree2].
    destruct (try_match r1 s cap k) as [y|] eqn:Hfirst.
    + intros [= ->]. destruct (IH1 Hfree1 _ _ _ _ Hfirst) as (t & s' & -> & Ht & Hk).
      exists t, s'. auto.
    + intros Hsecond.
      destruct (IH2 Hfree2 _ _ _ _ Hsecond) as (t & s' & -> & Ht & Hk).
      exists t, s'. auto.
  - apply andb_true_iff in Hfree as [Hfree1 Hfree2].
    intros Hseq.
    destruct (IH1 Hfree1 _ _ _ _ Hseq) as (t1 & s1 & -> & Ht1 & Hrest).
    destruct (IH2 Hfree2 _ _ _ _ Hrest) as (t2 & s2 & -> & Ht2 & Hk).
    exists (t1 +:+ t2), s2. rewrite append_assoc. eauto 10.
  - discriminate.
Qed.

(** A group around a pattern without groups hands on the text it
    matched. *)
Lemma try_match_group {A} (r : regex) (s : string) (cap : option string)
    (k : string -> option string -> option A) (x : A) :
  group_free r = true ->
  try_match (Grp r) s cap k = Some x ->
  exists t s', s = t +:+ s' /\ lang r t /\ k s' (Some t) = Some x.
Proof.
  simpl. intros Hfree Hmatch.
  apply (try_match_sound r Hfree) in Hmatch as (t & s' & -> & Ht & Hk).
  rewrite take_append in Hk. exists t, s'. auto.
Qed.

(** The whole match of a pattern without groups. *)
Lemma match_at_sound (r : regex) (s u rest : string) :
  group_free r = true ->
  match_at r s = Some (u, rest) -> s = u +:+ rest /\ lang r u.
Proof.
  unfold match_at. intros Hfree Hmatch.
  apply (try_match_sound r Hfree) in Hmatch as (t & s' & -> & Ht & Hk).
  rewrite take_append in Hk. injection Hk as <- <-. auto.
Qed.

(** What [findall] lists comes from a match at some position. *)
Lemma search_from_at (r : regex) (s u rest : string) :
  search_from r s = Some (u, rest) ->
  exists before s0, s = before +:+ s0 /\ match_at r s0 = Some (u, rest).
Proof.
  induction s as [|c s IH]; simpl.
  - destruct (match_at r "") as [y|] eqn:Hhere; [|discriminate].
    intros [= ->]. exists "", "". auto.
  - destruct (match_at r (String c s)) as [y|] eqn:Hhere.
    + intros [= ->]. exists "", (String c s). auto.
    + intros Hlater. destruct (IH Hlater) as (before & s0 & -> & Hmatch).
      exists (String c before), s0. auto.
Qed.

Lemma findall_head (r : regex) (s u : string) (others : list string) :
  findall r s = u :: others ->
  exists before s0 rest, s = before +:+ s0 /\ match_at r s0 = Some (u, rest).
Proof.
  unfold findall. simpl.
  destruct (search_from r s) as [[v rest]|] eqn:Hsearch; [|discriminate].
  intros [= -> _]. destruct (search_from_at r s u rest Hsearch)
    as (before & s0 & -> & Hmatch).
  exists before, s0, rest. auto.
Qed.

Lemma search_literal (l s : string) : search (Lit l) s = Py.contains l s.
Proof.
  unfold search. induction s as [|c s IH].
  - simpl. destruct l; reflexivity.
  - change (search_from (Lit l) (String c s))
      with (match match_at (Lit l) (String c s) with
            | Some y => Some y
            | None => search_from (Lit l) s
            end).
    rewrite contains_cons.
    change (match_at (Lit l) (String c s))
      with (if String.prefix l (String c s)
            then Some (Py.take (String.length (String c s) -
                                String.length (Py.drop (String.length l) (String c s)))
                         (String c s),
                       Py.drop (String.length l) (String c s))
            else None).
    destruct (String.prefix l (String c s)); [reflexivity|exact IH].
Qed.

End Matcher.

(** ** The URL the interpreter extracts *)

Section ExtractUrl.
Import Re.

Lemma match_group_last (a b body : regex) (s d rest : string) :
  group_free a = true -> group_free b = true -> group_free body = true ->
  match_at (Seq a (Seq b (Grp body))) s = Some (d, rest) ->
  exists before, s = before +:+ d +:+ rest /\ lang body d.
Proof.
  intros Ha Hb Hbody. unfold match_at.
  change (try_match (Seq a (Seq b (Grp body))) s None ?k)
    with (try_match a s None
            (fun s' cap' => try_match b s' cap'
               (fun s'' cap'' => try_match (Grp body) s'' cap'' k))).
  intros Hmatch.
  apply (try_match_sound a Ha) in Hmatch as (t1 & s1 & -> & _ & Hmatch).
  apply (try_match_sound b Hb) in Hmatch as (t2 & s2 & -> & _ & Hmatch).
  apply (try_match_group body _ _ _ _ Hbody) in Hmatch as (t & s3 & -> & Ht & Hk).
  injection Hk as <- <-. exists (t1 +:+ t2). rewrite append_assoc. auto.
Qed.

Lemma findall_url (message u : string) (others : list string) :
  findall MCPServer.url_pattern message = u :: others ->
  exists before after,
    message = before +:+ u +:+ after /\ lang MCPServer.url_pattern u.
Proof.
  intros Hfind. apply findall_head in Hfind as (before & s0 & rest & -> & Hmatch).
  apply match_at_sound in Hmatch as [-> Hlang]; [|reflexivity].
  exists before, rest. auto.
Qed.

Lemma findall_domain (a : regex) (message d : string) (others : list string) :
  group_free a = true ->
  findall (seq [a; Rep space 1; Grp domain_body]) message = d :: others ->
  exists before after, message = before +:+ d +:+ after /\ lang domain_body d.
Proof.
  intros Ha Hfind. apply findall_head in Hfind as (before & s0 & rest & -> & Hmatch).
  apply (match_group_last a (Rep space 1) domain_body) in Hmatch
    as (skipped & -> & Hlang); try reflexivity; [|exact Ha].
  exists (before +:+ skipped), rest. rewrite append_assoc. auto.
Qed.

Lemma extract_url_read (message u : string) :
  MCPServer._extract_url message = Some u -> url_read_from message u.
Proof.
  unfold MCPServer._extract_url, url_read_from.
  destruct (findall MCPServer.url_pattern message) as [|v urls] eqn:Hurls.
  - destruct (findall MCPServer.domain_pattern message) as [|d domains] eqn:Hdomains;
      [discriminate|].
    intros [= <-].
    apply (findall_domain (Alt (Lit "on") (Alt (Lit "at") (Lit "from")))) in Hdomains
      as (before & after & -> & Hlang); [|reflexivity].
    exists before, d, after. auto.
  - intros [= <-]. apply findall_url in Hurls as (before & after & -> & Hlang).
    exists before, v, after. auto.
Qed.

Lemma domain_char_no_space (c : ascii) :
  MCPServer.domain_char c = true -> no_space c.
Proof.
  unfold no_space.
  destruct c as [[] [] [] [] [] [] [] []]; vm_compute; congruence.
Qed.

Lemma alpha_domain_char (c : ascii) :
  alpha c = true -> MCPServer.domain_char c = true.
Proof. unfold MCPServer.domain_char. intros ->. reflexivity. Qed.

Lemma url_lang_scheme (t : string) :
  lang MCPServer.url_pattern t -> has_scheme t /\ every no_space t.
Proof.
  intros (t1 & r1 & -> & -> & t2 & r2 & -> & Hs & t3 & t4 & -> & -> & Hrun & _).
  assert (Hrun' : every no_space t4).
  { apply (every_impl _ _ _ (fun c Hc => proj1 (negb_true_iff _) Hc) Hrun). }
  destruct Hs as [->| ->].
  - split; [left; apply (prefix_append "http://" t4)|].
    vm_compute. repeat split; exact Hrun'.
  - split; [right; apply (prefix_append "https://" t4)|].
    vm_compute. repeat split; exact Hrun'.
Qed.

Lemma domain_lang_chars (t : string) :
  lang domain_body t -> every (fun c => MCPServer.domain_char c = true) t.
Proof.
  intros (t1 & r1 & -> & [Hname _] & t2 & t3 & -> & -> & [Htld _]).
  apply every_append. split; [exact Hname|].
  apply every_append. split; [simpl; auto|].
  apply (every_impl _ _ _ alpha_domain_char Htld).
Qed.

Lemma url_read_scheme (message u : string) :
  url_read_from message u -> has_scheme u /\ every no_space u.
Proof.
  intros (before & t & after & _ & [[-> Hlang]|[-> Hlang]]).
  - apply url_lang_scheme, Hlang.
  - split; [right; apply (prefix_append "https://" t)|].
    apply (every_append no_space "https://" t). split; [vm_compute; tauto|].
    apply (every_impl _ _ _ domain_char_no_space), domain_lang_chars, Hlang.
Qed.

End ExtractUrl.

(** X1. A target URL extracted by the interpreter starts with http:// or
    https:// and contains no whitespace, whether it was an absolute URL
    of the message or a domain name after on, at or from. *)
Theorem extracted_url_has_scheme (message u : string) :
  MCPServer._extract_url message = Some u ->
  has_scheme u /\ every no_space u.
Proof.
  intros Hurl. apply (url_read_scheme message), extract_url_read, Hurl.
Qed.

Lemma extracted_url_has_scheme_domain :
  has_scheme "https://shop.example.org" /\ every no_space "https://shop.example.org".
Proof.
  apply (extracted_url_has_scheme "check the cart on shop.example.org now").
  vm_compute. reflexivity.
Defined.

(** ** Lower case *)

Section LowerCase.

Lemma lower_char_idempotent (c : ascii) : is_lower (Py.lower_char c).
Proof.
  unfold is_lower. destruct c as [[] [] [] [] [] [] [] []]; vm_compute; reflexivity.
Qed.

Lemma lower_every (s : string) : every is_lower (Py.lower s).
Proof.
  induction s as [|c s IH]; simpl; [exact I|].
  split; [apply lower_char_idempotent|exact IH].
Qed.

Lemma every_lower_fixed (s : string) : every is_lower s -> Py.lower s = s.
Proof.
  induction s as [|c s IH]; simpl; [reflexivity|].
  intros [Hc Hs]. rewrite Hc, (IH Hs). reflexivity.
Qed.

Lemma url_read_lower (message u : string) :
  every is_lower message -> url_read_from message u -> Py.lower u = u.
Proof.
  intros Hlower (before & t & after & -> & Hcases).
  apply every_append in Hlower as [_ Hlower].
  apply every_append in Hlower as [Ht _].
  apply every_lower_fixed.
  destruct Hcases as [[-> _]|[-> _]]; [exact Ht|].
  apply (every_append is_lower "https://" t). split; [vm_compute; tauto|exact Ht].
Qed.

End LowerCase.

(** X2. The URL of a Navigate action of an interpretation is read off
    the lower-cased prompt, so it is in lower case throughout, while the
    target URL of the same interpretation is read off the prompt as
    typed. *)
Theorem navigate_url_is_lower_cased (prompt : string) (action : Action) :
  In action (intent_actions (MCPServer.process_message prompt)) ->
  a_type action = "navigate" ->
  exists u,
    a_url action = Some u /\
    MCPServer._extract_url (Py.lower prompt) = Some u /\
    Py.lower u = u /\
    exists test_type actions options,
      MCPServer.process_message prompt =
        MCPServer.TestRequest test_type (MCPServer._extract_url prompt) actions options.
Proof.
  unfold MCPServer.process_message.
  destruct (negb (MCPServer._is_test_request (Py.lower prompt))); simpl;
    [contradiction|].
  unfold MCPServer._parse_actions. simpl. intros Hin Hkind.
  rewrite !in_app_iff in Hin. destruct Hin as [[[[Hin|Hin]|Hin]|Hin]|Hin].
  - unfold MCPServer.navigate_part in Hin.
    destruct (Py.any_in _ _); [|contradiction].
    destruct (MCPServer._extract_url (Py.lower prompt)) as [u|] eqn:Hurl;
      [|contradiction].
    destruct Hin as [<-|[]]. exists u. split; [reflexivity|]. split; [reflexivity|].
    split; [|eauto].
    apply (url_read_lower (Py.lower prompt)); [apply lower_every|].
    apply extract_url_read, Hurl.
  - unfold MCPServer.click_part in Hin. destruct (Py.any_in _ _); [|contradiction].
    apply in_map_iff in Hin as (target & <- & _). discriminate.
  - unfold MCPServer.type_part in Hin. destruct (Py.any_in _ _); [|contradiction].
    destruct Hin as [<-|[]]. discriminate.
  - unfold MCPServer.verify_part in Hin. destruct (Py.any_in _ _); [|contradiction].
    destruct Hin as [<-|[]]. discriminate.
  - unfold MCPServer.screenshot_part in Hin. destruct (Py.any_in _ _); [|contradiction].
    destruct Hin as [<-|[]]. discriminate.
Qed.

Lemma navigate_url_is_lower_cased_login :
  exists u,
    a_url (navigate_action "https://example.com/login") = Some u /\
    MCPServer._extract_url (Py.lower "Go to https://Example.com/Login and check it")
      = Some u /\
    Py.lower u = u /\
    exists test_type actions options,
      MCPServer.process_message "Go to https://Example.com/Login and check it" =
        MCPServer.TestRequest test_type
          (MCPServer._extract_url "Go to https://Example.com/Login and check it")
          actions options.
Proof.
  apply (navigate_url_is_lower_cased
           "Go to https://Example.com/Login and check it"
           (navigate_action "https://example.com/login")).
  - vm_compute. left. reflexivity.
  - reflexivity.
Defined.

(** ** The table of test types *)

(** X3. The test type of a message is always ui, api or mixed, and a
    message that contains "screenshot" is a ui test whatever else it
    mentions, because the ui patterns are tried first. *)
Theorem test_type_is_one_of_three (message : string) :
  (MCPServer._determine_test_type message = "ui" \/
   MCPServer._determine_test_type message = "api" \/
   MCPServer._determine_test_type message = "mixed") /\
  (Py.contains "screenshot" message = true ->
   MCPServer._determine_test_type message = "ui").
Proof.
  unfold MCPServer._determine_test_type, MCPServer.test_patterns.
  split.
  - unfold MCPServer.first_group.
    destruct (existsb _ _); [left; reflexivity|].
    destruct (existsb _ _); [right; left; reflexivity|].
    destruct (existsb _ _); [right; right; reflexivity|].
    left. reflexivity.
  - intros Hshot. unfold MCPServer.first_group.
    match goal with
    | |- context [existsb ?f ?ps] =>
        assert (Hui : existsb f ps = true)
    end.
    { apply existsb_exists. exists (Re.Lit "screenshot").
      split; [simpl; tauto|]. rewrite search_literal. exact Hshot. }
    rewrite Hui. reflexivity.
Qed.

(** ** What to click, what to type, what to verify *)

Section Extractors.
Import MCPServer.

Lemma click_targets_filter (message : string) :
  _extract_click_targets message =
    match filter (fun element => Py.contains element message = true) ui_elements with
    | [] => ["button"]
    | targets => targets
    end.
Proof.
  unfold _extract_click_targets, ui_elements.
  destruct (filter _ _); reflexivity.
Qed.

(** X4. The click targets of a message are the nouns of the vocabulary
    that occur in it, each once and in the order of the vocabulary (so
    at most twelve): a target is returned if and only if it is such a
    noun.  When no noun of the vocabulary occurs the list is the lone
    default "button"; it is never empty. *)
Theorem click_targets_from_vocabulary (message : string) :
  _extract_click_targets message <> [] /\
  NoDup (_extract_click_targets message) /\
  length (_extract_click_targets message) <= 12 /\
  (forall target, target ∈ _extract_click_targets message -> target ∈ ui_elements) /\
  (forall noun, noun ∈ ui_elements -> Py.contains noun message = true ->
                noun ∈ _extract_click_targets message) /\
  ((forall noun, noun ∈ ui_elements -> Py.contains noun message = false) ->
   _extract_click_targets message = ["button"]) /\
  (forall target,
     target ∈ _extract_click_targets message ->
     Py.contains target message = true \/
     (forall noun, noun ∈ ui_elements -> Py.contains noun message = false)) /\
  _extract_click_targets message `sublist_of` ui_elements /\
  ((exists noun, noun ∈ ui_elements /\ Py.contains noun message = true) ->
   _extract_click_targets message =
     filter (fun element => Py.contains element message = true) ui_elements).
Proof.
  rewrite click_targets_filter.
  assert (Hsub : filter (fun element => Py.contains element message = true) ui_elements
                   `sublist_of` ui_elements) by apply sublist_filter.
  set (found := filter (fun element => Py.contains element message = true) ui_elements)
    in *.
  assert (Hnodup : NoDup found).
  { apply NoDup_filter. unfold ui_elements.
    apply NoDup_ListNoDup. repeat constructor; simpl; intuition discriminate. }
  assert (Hlength : length found <= 12).
  { etransitivity; [apply length_filter|]. reflexivity. }
  assert (Hin : forall t, t ∈ found <-> Py.contains t message = true /\ t ∈ ui_elements).
  { intros t. unfold found. rewrite list_elem_of_filter. reflexivity. }
  destruct found as [|first others] eqn:Hfound.
  - assert (Hnone : forall noun, noun ∈ ui_elements -> Py.contains noun message = false).
    { intros noun Hnoun. destruct (Py.contains noun message) eqn:Hoccurs; [|reflexivity].
      exfalso. apply (not_elem_of_nil noun), Hin. auto. }
    split; [discriminate|]. split; [apply NoDup_singleton|].
    split; [simpl; lia|]. repeat split.
    + intros target Htarget. apply list_elem_of_singleton in Htarget as ->.
      apply list_elem_of_In. simpl. tauto.
    + intros noun Hnoun Hoccurs. rewrite (Hnone noun Hnoun) in Hoccurs. discriminate.
    + intros target _. right. exact Hnone.
    + unfold ui_elements. apply sublist_skip, sublist_nil_l.
    + intros (noun & Hnoun & Hoccurs).
      rewrite (Hnone noun Hnoun) in Hoccurs. discriminate.
  - split; [discriminate|]. split; [exact Hnodup|]. split; [exact Hlength|].
    repeat split.
    + intros target Htarget. apply Hin, Htarget.
    + intros noun Hnoun Hoccurs. apply Hin. auto.
    + intros Hnone. exfalso.
      assert (Hfirst : first ∈ first :: others) by apply list_elem_of_here.
      apply Hin in Hfirst as [Hoccurs Hnoun].
      rewrite (Hnone first Hnoun) in Hoccurs. discriminate.
    + intros target Htarget. left. apply Hin, Htarget.
    + exact Hsub.
Qed.

Lemma findall_none (r : Re.regex) (s : string) :
  Re.search_from r s = None -> Re.findall r s = [].
Proof. unfold Re.findall. simpl. intros ->. reflexivity. Qed.

Lemma no_quote_no_match (s : string) :
  every not_dq_char s ->
  Re.search_from (Re.seq [Re.Lit Py.dq; Re.Grp (Re.Rep not_dq 0); Re.Lit Py.dq]) s = None.
Proof.
  induction s as [|c s IH]; simpl every.
  - intros _. reflexivity.
  - intros [Hc Hs].
    change (Re.search_from ?r (String c s))
      with (match Re.match_at r (String c s) with
            | Some y => Some y
            | None => Re.search_from r s
            end).
    rewrite (IH Hs).
    assert (Hhere : String.prefix Py.dq (String c s) = false).
    { destruct (String.prefix Py.dq (String c s)) eqn:Hprefix; [|reflexivity].
      apply prefix_split in Hprefix. unfold Py.dq in Hprefix.
      rewrite append_cons in Hprefix. injection Hprefix as Heq.
      exfalso. apply Hc. exact Heq. }
    unfold Re.match_at.
    change (Re.try_match (Re.seq [Re.Lit Py.dq; ?g; ?b]) (String c s) None ?k)
      with (if String.prefix Py.dq (String c s)
            then Re.try_match (Re.Seq g b)
                   (Py.drop (String.length Py.dq) (String c s)) None k
            else None).
    rewrite Hhere. reflexivity.
Qed.

Lemma not_dq_spec (c : ascii) : not_dq c = true -> not_dq_char c.
Proof.
  unfold not_dq, not_dq_char, Re.is_char. intros Hc ->.
  rewrite Ascii.eqb_refl in Hc. discriminate.
Qed.

Lemma quoted_text_no_quote (message q : string) (others : list string) :
  Re.findall (Re.seq [Re.Lit Py.dq; Re.Grp (Re.Rep not_dq 0); Re.Lit Py.dq]) message
    = q :: others ->
  every not_dq_char q /\
  exists before after, message = before +:+ Py.dq +:+ q +:+ Py.dq +:+ after.
Proof.
  intros Hfind. apply findall_head in Hfind as (before & s0 & rest & -> & Hmatch).
  unfold Re.match_at in Hmatch. simpl Re.seq in Hmatch.
  change (Re.try_match (Re.Seq ?a (Re.Seq (Re.Grp ?g) ?b)) s0 None ?k)
    with (Re.try_match a s0 None
            (fun s' cap' => Re.try_match (Re.Grp g) s' cap'
               (fun s'' cap'' => Re.try_match b s'' cap'' k))) in Hmatch.
  apply try_match_sound in Hmatch as (t1 & s1 & -> & -> & Hmatch); [|reflexivity].
  apply try_match_group in Hmatch as (t & s2 & -> & [Ht _] & Hmatch); [|reflexivity].
  apply try_match_sound in Hmatch as (t3 & s3 & -> & -> & Hk); [|reflexivity].
  injection Hk as <- <-. split.
  - apply (every_impl _ _ _ not_dq_spec Ht).
  - exists before, s3. reflexivity.
Qed.

Lemma rep_greedy {A} (p : ascii -> bool) (n : nat) (t s' : string)
    (k : string -> option A) (x : A) :
  every (fun c => p c = true) t ->
  n <= String.length t ->
  match s' with EmptyString => True | String c _ => p c = false end ->
  k s' = Some x ->
  Re.rep p n (t +:+ s') k = Some x.
Proof.
  revert n. induction t as [|c t IH]; intros n Ht Hn Hstop Hk.
  - rewrite append_nil. simpl in Hn. assert (n = 0) as -> by lia.
    destruct s' as [|d s']; simpl; [exact Hk|]. rewrite Hstop. exact Hk.
  - rewrite append_cons. simpl in Ht, Hn. destruct Ht as [Hc Ht]. simpl.
    rewrite Hc, (IH (Nat.pred n) Ht) by (auto; lia). reflexivity.
Qed.

Lemma not_dq_char_spec (c : ascii) : not_dq_char c -> not_dq c = true.
Proof.
  unfold not_dq, not_dq_char, Re.is_char. intros Hc.
  destruct (Ascii.eqb_spec (ascii_of_nat 34) c) as [Heq|]; [|reflexivity].
  exfalso. apply Hc. symmetry. exact Heq.
Qed.

Lemma quoted_text_here (q after : string) :
  every not_dq_char q ->
  Re.match_at (Re.seq [Re.Lit Py.dq; Re.Grp (Re.Rep not_dq 0); Re.Lit Py.dq])
    (Py.dq +:+ q +:+ Py.dq +:+ after) = Some (q, after).
Proof.
  intros Hq. unfold Re.match_at. simpl Re.seq. cbn [Re.try_match].
  rewrite prefix_append.
  change (Py.drop (String.length Py.dq) (Py.dq +:+ ?x)) with x.
  apply rep_greedy.
  - apply (every_impl _ _ _ not_dq_char_spec Hq).
  - lia.
  - reflexivity.
  - rewrite prefix_append, take_append. reflexivity.
Qed.

Lemma quoted_text_found (before q after : string) :
  every not_dq_char before ->
  every not_dq_char q ->
  Re.search_from (Re.seq [Re.Lit Py.dq; Re.Grp (Re.Rep not_dq 0); Re.Lit Py.dq])
    (before +:+ Py.dq +:+ q +:+ Py.dq +:+ after) = Some (q, after).
Proof.
  intros Hbefore Hq. induction before as [|c before IH].
  - rewrite append_nil.
    assert (Hstep : forall r s,
              Re.search_from r s =
              match Re.match_at r s with
              | Some y => Some y
              | None => match s with
                        | EmptyString => None
                        | String _ s' => Re.search_from r s'
                        end
              end) by (intros r s; destruct s; reflexivity).
    rewrite Hstep, (quoted_text_here q after Hq). reflexivity.
  - simpl in Hbefore. destruct Hbefore as [Hc Hbefore].
    rewrite append_cons.
    set (rest := before +:+ Py.dq +:+ q +:+ Py.dq +:+ after) in *.
    change (Re.search_from ?r (String c rest))
      with (match Re.match_at r (String c rest) with
            | Some y => Some y
            | None => Re.search_from r rest
            end).
    rewrite (IH Hbefore).
    assert (Hhere : String.prefix Py.dq (String c rest) = false).
    { destruct (String.prefix Py.dq (String c rest)) eqn:Hprefix; [|reflexivity].
      apply prefix_split in Hprefix. unfold Py.dq in Hprefix.
      rewrite append_cons in Hprefix. injection Hprefix as Heq.
      exfalso. apply Hc. exact Heq. }
    unfold Re.match_at.
    change (Re.try_match (Re.seq [Re.Lit Py.dq; ?g; ?b]) (String c rest) None ?k)
      with (if String.prefix Py.dq (String c rest)
            then Re.try_match (Re.Seq g b)
                   (Py.drop (String.length Py.dq) (String c rest)) None k
            else None).
    rewrite Hhere. reflexivity.
Qed.

(** X5. The text of a Type action never contains a double quote.  When
    the message holds a pair of double quotes, the text is what stands
    between the first two of them (it may be empty).  When the message
    holds no such pair, the text is test@example.com if "username" or
    "email" occurs, else testpassword123 if "password" occurs, else
    "test input". *)
Theorem text_to_type_cases (message : string) :
  every not_dq_char (_extract_text_to_type message) /\
  (every not_dq_char message ->
   _extract_text_to_type message =
     if Py.contains "username" message || Py.contains "email" message
     then "test@example.com"
     else if Py.contains "password" message then "testpassword123"
     else "test input") /\
  (_extract_text_to_type message = "test@example.com" \/
   _extract_text_to_type message = "testpassword123" \/
   _extract_text_to_type message = "test input" \/
   exists before after,
     message = before +:+ Py.dq +:+ _extract_text_to_type message +:+ Py.dq +:+ after) /\
  (forall before q after,
     message = before +:+ Py.dq +:+ q +:+ Py.dq +:+ after ->
     every not_dq_char before ->
     every not_dq_char q ->
     _extract_text_to_type message = q) /\
  ((forall before q after, message <> before +:+ Py.dq +:+ q +:+ Py.dq +:+ after) ->
   _extract_text_to_type message =
     if Py.contains "username" message || Py.contains "email" message
     then "test@example.com"
     else if Py.contains "password" message then "testpassword123"
     else "test input").
Proof.
  assert (Hpair : forall before q after,
            message = before +:+ Py.dq +:+ q +:+ Py.dq +:+ after ->
            every not_dq_char before -> every not_dq_char q ->
            _extract_text_to_type message = q).
  { intros before q after -> Hbefore Hq. unfold _extract_text_to_type, Re.findall.
    change (Re.findall_fuel (S ?n) ?r ?s)
      with (match Re.search_from r s with
            | None => []
            | Some (y, rest) => y :: Re.findall_fuel n r rest
            end).
    rewrite (quoted_text_found before q after Hbefore Hq). reflexivity. }
  unfold _extract_text_to_type in *.
  destruct (Re.findall _ message) as [|q others] eqn:Hfind.
  - split; [|split; [|split; [|split]]].
    + destruct (_ || _); [vm_compute; intuition discriminate|].
      destruct (Py.contains "password" message); vm_compute; intuition discriminate.
    + reflexivity.
    + destruct (_ || _); [auto|]. destruct (Py.contains "password" message); auto.
    + exact Hpair.
    + reflexivity.
  - destruct (quoted_text_no_quote message q others Hfind) as [Hq Hbetween].
    split; [exact Hq|]. split; [|split; [auto|split; [exact Hpair|]]].
    + intros Hnone. exfalso.
      rewrite (findall_none _ _ (no_quote_no_match message Hnone)) in Hfind.
      discriminate.
    + intros Hno. exfalso. destruct Hbetween as (before & after & Hsplit).
      apply (Hno before q after Hsplit).
Qed.

End Extractors.

(** ** The two actions of the executor behind the routes *)

Section EnhancedActions.
Import EnhancedTestExecutor.

Lemma b64encode_truthy (data : string) :
  Py.truthy (Py.b64encode data) = Py.truthy data.
Proof.
  destruct data as [|a [|b [|c rest]]]; reflexivity.
Qed.

(** X6. A navigate action with a URL gives a step that is a success
    exactly when the page load and the settle delay both returned: a
    screenshot that raises afterwards is only logged, and the step is
    still a success, without an image.  The three script lines of the
    navigation are appended in every case.  Without a URL the step is
    failed and nothing is appended or done. *)
Theorem navigate_step_cases {W : Type} `{Env W}
    (action : Action) (script_lines : list string) (w : W) :
  a_type action = "navigate" ->
  match a_url action with
  | None =>
      _execute_action action script_lines w =
        (Ok (Some (error_step "navigate" "'url'"), script_lines), w)
  | Some url =>
      exists step w',
        _execute_action action script_lines w =
          (Ok (Some step, script_lines ++ action_script action), w') /\
        (s_status step = "success" \/ s_status step = "failed") /\
        (s_status step = "success" <->
         exists w1 w2,
           page_goto url (Some 30000%Z) w = (Ok tt, w1) /\
           page_wait_for_timeout 2000 w1 = (Ok tt, w2)) /\
        (forall w1 w2 e w3,
           page_goto url (Some 30000%Z) w = (Ok tt, w1) ->
           page_wait_for_timeout 2000 w1 = (Ok tt, w2) ->
           page_screenshot true w2 = (Raise e, w3) ->
           w' = w3 /\
           step = mkStep ("navigate to " +:+ url) "success" None
                    ["Navigated to " +:+ url; "Screenshot failed: " +:+ e])
  end.
Proof.
  intros Hkind. unfold _execute_action, action_script. rewrite Hkind.
  change (String.eqb "navigate" "navigate") with true. cbv iota.
  destruct (a_url action) as [url|]; [|reflexivity].
  unfold capture, catch, bind, ret.
  destruct (page_goto url (Some 30000%Z) w) as [[[]|e1] w1] eqn:Hgoto.
  - destruct (page_wait_for_timeout 2000 w1) as [[[]|e2] w2] eqn:Hwait.
    + destruct (page_screenshot true w2) as [[image|e3] w3] eqn:Hshot;
        eexists _, _; (split; [reflexivity|]); simpl;
        (split; [left; reflexivity|]);
        (split; [split; [intros _; exists w1, w2; rewrite Hwait; auto|reflexivity]|]);
        intros w1' w2' e w3' [= <-]; rewrite Hwait; intros [= <-];
        rewrite Hshot; intros [= <- <-]; auto.
    + eexists _, _. split; [reflexivity|]. simpl.
      split; [right; reflexivity|]. split.
      * split; [discriminate|]. intros (w1' & w2' & [= <-] & Hwait').
        rewrite Hwait in Hwait'. discriminate.
      * intros w1' w2' e w3' [= <-]. rewrite Hwait. discriminate.
  - eexists _, _. split; [reflexivity|]. simpl.
    split; [right; reflexivity|]. split.
    + split; [discriminate|]. intros (w1' & w2' & [=] & _).
    + intros w1' w2' e w3' [=].
Qed.

Lemma navigate_step_cases_page_gone :
  exists step w',
    _execute_action (navigate_action "https://example.com") []
      (Rig.mkWorld true 0 None 0) =
      (Ok (Some step, [] ++ action_script (navigate_action "https://example.com")), w') /\
    (s_status step = "success" \/ s_status step = "failed") /\
    (s_status step = "success" <->
     exists w1 w2,
       page_goto "https://example.com" (Some 30000%Z) (Rig.mkWorld true 0 None 0)
         = (Ok tt, w1) /\
       page_wait_for_timeout 2000 w1 = (Ok tt, w2)) /\
    (forall w1 w2 e w3,
       page_goto "https://example.com" (Some 30000%Z) (Rig.mkWorld true 0 None 0)
         = (Ok tt, w1) ->
       page_wait_for_timeout 2000 w1 = (Ok tt, w2) ->
       page_screenshot true w2 = (Raise e, w3) ->
       w' = w3 /\
       step = mkStep ("navigate to " +:+ "https://example.com") "success" None
                ["Navigated to " +:+ "https://example.com"; "Screenshot failed: " +:+ e]).
Proof.
  exact (navigate_step_cases (navigate_action "https://example.com") []
           (Rig.mkWorld true 0 None 0) eq_refl).
Defined.

(** X7. A screenshot action never raises and always appends its two
    script lines; its step is a success exactly when the capture
    returned an image that is not empty, and then carries the image in
    base64; when the capture raises the step is failed and the message
    is logged. *)
Theorem screenshot_step_cases {W : Type} `{Env W}
    (action : Action) (script_lines : list string) (w : W) :
  a_type action = "screenshot" ->
  exists step w',
    _execute_action action script_lines w =
      (Ok (Some step, script_lines ++ action_script action), w') /\
    s_action step = "screenshot" /\
    (s_status step = "success" \/ s_status step = "failed") /\
    (s_status step = "success" <->
     exists image,
       page_screenshot true w = (Ok image, w') /\ image <> "" /\
       s_screenshot step = Some (Py.b64encode image)) /\
    (forall e w1,
       page_screenshot true w = (Raise e, w1) ->
       w' = w1 /\
       step = mkStep "screenshot" "failed" None ["Screenshot failed: " +:+ e]).
Proof.
  intros Hkind. unfold _execute_action, action_script. rewrite Hkind.
  change (String.eqb "screenshot" "navigate") with false.
  change (String.eqb "screenshot" "screenshot") with true. cbv iota.
  unfold capture, catch, bind, ret.
  destruct (page_screenshot true w) as [[image|e] w1] eqn:Hshot.
  - eexists _, _. split; [reflexivity|]. simpl. split; [reflexivity|].
    rewrite b64encode_truthy.
    destruct image as [|c image]; simpl.
    + split; [right; reflexivity|]. split; [|discriminate].
      split; [discriminate|]. intros (image' & [= <-] & Hnonempty & _).
      contradiction.
    + split; [left; reflexivity|]. split; [|discriminate].
      split; [|reflexivity]. intros _. exists (String c image).
      split; [reflexivity|]. split; [discriminate|reflexivity].
  - eexists _, _. split; [reflexivity|]. simpl. split; [reflexivity|].
    split; [right; reflexivity|]. split.
    + split; [discriminate|]. intros (image & [=] & _).
    + intros e' w1' [= <- <-]. auto.
Qed.

Lemma screenshot_step_cases_captured :
  exists step w',
    _execute_action screenshot_action [] (Rig.mkWorld true 1 None 0) =
      (Ok (Some step, [] ++ action_script screenshot_action), w') /\
    s_action step = "screenshot" /\
    (s_status step = "success" \/ s_status step = "failed") /\
    (s_status step = "success" <->
     exists image,
       page_screenshot true (Rig.mkWorld true 1 None 0) = (Ok image, w') /\
       image <> "" /\
       s_screenshot step = Some (Py.b64encode image)) /\
    (forall e w1,
       page_screenshot true (Rig.mkWorld true 1 None 0) = (Raise e, w1) ->
       w' = w1 /\
       step = mkStep "screenshot" "failed" None ["Screenshot failed: " +:+ e]).
Proof.
  exact (screenshot_step_cases screenshot_action [] (Rig.mkWorld true 1 None 0) eq_refl).
Defined.

Lemma execute_action_script {W : Type} `{Env W}
    (action : Action) (script_lines : list string) (w : W)
    (r : option StepResult) (lines : list string) (w' : W) :
  _execute_action action script_lines w = (Ok (r, lines), w') ->
  lines = script_lines ++ action_script action.
Proof.
  unfold _execute_action, action_script.
  destruct (String.eqb (a_type action) "navigate").
  - destruct (a_url action) as [url|].
    + unfold capture, catch, bind, ret. intros Hrun.
      world_cases_in Hrun; injection Hrun as <- <- <-; reflexivity.
    + intros [= <- <- <-]. rewrite app_nil_r. reflexivity.
  - destruct (String.eqb (a_type action) "screenshot").
    + unfold capture, catch, bind, ret. intros Hrun.
      world_cases_in Hrun; injection Hrun as <- <- <-; reflexivity.
    + intros [= <- <- <-]. rewrite app_nil_r. reflexivity.
Qed.

Lemma run_actions_script {W : Type} `{Env W}
    (actions : list Action) (steps : list StepResult)
    (script_lines : list string) (w : W)
    (steps' : list StepResult) (lines : list string) (w' : W) :
  run_actions actions steps script_lines w = (Ok (steps', lines), w') ->
  exists n,
    length steps' = length steps + n /\ n <= length actions /\
    lines = script_lines ++ flat_map action_script (take n actions).
Proof.
  revert steps script_lines w.
  induction actions as [|action rest IH]; intros steps script_lines w; simpl.
  - intros [= <- <- <-]. exists 0. rewrite app_nil_r. split; [lia|]. auto.
  - unfold bind.
    destruct (_execute_action action script_lines w) as [[[r lines1]|e] w1] eqn:Hstep;
      [|discriminate].
    apply execute_action_script in Hstep as ->.
    destruct r as [step|]; [|discriminate].
    destruct (negb (String.eqb (s_status step) "success")).
    + intros [= <- <- <-]. exists 1. rewrite length_app. simpl.
      rewrite app_nil_r. split; [lia|]. split; [lia|reflexivity].
    + intros Hrest. destruct (IH _ _ _ Hrest) as (n & Hlength & Hbound & ->).
      exists (S n). rewrite length_app in Hlength. simpl in *.
      rewrite <- app_assoc. split; [lia|]. split; [lia|reflexivity].
Qed.

Lemma ui_test_script {W : Type} `{Env W}
    (test_request : Request) (w : W) (result : TestResult) (w' : W) :
  _execute_ui_test test_request w = (Ok result, w') ->
  exists (steps : list StepResult) (final : StepResult),
    r_results result =
      Some (mkResults (all_success (steps ++ [final])) (steps ++ [final])) /\
    s_action final = "final_screenshot" /\
    length steps <= length (_parse_actions_from_prompt (prompt test_request)) /\
    r_generated_script result =
      Some (Py.join Py.nl
              (ui_script_header ++
               flat_map action_script
                 (take (length steps) (_parse_actions_from_prompt (prompt test_request))) ++
               (if String.eqb (s_status final) "success" then final_script else []) ++
               ["});"])).
Proof.
  unfold _execute_ui_test, with_playwright, finally, bind, ret. intros Hrun.
  world_cases_in Hrun; try discriminate.
  match goal with
  | Hbody : ui_body _ _ ?lines ?wa = _ |- _ =>
      destruct (ui_body_runs test_request lines wa)
        as (lines_loop & w_loop & Hloop & Hfinal);
      rewrite Hfinal in Hbody;
      apply run_actions_script in Hloop as (n & Hn & Hbound & ->);
      rename Hbody into Hend
  end.
  simpl in Hn. injection Hrun as <- <-.
  destruct (page_screenshot true w_loop) as [[image|e] w_shot];
    injection Hend as <- <-;
    eexists _, _; simpl; rewrite Hn, <- ?app_assoc; simpl;
    (split; [reflexivity|]); (split; [reflexivity|]); (split; [exact Hbound|]);
    reflexivity.
Qed.

End EnhancedActions.

(** X8. The generated script of a ui run that returns mirrors what was
    executed: the three header lines, then the lines of every action up
    to and including the one whose step was recorded last (a failed
    action keeps its lines), then the two lines of the final screenshot
    if and only if that capture succeeded, then the closing line. *)
Theorem ui_script_mirrors_executed_actions {W : Type} `{Env W}
    (test_request : Request) (w : W) (result : TestResult) (w' : W) :
  EnhancedTestExecutor._execute_ui_test test_request w = (Ok result, w') ->
  let actions :=
    EnhancedTestExecutor._parse_actions_from_prompt (prompt test_request) in
  exists (steps : list StepResult) (final : StepResult),
    r_results result =
      Some (mkResults (all_success (steps ++ [final])) (steps ++ [final])) /\
    s_action final = "final_screenshot" /\
    length steps <= length actions /\
    r_generated_script result =
      Some (Py.join Py.nl
              (EnhancedTestExecutor.ui_script_header ++
               flat_map action_script (take (length steps) actions) ++
               (if String.eqb (s_status final) "success" then final_script else []) ++
               ["});"])).
Proof.
  intros Hrun actions. apply (ui_test_script test_request w result w' Hrun).
Qed.

Lemma ui_script_mirrors_executed_actions_run :
  exists (result : TestResult) (w' : Rig.World),
    EnhancedTestExecutor._execute_ui_test
      (Rig.request "job-1" "take a screenshot of https://example.com" "ui")
      (Rig.mkWorld true 1 None 0) = (Ok result, w') /\
    exists (steps : list StepResult) (final : StepResult),
      r_results result =
        Some (mkResults (all_success (steps ++ [final])) (steps ++ [final])) /\
      s_action final = "final_screenshot" /\
      length steps <= 2 /\
      r_generated_script result =
        Some (Py.join Py.nl
                (EnhancedTestExecutor.ui_script_header ++
                 flat_map action_script
                   (take (length steps)
                      (EnhancedTestExecutor._parse_actions_from_prompt
                         "take a screenshot of https://example.com")) ++
                 (if String.eqb (s_status final) "success" then final_script else []) ++
                 ["});"])).
Proof.
  eexists _, _. split; [vm_compute; reflexivity|].
  eapply (ui_script_mirrors_executed_actions
            (Rig.request "job-1" "take a screenshot of https://example.com" "ui")
            (Rig.mkWorld true 1 None 0)).
  vm_compute. reflexivity.
Defined.

(** ** Test types, API details and the failure script *)

Section Runner.
Import EnhancedTestExecutor.

(** X9. Every test type other than api runs as a ui test: a request of
    type mixed, or of an unknown type, gives the same result and leaves
    the same world as the same request with type ui, failures
    included. *)
Theorem other_types_run_as_ui {W : Type} `{Env W} (test_request : Request) (w : W) :
  test_type test_request <> "api" ->
  _execute_test_async test_request w =
    _execute_test_async (with_test_type "ui" test_request) w.
Proof.
  intros Hkind. apply String.eqb_neq in Hkind.
  assert (Hdispatch : dispatch test_request =
                      dispatch (with_test_type "ui" test_request)).
  { unfold dispatch, _execute_mixed_test. simpl. rewrite Hkind.
    assert (Hui : _execute_ui_test test_request =
                  _execute_ui_test (with_test_type "ui" test_request)) by reflexivity.
    destruct (String.eqb (test_type test_request) "ui");
      [|destruct (String.eqb (test_type test_request) "mixed")]; exact Hui. }
  rewrite !execute_test_async_cases. rewrite <- Hdispatch.
  destruct (time_time w) as [start_time w0].
  destruct (dispatch test_request w0) as [[result|e] w1]; [reflexivity|].
  unfold _generate_error_script. simpl. rewrite Hkind. reflexivity.
Qed.

Lemma other_types_run_as_ui_mixed :
  _execute_test_async
    (Rig.request "job-3" "full test of https://example.com" "mixed")
    (Rig.mkWorld true 2 None 0) =
  _execute_test_async
    (with_test_type "ui" (Rig.request "job-3" "full test of https://example.com" "mixed"))
    (Rig.mkWorld true 2 None 0).
Proof.
  apply (other_types_run_as_ui
           (Rig.request "job-3" "full test of https://example.com" "mixed")).
  discriminate.
Defined.

Lemma endpoint_char_no_space (c : ascii) : endpoint_char c = true -> no_space c.
Proof.
  unfold no_space.
  destruct c as [[] [] [] [] [] [] [] []]; vm_compute; congruence.
Qed.

Lemma endpoint_lang_chars (t : string) :
  lang endpoint_pattern t -> every no_space t.
Proof.
  intros (t1 & t2 & -> & -> & [Hrun _]).
  apply (every_append no_space "/" t2). split; [vm_compute; tauto|].
  apply (every_impl _ _ _ endpoint_char_no_space Hrun).
Qed.

(** X10. The API details read off a prompt always name one of the
    methods GET, POST, PUT, DELETE (GET exactly when none of "post",
    "put", "delete" occurs in the lower-cased prompt, POST whenever
    "post" occurs), a URL that starts with http:// or https:// and has
    no whitespace, the JSON content type as only header, and no body. *)
Theorem api_details_well_formed (prompt : string) :
  In (api_method (_parse_api_from_prompt prompt)) ["GET"; "POST"; "PUT"; "DELETE"] /\
  (api_method (_parse_api_from_prompt prompt) = "GET" <->
   Py.contains "post" (Py.lower prompt) = false /\
   Py.contains "put" (Py.lower prompt) = false /\
   Py.contains "delete" (Py.lower prompt) = false) /\
  (Py.contains "post" (Py.lower prompt) = true ->
   api_method (_parse_api_from_prompt prompt) = "POST") /\
  has_scheme (api_url (_parse_api_from_prompt prompt)) /\
  every no_space (api_url (_parse_api_from_prompt prompt)) /\
  api_headers (_parse_api_from_prompt prompt) = [("Content-Type", "application/json")] /\
  api_data (_parse_api_from_prompt prompt) = None.
Proof.
  unfold _parse_api_from_prompt. simpl.
  split; [|split; [|split; [|split; [|split; [|split]]]]]; try reflexivity.
  - destruct (Py.contains "post" _); [simpl; tauto|].
    destruct (Py.contains "put" _); [simpl; tauto|].
    destruct (Py.contains "delete" _); simpl; tauto.
  - destruct (Py.contains "post" _); [intuition discriminate|].
    destruct (Py.contains "put" _); [intuition discriminate|].
    destruct (Py.contains "delete" _); intuition discriminate.
  - intros ->. reflexivity.
  - destruct (Re.findall MCPServer.url_pattern prompt) as [|u urls] eqn:Hurls.
    + destruct (Re.findall endpoint_pattern prompt) as [|e endpoints];
        [right; reflexivity|].
      right. apply (prefix_append "https://" ("api.example.com" +:+ e)).
    + apply findall_url in Hurls as (before & after & _ & Hlang).
      apply url_lang_scheme, Hlang.
  - destruct (Re.findall MCPServer.url_pattern prompt) as [|u urls] eqn:Hurls.
    + destruct (Re.findall endpoint_pattern prompt) as [|e endpoints] eqn:Hends;
        [vm_compute; tauto|].
      apply findall_head in Hends as (before & s0 & rest & _ & Hmatch).
      apply match_at_sound in Hmatch as [_ Hlang]; [|reflexivity].
      apply (every_append no_space "https://api.example.com" e).
      split; [vm_compute; tauto|apply endpoint_lang_chars, Hlang].
    + apply findall_url in Hurls as (before & after & _ & Hlang).
      apply url_lang_scheme, Hlang.
Qed.

(** X11. The script generated for a failed test embeds the error message
    and the original prompt as they are, and carries the title of the
    API template for an api request and of the UI template for any other
    type. *)
Theorem error_script_embeds_error_and_prompt (test_request : Request) (error : string) :
  Py.contains error (_generate_error_script test_request error) = true /\
  Py.contains (prompt test_request) (_generate_error_script test_request error) = true /\
  Py.contains
    (if String.eqb (test_type test_request) "api"
     then "test('Failed API Test', async ({ request }) => {"
     else "test('Failed UI Test', async ({ page }) => {")
    (_generate_error_script test_request error) = true.
Proof.
  unfold _generate_error_script.
  assert (Hline : forall x head parts,
            In (head +:+ x) parts -> Py.contains x (Py.join Py.nl parts) = true).
  { intros x head parts Hin.
    destruct (in_split _ _ Hin) as (l1 & l2 & ->).
    clear Hin. induction l1 as [|p l1 IH]; simpl.
    - destruct l2; [apply contains_append_r, contains_refl|].
      apply contains_append_l, contains_append_r, contains_refl.
    - destruct (l1 ++ (head +:+ x) :: l2) eqn:Hrest;
        [destruct l1; discriminate|].
      apply contains_append_r, contains_append_r, IH. }
  destruct (String.eqb (test_type test_request) "api"); repeat split;
    first [ apply (Hline error "  // This test failed with error: "); simpl; auto 10
          | apply (Hline (prompt test_request) "  // Original prompt: "); simpl; auto 10
          | apply contains_join; simpl; auto 10 ].
Qed.

End Runner.

(** ** The shape of every result *)

Section ResultShape.
Import EnhancedTestExecutor.

Lemma ui_result_shape {W : Type} `{Env W}
    (test_request : Request) (w : W) (result : TestResult) (w' : W) :
  _execute_ui_test test_request w = (Ok result, w') ->
  exists steps script,
    steps <> [] /\
    result = mkTestResult None (if all_success steps then "completed" else "failed")
               None None (Some (mkResults (all_success steps) steps)) (Some script).
Proof.
  unfold _execute_ui_test, with_playwright, finally, bind, ret. intros Hrun.
  world_cases_in Hrun; try discriminate.
  match goal with
  | Hbody : ui_body _ _ ?lines ?wa = _ |- _ =>
      destruct (ui_body_shape test_request lines wa)
        as (final & lines' & wb & Hshape & _); rewrite Hshape in Hbody;
      injection Hbody as <- <-
  end.
  injection Hrun as <- <-. eexists _, _. split; [|reflexivity].
  simpl. intros Hnil. apply app_eq_nil in Hnil as [_ Hnil]. discriminate.
Qed.

Lemma api_result_shape {W : Type} `{Env W}
    (test_request : Request) (w : W) (result : TestResult) (w' : W) :
  _execute_api_test test_request w = (Ok result, w') ->
  exists steps script,
    steps <> [] /\
    result = mkTestResult None (if all_success steps then "completed" else "failed")
               None None (Some (mkResults (all_success steps) steps)) (Some script).
Proof.
  unfold _execute_api_test, api_attempt, bind, catch, ret.
  generalize (_parse_api_from_prompt (prompt test_request)). intros api_details.
  destruct (requests_request (api_method api_details) (api_url api_details) w)
    as [[response|e] w1].
  - destruct (resp_json response) as [dump|]; intros Hrun;
      injection Hrun as <- <-.
    + exists [add_log (api_step api_details response)
                ("JSON Response: " +:+ Py.take 500 dump +:+ "...")].
      eexists. split; [discriminate|reflexivity].
    + exists [add_log (api_step api_details response)
                ("Text Response: " +:+ Py.take 500 (resp_text response) +:+ "...")].
      eexists. split; [discriminate|reflexivity].
  - intros Hrun. injection Hrun as <- <-.
    exists [mkStep "api_request" "failed" None ["Error: " +:+ e]].
    eexists. split; [discriminate|reflexivity].
Qed.

Lemma dispatch_result_shape {W : Type} `{Env W}
    (test_request : Request) (w : W) (result : TestResult) (w' : W) :
  dispatch test_request w = (Ok result, w') ->
  exists steps script,
    steps <> [] /\
    result = mkTestResult None (if all_success steps then "completed" else "failed")
               None None (Some (mkResults (all_success steps) steps)) (Some script).
Proof.
  unfold dispatch, _execute_mixed_test.
  destruct (String.eqb (test_type test_request) "api"); [apply api_result_shape|].
  destruct (String.eqb (test_type test_request) "ui"); [apply ui_result_shape|].
  destruct (String.eqb (test_type test_request) "mixed"); apply ui_result_shape.
Qed.

(** X12. The runner returns, in every world, a result that carries the
    id of the request, an execution time, a success flag with the steps,
    and a script.  Either no error is recorded, there is at least one
    step, the flag says whether every step succeeded and the status is
    completed or failed accordingly; or an error is recorded, and then
    the status is failed, the flag false and the steps empty.  So a
    completed result always has at least one step, all successful. *)
Theorem result_is_well_formed {W : Type} `{Env W} (test_request : Request) (w : W) :
  exists result w' execution_time success steps script,
    _execute_test_async test_request w = (Ok result, w') /\
    r_test_id result = Some (test_id test_request) /\
    r_execution_time result = Some execution_time /\
    r_results result = Some (mkResults success steps) /\
    r_generated_script result = Some script /\
    ((r_error result = None /\ steps <> [] /\ success = all_success steps /\
      r_status result = if success then "completed" else "failed") \/
     ((exists e, r_error result = Some e) /\ steps = [] /\ success = false /\
      r_status result = "failed")) /\
    (r_status result = "completed" <->
     r_error result = None /\ steps <> [] /\ all_success steps = true).
Proof.
  rewrite execute_test_async_cases.
  destruct (time_time w) as [start_time w0].
  destruct (dispatch test_request w0) as [[result|e] w1] eqn:Hdispatch;
    destruct (time_time w1) as [now w2].
  - apply dispatch_result_shape in Hdispatch as (steps & script & Hsteps & ->).
    eexists _, _, _, _, _, _. split; [reflexivity|]. simpl.
    repeat (split; [reflexivity|]). split.
    + left. auto.
    + destruct (all_success steps); intuition discriminate.
  - eexists _, _, _, _, _, _. split; [reflexivity|]. simpl.
    repeat (split; [reflexivity|]). split.
    + right. eauto.
    + intuition discriminate.
Qed.

End ResultShape.

(** ** Writing to the store and reading it back *)

Section Store.
Import EnhancedTestExecutor.

(** X13. When the thread of a job has returned, [get_test_results] gives
    back exactly the result the runner returned and [get_test_status]
    its status, reading changes nothing, and the entries of every other
    id are as before. *)
Theorem store_round_trip {W : Type} `{Env W}
    (test_request : Request) (w : W) (self : Executor) :
  exists result w',
    _execute_test_async test_request w = (Ok result, w') /\
    let self' := fst (_run_async_test test_request w self) in
    snd (_run_async_test test_request w self) = w' /\
    get_test_results (test_id test_request) self' = (Ok result, self') /\
    get_test_status (test_id test_request) self' =
      (Ok (mkStatusReply (test_id test_request) (r_status result)), self') /\
    running_tests self' = running_tests self /\
    forall other,
      other <> test_id test_request ->
      fst (get_test_results other self') = fst (get_test_results other self) /\
      fst (get_test_status other self') = fst (get_test_status other self).
Proof.
  destruct (execute_test_async_returns test_request w) as (result & w' & Hrun).
  exists result, w'. split; [exact Hrun|].
  unfold _run_async_test. rewrite Hrun. simpl.
  unfold get_test_results, get_test_status. simpl.
  rewrite !lookup_insert_eq. simpl. repeat split.
  - rewrite lookup_insert_ne by congruence. reflexivity.
  - rewrite lookup_insert_ne by congruence. reflexivity.
Qed.

(** X14. Submitting a job sets its status to running whatever it was,
    registers its thread, and never touches the results or the status of
    another id: a first lookup of the results still gives the not_found
    answer, and a job submitted again under the id of a finished one
    reads running while its old result is still served. *)
Theorem submit_sets_running_only (test_request : Request) (self : Executor) :
  let id := test_id test_request in
  let self' := execute_test_async test_request self in
  get_test_status id self' = (Ok (mkStatusReply id "running"), self') /\
  test_results self' = test_results self /\
  fst (get_test_results id self') = fst (get_test_results id self) /\
  (test_results self !! id = None ->
   fst (get_test_results id self') = Ok (not_found_result id)) /\
  running_tests self' !! id = Some (mkThread test_request AtRun) /\
  forall other,
    other <> id ->
    test_status self' !! other = test_status self !! other /\
    running_tests self' !! other = running_tests self !! other.
Proof.
  intros id self'. subst id self'.
  unfold execute_test_async, get_test_status, get_test_results. simpl.
  rewrite !lookup_insert_eq. simpl.
  split; [reflexivity|]. split; [reflexivity|]. split; [reflexivity|].
  split; [intros ->; reflexivity|]. split; [reflexivity|].
  intros other Hother. rewrite !lookup_insert_ne by congruence. auto.
Qed.

(** X15. A prompt whose lower-cased text contains one of the ten trigger
    keywords is a test request with the constant options (chromium,
    headless, 30000 ms); the chat route then answers with the job id and
    the status pending, and submits a request made of that id, the
    prompt as typed, the test type and the target URL of the
    interpretation.  The actions of the interpretation are not passed
    on. *)
Theorem keyword_submits_job (prompt keyword : string) :
  In keyword [ "test"; "check"; "verify"; "validate"; "ensure";
               "screenshot"; "click"; "navigate"; "api"; "endpoint" ] ->
  Py.contains keyword (Py.lower prompt) = true ->
  MCPServer.process_message prompt =
    MCPServer.TestRequest (MCPServer._determine_test_type (Py.lower prompt))
      (MCPServer._extract_url prompt) (MCPServer._parse_actions (Py.lower prompt))
      MCPServer.default_options /\
  forall message_id test_id timestamp self,
    Chat.handle_chat_message message_id test_id timestamp prompt self =
      (Chat.mkReply message_id "assistant"
         "I'll help you test that. Starting test execution..." timestamp
         (Some (Chat.mkMetadata test_id "pending")),
       execute_test_async
         (mkRequest test_id prompt (MCPServer._determine_test_type (Py.lower prompt))
            (MCPServer._extract_url prompt) MCPServer.default_options)
         self).
Proof.
  intros Hkeyword Hoccurs.
  assert (Hrequest : MCPServer._is_test_request (Py.lower prompt) = true).
  { unfold MCPServer._is_test_request, Py.any_in. apply existsb_exists.
    exists keyword. auto. }
  assert (Hmessage : MCPServer.process_message prompt =
            MCPServer.TestRequest (MCPServer._determine_test_type (Py.lower prompt))
              (MCPServer._extract_url prompt)
              (MCPServer._parse_actions (Py.lower prompt))
              MCPServer.default_options).
  { unfold MCPServer.process_message. rewrite Hrequest. reflexivity. }
  split; [exact Hmessage|].
  intros message_id test_id timestamp self.
  unfold Chat.handle_chat_message. rewrite Hmessage. reflexivity.
Qed.

Lemma keyword_submits_job_api :
  MCPServer.process_message "Is the API up?" =
    MCPServer.TestRequest (MCPServer._determine_test_type (Py.lower "Is the API up?"))
      (MCPServer._extract_url "Is the API up?")
      (MCPServer._parse_actions (Py.lower "Is the API up?"))
      MCPServer.default_options /\
  forall message_id test_id timestamp self,
    Chat.handle_chat_message message_id test_id timestamp "Is the API up?" self =
      (Chat.mkReply message_id "assistant"
         "I'll help you test that. Starting test execution..." timestamp
         (Some (Chat.mkMetadata test_id "pending")),
       execute_test_async
         (mkRequest test_id "Is the API up?"
            (MCPServer._determine_test_type (Py.lower "Is the API up?"))
            (MCPServer._extract_url "Is the API up?") MCPServer.default_options)
         self).
Proof.
  apply (keyword_submits_job "Is the API up?" "api").
  - simpl. tauto.
  - vm_compute. reflexivity.
Defined.

End Store.

(** ** The first executor *)

Section FirstExecutor.
Import TestExecutor.

Lemma first_accepted_spec {W : Type} `{Env W} (op : string -> M W unit)
    (selectors : list string) (w : W) :
  exists found w',
    first_accepted op selectors w = (Ok found, w') /\
    match found with
    | Some selector =>
        In selector selectors /\ exists w0, op selector w0 = (Ok tt, w')
    | None =>
        forall selector, In selector selectors ->
                         exists w0 e w1, op selector w0 = (Raise e, w1)
    end.
Proof.
  revert w. induction selectors as [|selector rest IH]; intros w; simpl.
  - exists None, w. split; [reflexivity|]. intros selector [].
  - unfold catch, bind, ret. destruct (op selector w) as [[[]|e] w1] eqn:Hop.
    + exists (Some selector), w1. split; [reflexivity|]. eauto.
    + destruct (IH w1) as (found & w' & Hrest & Hfound).
      exists found, w'. split; [exact Hrest|].
      destruct found as [accepted|].
      * destruct Hfound as [Hin Haccepted]. auto.
      * intros candidate [<-|Hin]; eauto.
Qed.

Lemma first_accepted_all_refused {W : Type} `{Env W} (op : string -> M W unit)
    (selectors : list string) (w : W) :
  (forall selector w0, In selector selectors ->
                       exists e w1, op selector w0 = (Raise e, w1)) ->
  exists w', first_accepted op selectors w = (Ok None, w').
Proof.
  intros Hrefused.
  destruct (first_accepted_spec op selectors w) as (found & w' & Hrun & Hfound).
  destruct found as [selector|]; [|eauto].
  destruct Hfound as [Hin [w0 Haccepted]].
  destruct (Hrefused selector w0 Hin) as (e & w1 & Hraise). congruence.
Qed.

(** X16. A click action whose candidate selectors are all refused by the
    page gives the step "click <target>" with status failed and the log
    that the target could not be found; it does not raise. *)
Theorem click_fails_when_all_refused {W : Type} `{Env W} (action : Action) (w : W) :
  a_type action = "click" ->
  let target := default "button" (a_target action) in
  (forall selector w0, In selector (_get_selectors_for_target target) ->
                       exists e w1, page_click selector 5000 w0 = (Raise e, w1)) ->
  exists w',
    _execute_action action w =
      (Ok (mkStep ("click " +:+ target) "failed" None
             ["Could not find " +:+ target +:+ " to click"]), w').
Proof.
  intros Hkind target Hrefused.
  destruct (first_accepted_all_refused
              (fun selector => page_click selector 5000)
              (_get_selectors_for_target target) w Hrefused) as (w' & Hnone).
  exists w'. unfold _execute_action. rewrite Hkind.
  change (String.eqb "click" "navigate") with false.
  change (String.eqb "click" "click") with true. cbv iota.
  unfold catch, bind. fold target. rewrite Hnone. reflexivity.
Qed.

Lemma click_fails_when_all_refused_login :
  exists w',
    _execute_action (click_action "login") (Rig.mkWorld true 1 None 0) =
      (Ok (mkStep ("click " +:+ "login") "failed" None
             ["Could not find " +:+ "login" +:+ " to click"]), w').
Proof.
  apply (click_fails_when_all_refused (click_action "login")
           (Rig.mkWorld true 1 None 0) eq_refl).
  intros selector w0 _. eexists _, _. reflexivity.
Defined.



Lemma unknown_action_step {W : Type} `{Env W} (action : Action) (w : W) :
  ~ In (a_type action) ["navigate"; "click"; "type"; "verify"; "screenshot"] ->
  _execute_action action w =
    (Ok (mkStep ("unknown action: " +:+ a_type action) "failed" None
           ["Unknown action type: " +:+ a_type action]), w).
Proof.
  intros Hkind. unfold _execute_action.
  repeat match goal with
         | |- context [String.eqb (a_type action) ?kind] =>
             destruct (String.eqb_spec (a_type action) kind) as [Heq|_];
             [exfalso; apply Hkind; rewrite Heq; simpl; tauto|]
         end.
  reflexivity.
Qed.

Lemma first_step_status {W : Type} `{Env W} (action : Action) (w : W) :
  exists step w',
    _execute_action action w = (Ok step, w') /\
    (s_status step = "success" \/ s_status step = "failed").
Proof.
  unfold _execute_action, catch.
  match goal with
  | |- context [let (_, _) := ?body w in _] =>
      assert (Hbody : forall step w', body w = (Ok step, w') ->
                s_status step = "success" \/ s_status step = "failed");
      [|destruct (body w) as [[step|e] w'] eqn:Hrun;
        [exists step, w'; split; [reflexivity|apply (Hbody step w' eq_refl)]
        |eexists _, _; split; [reflexivity|right; reflexivity]]]
  end.
  intros step w'.
  repeat match goal with
         | |- context [String.eqb (a_type action) ?kind] =>
             destruct (String.eqb (a_type action) kind)
         end.
  - destruct (a_url action); [|discriminate].
    unfold bind, ret. intros Hrun. world_cases_in Hrun; try discriminate.
    injection Hrun as <- <-. auto.
  - unfold bind, ret.
    destruct (first_accepted_returns (fun selector => page_click selector 5000)
                (_get_selectors_for_target (default "button" (a_target action))) w)
      as (found & w1 & ->).
    destruct found; intros Hrun; world_cases_in Hrun; try discriminate;
      injection Hrun as <- <-; auto.
  - unfold bind, ret.
    destruct (first_accepted_returns
                (fun selector => page_fill selector (default "test input" (a_text action)))
                input_selectors w) as (found & w1 & ->).
    destruct found; intros [= <- <-]; auto.
  - unfold bind, ret.
    destruct (String.eqb (default "page_loaded" (a_condition action)) "page_loaded").
    + intros Hrun. world_cases_in Hrun; try discriminate. injection Hrun as <- <-. auto.
    + destruct (String.eqb (default "page_loaded" (a_condition action)) "element_present").
      * destruct (first_accepted_returns
                    (fun selector => page_wait_for_selector selector 2000)
                    success_selectors w) as (found & w1 & ->).
        destruct found; intros [= <- <-]; auto.
      * intros [= <- <-]. auto.
  - unfold bind, ret. intros Hrun. world_cases_in Hrun; try discriminate.
    injection Hrun as <- <-. auto.
  - intros [= <- <-]. auto.
Qed.

(** X18. The action executor of the first executor never raises: every
    action, of any kind and in any world, gives a step whose status is
    success or failed, because every exception of the page is turned
    into a failed step.  An action of a kind it does not know gives a
    failed step that names the kind, without touching the page. *)
Theorem first_executor_always_gives_a_step {W : Type} `{Env W}
    (action : Action) (w : W) :
  exists step w',
    _execute_action action w = (Ok step, w') /\
    (s_status step = "success" \/ s_status step = "failed") /\
    (~ In (a_type action) ["navigate"; "click"; "type"; "verify"; "screenshot"] ->
     w' = w /\
     step = mkStep ("unknown action: " +:+ a_type action) "failed" None
              ["Unknown action type: " +:+ a_type action]).
Proof.
  destruct (first_step_status action w) as (step & w' & Hrun & Hstatus).
  exists step, w'. split; [exact Hrun|]. split; [exact Hstatus|].
  intros Hkind. rewrite (unknown_action_step action w Hkind) in Hrun.
  injection Hrun as <- <-. auto.
Qed.

End FirstExecutor.

(** ** The two executors side by side *)

Section TwoExecutors.

(** X19. On an api request the two executors make the same HTTP request
    and return the same result but for the generated script, which only
    the executor behind the routes produces; they leave the same
    world. *)
Theorem api_results_agree {W : Type} `{Env W} (test_request : Request) (w : W) :
  test_type test_request = "api" ->
  exists result w',
    EnhancedTestExecutor._execute_test_async test_request w = (Ok result, w') /\
    TestExecutor._execute_test_async test_request w = (Ok (without_script result), w').
Proof.
  intros Hkind. rewrite execute_test_async_cases.
  unfold TestExecutor._execute_test_async, catch, bind.
  destruct (time_time w) as [start_time w0].
  unfold EnhancedTestExecutor.dispatch, TestExecutor.dispatch. rewrite Hkind.
  change (String.eqb "api" "api") with true. cbv iota.
  unfold EnhancedTestExecutor._execute_api_test, EnhancedTestExecutor.api_attempt,
    TestExecutor._execute_api_test, TestExecutor.api_attempt, bind, catch, ret.
  generalize (_parse_api_from_prompt (prompt test_request)). intros api_details.
  destruct (requests_request (api_method api_details) (api_url api_details) w0)
    as [[response|e] w1].
  - destruct (resp_json response) as [dump|]; destruct (time_time w1) as [now w2];
      eexists _, _; split; reflexivity.
  - destruct (time_time w1) as [now w2]. eexists _, _. split; reflexivity.
Qed.

Lemma api_results_agree_users :
  exists result w',
    EnhancedTestExecutor._execute_test_async
      (Rig.request "job-2" "test the GET /users endpoint" "api")
      (Rig.mkWorld true 0 (Some 404%Z) 0) = (Ok result, w') /\
    TestExecutor._execute_test_async
      (Rig.request "job-2" "test the GET /users endpoint" "api")
      (Rig.mkWorld true 0 (Some 404%Z) 0) = (Ok (without_script result), w').
Proof.
  exact (api_results_agree (Rig.request "job-2" "test the GET /users endpoint" "api")
           (Rig.mkWorld true 0 (Some 404%Z) 0) eq_refl).
Defined.

Lemma first_ui_test_raises {W : Type} `{Env W} (test_request : Request)
    (w0 w1 w2 w3 w4 w5 : W) (steps : list StepResult) (e : string) :
  playwright_start w0 = (Ok tt, w1) ->
  launch test_request w1 = (Ok tt, w2) ->
  new_page w2 = (Ok tt, w3) ->
  TestExecutor.run_actions
    (TestExecutor._parse_actions_from_prompt (prompt test_request)) [] w3
    = (Ok steps, w4) ->
  page_screenshot false w4 = (Raise e, w5) ->
  exists e' w', TestExecutor._execute_ui_test test_request w0 = (Raise e', w').
Proof.
  intros Hstart Hlaunch Hpage Hloop Hshot.
  unfold TestExecutor._execute_ui_test, with_playwright, finally, bind.
  rewrite Hstart, Hlaunch, Hpage, Hloop, Hshot.
  destruct (browser_close w5) as [[[]|e1] w6];
    destruct (playwright_stop w6) as [[[]|e2] w7]; eexists _, _; reflexivity.
Qed.

(** X20. In the first executor the final screenshot is not guarded: when
    it raises in a ui run, the run ends as a failed result with an error
    and no steps at all, whatever steps the actions had recorded. *)
Theorem first_executor_loses_steps {W : Type} `{Env W} (test_request : Request)
    (w w1 w2 w3 w4 w5 : W) (steps : list StepResult) (e : string) :
  test_type test_request <> "api" ->
  playwright_start (snd (time_time w)) = (Ok tt, w1) ->
  launch test_request w1 = (Ok tt, w2) ->
  new_page w2 = (Ok tt, w3) ->
  TestExecutor.run_actions
    (TestExecutor._parse_actions_from_prompt (prompt test_request)) [] w3
    = (Ok steps, w4) ->
  page_screenshot false w4 = (Raise e, w5) ->
  exists e' execution_time w',
    TestExecutor._execute_test_async test_request w =
      (Ok (mkTestResult (Some (test_id test_request)) "failed" (Some e')
             (Some execution_time) (Some (mkResults false [])) None), w').
Proof.
  intros Hkind Hstart Hlaunch Hpage Hloop Hshot.
  apply String.eqb_neq in Hkind.
  unfold TestExecutor._execute_test_async, catch, bind.
  destruct (time_time w) as [start_time w0]. simpl in Hstart.
  destruct (first_ui_test_raises test_request w0 w1 w2 w3 w4 w5 steps e
              Hstart Hlaunch Hpage Hloop Hshot) as (e' & w' & Hraise).
  assert (Hdispatch : TestExecutor.dispatch test_request w0 = (Raise e', w')).
  { unfold TestExecutor.dispatch, TestExecutor._execute_mixed_test. rewrite Hkind.
    destruct (String.eqb (test_type test_request) "ui");
      [|destruct (String.eqb (test_type test_request) "mixed")]; exact Hraise. }
  rewrite Hdispatch. destruct (time_time w') as [now w''].
  eexists _, _, _. reflexivity.
Qed.

Lemma first_executor_loses_steps_page_gone :
  exists e' execution_time w',
    TestExecutor._execute_test_async
      (Rig.request "job-1" "visit https://example.com" "ui")
      (Rig.mkWorld true 1 None 0) =
      (Ok (mkTestResult (Some "job-1") "failed" (Some e')
             (Some execution_time) (Some (mkResults false [])) None), w').
Proof.
  eapply (first_executor_loses_steps
            (Rig.request "job-1" "visit https://example.com" "ui")
            (Rig.mkWorld true 1 None 0)).
  - discriminate.
  - reflexivity.
  - reflexivity.
  - reflexivity.
  - vm_compute. reflexivity.
  - reflexivity.
Defined.

(** X21. The first executor parses at most four actions from a prompt,
    in the order navigate, click, type, screenshot, each at most once
    and never a verify; a click is on login, submit or button, and a
    navigation goes to a URL that starts with http:// or https://. *)
Theorem first_parser_actions (prompt : string) :
  exists n c t s : nat,
    n <= 1 /\ c <= 1 /\ t <= 1 /\ s <= 1 /\
    map a_type (TestExecutor._parse_actions_from_prompt prompt) =
      replicate n "navigate" ++ replicate c "click" ++ replicate t "type" ++
      replicate s "screenshot" /\
    forall action,
      In action (TestExecutor._parse_actions_from_prompt prompt) ->
      (a_type action = "click" ->
       In (a_target action) [Some "login"; Some "submit"; Some "button"]) /\
      (a_type action = "navigate" -> exists u, a_url action = Some u /\ has_scheme u).
Proof.
  unfold TestExecutor._parse_actions_from_prompt.
  assert (Hurl : forall u urls,
            match Re.findall MCPServer.url_pattern prompt with
            | [] =>
                match Re.findall MCPServer.domain_pattern prompt with
                | [] => Re.findall MCPServer.url_pattern prompt
                | d :: _ => ["https://" +:+ d]
                end
            | _ :: _ => Re.findall MCPServer.url_pattern prompt
            end = u :: urls -> has_scheme u).
  { intros u urls.
    destruct (Re.findall MCPServer.url_pattern prompt) as [|v vs] eqn:Hurls.
    - destruct (Re.findall MCPServer.domain_pattern prompt) as [|d ds];
        [discriminate|].
      intros [= <- _]. right. apply (prefix_append "https://" d).
    - intros [= <- _]. apply findall_url in Hurls as (before & after & _ & Hlang).
      apply url_lang_scheme, Hlang. }
  destruct (match Re.findall MCPServer.url_pattern prompt with
            | [] => _ | _ :: _ => _ end) as [|u urls];
    [|specialize (Hurl u urls eq_refl)];
    destruct (Py.any_in ["click"; "press"; "tap"] (Py.lower prompt));
    try destruct (Py.contains "login" (Py.lower prompt));
    try destruct (Py.contains "submit" (Py.lower prompt));
    try destruct (Py.contains "button" (Py.lower prompt));
    destruct (Py.any_in ["type"; "enter"; "fill"] (Py.lower prompt));
    destruct (Py.contains "screenshot" (Py.lower prompt)); simpl;
    match goal with
    | |- exists n c t s, _ /\ _ /\ _ /\ _ /\ ?kinds = _ /\ _ =>
        exists (count_occ string_dec kinds "navigate"),
               (count_occ string_dec kinds "click"),
               (count_occ string_dec kinds "type"),
               (count_occ string_dec kinds "screenshot")
    end; simpl;
    (split; [lia|]); (split; [lia|]); (split; [lia|]); (split; [lia|]);
    (split; [reflexivity|]);
    intros action Hin; simpl in Hin;
    repeat (destruct Hin as [<-|Hin]; [simpl; split; intros; try discriminate;
                                       eauto 6|]);
    try contradiction.
Qed.

(** X22. The parser of the executor behind the routes yields a
    navigation (first), when a URL or a domain name is found, to a URL
    that starts with http:// or https://, and a screenshot exactly when
    the lower-cased prompt contains "screenshot": its default screenshot
    for a prompt with a URL and no action word is never added, because
    the navigation is already in the list. *)
Theorem enhanced_parser_equation (prompt : string) :
  exists navigation : list Action,
    (navigation = [] \/
     exists u, navigation = [navigate_action u] /\ has_scheme u) /\
    EnhancedTestExecutor._parse_actions_from_prompt prompt =
      navigation ++
      (if Py.contains "screenshot" (Py.lower prompt) then [screenshot_action] else []).
Proof.
  unfold EnhancedTestExecutor._parse_actions_from_prompt.
  destruct (Re.findall MCPServer.url_pattern prompt) as [|v vs] eqn:Hurls.
  - destruct (Re.findall EnhancedTestExecutor.domain_pattern prompt) as [|d ds].
    + exists []. split; [left; reflexivity|].
      destruct (Py.contains "screenshot" (Py.lower prompt)); reflexivity.
    + exists [navigate_action ("https://" +:+ d)]. split.
      * right. eexists. split; [reflexivity|]. right.
        apply (prefix_append "https://" d).
      * destruct (Py.contains "screenshot" (Py.lower prompt)); reflexivity.
  - exists [navigate_action v]. split.
    + right. eexists. split; [reflexivity|].
      apply findall_url in Hurls as (before & after & _ & Hlang).
      apply url_lang_scheme, Hlang.
    + destruct (Py.contains "screenshot" (Py.lower prompt)); reflexivity.
Qed.

End TwoExecutors.

(** ** The synchronous route *)


(** ** Verify conditions that probe nothing *)

Lemma verify_other_condition {W : Type} `{Env W}
    (action : Action) (condition : string) (w : W) :
  a_type action = "verify" ->
  a_condition action = Some condition ->
  condition <> "page_loaded" ->
  condition <> "element_present" ->
  TestExecutor._execute_action action w =
    (Ok (mkStep ("verify " +:+ condition) "success" None []), w).
Proof.
  intros Hkind Hcondition Hloaded Hpresent.
  apply String.eqb_neq in Hloaded, Hpresent.
  unfold TestExecutor._execute_action. rewrite Hkind, Hcondition.
  change (String.eqb "verify" "navigate") with false.
  change (String.eqb "verify" "click") with false.
  change (String.eqb "verify" "type") with false.
  change (String.eqb "verify" "verify") with true. cbv iota.
  simpl default. rewrite Hloaded, Hpresent. reflexivity.
Qed.

(** X24. When a message mentions success, error or redirect, the
    condition the interpreter extracts is success_message, error_message
    or page_redirect (in that order of precedence), and the first
    executor verifies such a condition by looking at nothing: the page
    is left untouched and the step is a success with no log.  Only
    page_loaded and element_present read the page. *)
Theorem interpreted_verify_checks_nothing {W : Type} `{Env W}
    (message : string) (w : W) :
  Py.contains "success" message = true \/ Py.contains "error" message = true \/
  Py.contains "redirect" message = true ->
  let condition := MCPServer._extract_verification_condition message in
  In condition ["success_message"; "error_message"; "page_redirect"] /\
  (Py.contains "success" message = true -> condition = "success_message") /\
  TestExecutor._execute_action (verify_action condition) w =
    (Ok (mkStep ("verify " +:+ condition) "success" None []), w) /\
  forall other : string,
    other <> "page_loaded" -> other <> "element_present" ->
    TestExecutor._execute_action (verify_action other) w =
      (Ok (mkStep ("verify " +:+ other) "success" None []), w).
Proof.
  intros Hmentions condition.
  assert (Hother : forall other : string,
            other <> "page_loaded" -> other <> "element_present" ->
            TestExecutor._execute_action (verify_action other) w =
              (Ok (mkStep ("verify " +:+ other) "success" None []), w)).
  { intros other Hloaded Hpresent.
    apply (verify_other_condition (verify_action other) other w);
      [reflexivity|reflexivity|exact Hloaded|exact Hpresent]. }
  subst condition. unfold MCPServer._extract_verification_condition.
  destruct (Py.contains "success" message);
    [|destruct (Py.contains "error" message);
      [|destruct (Py.contains "redirect" message);
        [|destruct Hmentions as [?|[?|?]]; discriminate]]];
    (split; [simpl; tauto|]); (split; [intros; try reflexivity; discriminate|]);
    (split; [apply Hother; discriminate|exact Hother]).
Qed.

Lemma interpreted_verify_checks_nothing_login :
  let condition :=
    MCPServer._extract_verification_condition "verify the login error is shown" in
  In condition ["success_message"; "error_message"; "page_redirect"] /\
  (Py.contains "success" "verify the login error is shown" = true ->
   condition = "success_message") /\
  TestExecutor._execute_action (verify_action condition) (Rig.mkWorld true 1 None 0) =
    (Ok (mkStep ("verify " +:+ condition) "success" None []),
     Rig.mkWorld true 1 None 0) /\
  forall other : string,
    other <> "page_loaded" -> other <> "element_present" ->
    TestExecutor._execute_action (verify_action other) (Rig.mkWorld true 1 None 0) =
      (Ok (mkStep ("verify " +:+ other) "success" None []), Rig.mkWorld true 1 None 0).
Proof.
  apply (interpreted_verify_checks_nothing "verify the login error is shown"
           (Rig.mkWorld true 1 None 0)).
  right. left. vm_compute. reflexivity.
Defined.

(** ** Finished jobs stay as they are *)

(** X25. Once the thread of a job has made both writes, no later step of
    the store (a new message with a fresh id, a write of another thread)
    changes the status or the result of that job, and its thread stays
    finished. *)
Theorem finished_jobs_are_stable (self self' : EnhancedTestExecutor.Executor)
    (id : string) (test_request : Request) :
  Chat.reachable self ->
  Chat.step self self' ->
  EnhancedTestExecutor.running_tests self !! id =
    Some (EnhancedTestExecutor.mkThread test_request EnhancedTestExecutor.Finished) ->
  EnhancedTestExecutor.test_status self' !! id =
    EnhancedTestExecutor.test_status self !! id /\
  EnhancedTestExecutor.test_results self' !! id =
    EnhancedTestExecutor.test_results self !! id /\
  EnhancedTestExecutor.running_tests self' !! id =
    Some (EnhancedTestExecutor.mkThread test_request EnhancedTestExecutor.Finished).
Proof.
  intros Hreach Hstep Hfinished.
  pose proof (reachable_consistent self Hreach) as Hall.
  destruct Hstep as
    [message_id job timestamp user_message self Hfresh
    |job other ran self Hthread Hran
    |job other result self Hthread].
  - unfold Chat.handle_chat_message.
    destruct (MCPServer.process_message user_message); simpl; [auto|].
    assert (Hother : job <> id).
    { intros ->. pose proof (Hall id) as Hid. unfold consistent in Hid.
      rewrite Hfinished in Hid. simpl in Hid.
      destruct Hid as (_ & stored & _ & Hstatus & _). congruence. }
    rewrite !lookup_insert_ne by exact Hother. auto.
  - pose proof (Hall job) as Hjob. unfold consistent in Hjob.
    rewrite Hthread in Hjob. simpl in Hjob. destruct Hjob as (Hsame & _).
    assert (Hother : job <> id) by (intros ->; congruence).
    unfold Chat.advance, EnhancedTestExecutor.write_result. simpl.
    rewrite Hsame, !lookup_insert_ne by exact Hother. auto.
  - pose proof (Hall job) as Hjob. unfold consistent in Hjob.
    rewrite Hthread in Hjob. simpl in Hjob. destruct Hjob as (Hsame & _).
    assert (Hother : job <> id) by (intros ->; congruence).
    unfold Chat.advance, EnhancedTestExecutor.write_status. simpl.
    rewrite Hsame, !lookup_insert_ne by exact Hother. auto.
Qed.

Lemma finished_jobs_are_stable_second_job :
  let prompt := "take a screenshot of https://example.com" in
  let test_request :=
    mkRequest "job-1" prompt "ui" (Some "https://example.com")
      MCPServer.default_options in
  let result :=
    EnhancedTestExecutor.stored_result test_request
      (fst (EnhancedTestExecutor._execute_test_async test_request
              (Rig.mkWorld true 3 None 0))) in
  let submitted :=
    snd (Chat.handle_chat_message "m1" "job-1" "now" prompt
           EnhancedTestExecutor.new_executor) in
  let written :=
    Chat.advance test_request (EnhancedTestExecutor.AtStatusWrite result)
      (EnhancedTestExecutor.write_result test_request result submitted) in
  let finished :=
    Chat.advance test_request EnhancedTestExecutor.Finished
      (EnhancedTestExecutor.write_status test_request result written) in
  let later :=
    snd (Chat.handle_chat_message "m2" "job-2" "now" "check the API" finished) in
  EnhancedTestExecutor.test_status later !! "job-1" =
    EnhancedTestExecutor.test_status finished !! "job-1" /\
  EnhancedTestExecutor.test_results later !! "job-1" =
    EnhancedTestExecutor.test_results finished !! "job-1" /\
  EnhancedTestExecutor.running_tests later !! "job-1" =
    Some (EnhancedTestExecutor.mkThread test_request EnhancedTestExecutor.Finished).
Proof.
  intros prompt test_request result submitted written finished later.
  apply (finished_jobs_are_stable finished later "job-1" test_request).
  - apply Chat.reach_step with written.
    + apply Chat.reach_step with submitted.
      * apply Chat.reach_step with EnhancedTestExecutor.new_executor;
          [apply Chat.reach_new|].
        apply (Chat.step_message "m1" "job-1" "now" prompt
                 EnhancedTestExecutor.new_executor).
        reflexivity.
      * apply (Chat.step_result "job-1" test_request
                 (fst (EnhancedTestExecutor._execute_test_async test_request
                         (Rig.mkWorld true 3 None 0))) submitted).
        -- vm_compute. reflexivity.
        -- right. exists Rig.World, Rig.rig_env, (Rig.mkWorld true 3 None 0).
           reflexivity.
    + apply (Chat.step_status "job-1" test_request result written).
      vm_compute. reflexivity.
  - apply (Chat.step_message "m2" "job-2" "now" "check the API" finished).
    vm_compute. reflexivity.
  - vm_compute. reflexivity.
Defined.
